(** * MediRepo: the record store behind [app.py]

    A shallow embedding of the persistence logic of the MediRepo Streamlit
    application (tables [patients], [doctors], [vitals], [prescriptions],
    and the form handlers that read and write them), followed by the
    properties of that logic.

    Conventions of the model.
    - A table is the list of its rows in rowid (insertion) order.  A
      [SELECT] without [ORDER BY] scans the table in that order.
    - TEXT values are [string]s.  Case mapping is the ASCII one, which is
      what SQLite's [upper()]/[lower()] do; Python's [str.upper()] and
      [str.lower()] agree with it on ASCII text.
    - REAL values are rationals ([Q]); INTEGER values are [Z].
    - A nullable column is an [option].
    - [sqlite3.IntegrityError] is the [None] of an [option store].
    - [uuid.uuid4()] draws 128 random bits; the draw is an explicit
      argument of the registration handler. *)

From Stdlib Require Import List String Ascii Bool Arith NArith ZArith QArith Lia.
From Stdlib Require Import Permutation Sorted.
Import ListNotations.

Local Open Scope string_scope.
Local Open Scope list_scope.

(** ** Text primitives *)

Module Text.

(** [str.upper()] / SQL [upper()] on one character. *)
Definition upper_char (c : ascii) : ascii :=
  let n := nat_of_ascii c in
  if (97 <=? n)%nat && (n <=? 122)%nat then ascii_of_nat (n - 32) else c.

(** [str.lower()] / SQL [lower()] on one character. *)
Definition lower_char (c : ascii) : ascii :=
  let n := nat_of_ascii c in
  if (65 <=? n)%nat && (n <=? 90)%nat then ascii_of_nat (n + 32) else c.

Fixpoint map_string (f : ascii -> ascii) (s : string) : string :=
  match s with
  | EmptyString => EmptyString
  | String c s' => String (f c) (map_string f s')
  end.

Definition upper : string -> string := map_string upper_char.
Definition lower : string -> string := map_string lower_char.

(** The characters [str.strip()] removes: TAB, LF, VT, FF, CR, the
    separators 0x1c-0x1f and the space. *)
Definition is_space (c : ascii) : bool :=
  let n := nat_of_ascii c in
  ((9 <=? n)%nat && (n <=? 13)%nat) || ((28 <=? n)%nat && (n <=? 32)%nat).

Fixpoint lstrip (s : string) : string :=
  match s with
  | EmptyString => EmptyString
  | String c s' => if is_space c then lstrip s' else s
  end.

Fixpoint rstrip (s : string) : string :=
  match s with
  | EmptyString => EmptyString
  | String c s' =>
      match rstrip s' with
      | EmptyString => if is_space c then EmptyString else String c EmptyString
      | r => String c r
      end
  end.

(** [str.strip()]. *)
Definition strip (s : string) : string := rstrip (lstrip s).

(** Python truthiness of a [str]: non-empty. *)
Definition truthy (s : string) : bool :=
  match s with EmptyString => false | _ => true end.

(** [n] rendered with exactly [w] digits in base [b], most significant
    first, through the digit table [digit]. *)
Fixpoint fixed_digits (digit : N -> ascii) (b : N) (w : nat) (n : N)
         (acc : string) : string :=
  match w with
  | O => acc
  | S w' => fixed_digits digit b w' (n / b)%N (String (digit (n mod b)%N) acc)
  end.

Definition hex_digit (d : N) : ascii :=
  match get (N.to_nat d) "0123456789abcdef" with
  | Some c => c
  | None => "0"%char
  end.

Definition dec_digit (d : N) : ascii :=
  match get (N.to_nat d) "0123456789" with
  | Some c => c
  | None => "0"%char
  end.

(** ['%0wx' % n] and ['%0wd' % n] for [n] below [b ^ w]. *)
Definition hex (w : nat) (n : N) : string := fixed_digits hex_digit 16 w n "".
Definition dec (w : nat) (n : N) : string := fixed_digits dec_digit 10 w n "".

End Text.

(** ** [uuid.uuid4()] and the patient token *)

Module Uuid.

(** [UUID(bytes=os.urandom(16), version=4)]: the variant and version
    bits are forced, every other bit is kept from the random draw. *)
Definition uuid4 (rand : N) : N :=
  let i := (rand mod 2 ^ 128)%N in
  let i := N.ldiff i (N.shiftl 49152 48) in
  let i := N.lor i (N.shiftl 32768 48) in
  let i := N.ldiff i (N.shiftl 61440 64) in
  N.lor i (N.shiftl 4 76).

(** [UUID.__str__]: 32 hex digits grouped 8-4-4-4-12. *)
Definition str (u : N) : string :=
  let h := Text.hex 32 u in
  substring 0 8 h ++ "-" ++ substring 8 4 h ++ "-" ++ substring 12 4 h
    ++ "-" ++ substring 16 4 h ++ "-" ++ substring 20 12 h.

(** [str(uuid.uuid4())[:8].upper()] *)
Definition new_unique_id (rand : N) : string :=
  Text.upper (substring 0 8 (str (uuid4 rand))).

End Uuid.

(** ** Dates as the form widgets hand them over *)

Record date := mkDate { year : N; month : N; day : N }.

(** [%Y]: the year in decimal.  The C library does not pad it, so a year
    below 1000 has fewer than four digits (years run from 1 to 9999). *)
Definition year_text (y : N) : string :=
  if (y <? 10)%N then Text.dec 1 y
  else if (y <? 100)%N then Text.dec 2 y
  else if (y <? 1000)%N then Text.dec 3 y
  else Text.dec 4 y.

(** [d.strftime('%Y-%m-%d')]: month and day are padded to two digits. *)
Definition strftime_ymd (d : date) : string :=
  year_text (year d) ++ "-" ++ Text.dec 2 (month d) ++ "-" ++ Text.dec 2 (day d).

(** [d.strftime('%Y-%m-%d %H:%M:%S')]: a [date] has no time of day. *)
Definition strftime_ymd_hms (d : date) : string :=
  strftime_ymd d ++ " 00:00:00".

(** The calendar order on dates, and the dates a [date_input] can
    return (four-digit years). *)
Definition date_compare (d1 d2 : date) : comparison :=
  match (year d1 ?= year d2)%N with
  | Eq => match (month d1 ?= month d2)%N with
          | Eq => (day d1 ?= day d2)%N
          | c => c
          end
  | c => c
  end.

Definition date_ok (d : date) : Prop :=
  (1000 <= year d <= 9999)%N /\ (1 <= month d <= 12)%N /\ (1 <= day d <= 31)%N.

(** ** The schema of [init_db] *)

(** A row of [patients]; [unique_id] is the PRIMARY KEY, [email] and
    [phone] are UNIQUE NOT NULL, [first_name] is NOT NULL. *)
Record patient := mkPatient {
  unique_id  : string;
  first_name : string;
  last_name  : option string;
  email      : string;
  phone      : string;
  dob        : option string;
  location   : option string;
  height_cm  : option Q;
  diet_pref  : option string;
  gender     : option string
}.

(** A row of [doctors]; [doctor_id] is INTEGER PRIMARY KEY AUTOINCREMENT. *)
Record doctor := mkDoctor {
  doctor_id     : N;
  d_first_name  : string;
  d_last_name   : string;
  d_email       : string;
  d_phone       : string;
  speciality    : string
}.

(** A row of [vitals]. *)
Record vital := mkVital {
  vital_id     : N;
  v_patient_id : string;
  record_date  : string;
  weight_kg    : option Q;
  bp_systolic  : option Z;
  bp_diastolic : option Z;
  heart_rate   : option Z;
  sugar_level  : option Q
}.

(** A row of [prescriptions]. *)
Record prescription := mkPrescription {
  rx_id        : N;
  rx_patient_id : string;
  doctor_name  : string;
  visit_date   : string;
  summary      : string;
  medicine     : string;
  frequency    : string;
  timing       : string
}.

(** The database file [medirepo.db]. *)
Record store := mkStore {
  patients      : list patient;
  doctors       : list doctor;
  vitals        : list vital;
  prescriptions : list prescription
}.

(** The state [init_db] leaves behind on a fresh file. *)
Definition empty_store : store := mkStore [] [] [] [].

(** ** Storage-engine behaviour used by the handlers *)

(** The value AUTOINCREMENT assigns: one more than the largest rowid in
    the table (rows are never deleted, so that is the largest ever used). *)
Definition next_rowid {A : Type} (key : A -> N) (rows : list A) : N :=
  (1 + fold_right (fun r m => N.max (key r) m) 0 rows)%N.

(** [INSERT INTO patients]: [None] is the [sqlite3.IntegrityError] raised
    when the primary key, the email or the phone is already in the table. *)
Definition insert_patient (s : store) (p : patient) : option store :=
  if existsb (fun q => unique_id q =? unique_id p) (patients s)
     || existsb (fun q => email q =? email p) (patients s)
     || existsb (fun q => phone q =? phone p) (patients s)
  then None
  else Some (mkStore (patients s ++ [p]) (doctors s) (vitals s) (prescriptions s)).

(** [INSERT INTO doctors]: the id is assigned by the engine. *)
Definition insert_doctor (s : store) (fn ln em ph sp : string) : option store :=
  if existsb (fun q => d_email q =? em) (doctors s)
     || existsb (fun q => d_phone q =? ph) (doctors s)
  then None
  else Some (mkStore (patients s)
               (doctors s ++ [mkDoctor (next_rowid doctor_id (doctors s)) fn ln em ph sp])
               (vitals s) (prescriptions s)).

(** [INSERT INTO vitals]; foreign keys are declared but SQLite does not
    enforce them unless asked to, and [app.py] never asks. *)
Definition insert_vital (s : store) (pid rdate : string)
           (w : option Q) (bs bd hr : option Z) (sg : option Q) : store :=
  mkStore (patients s) (doctors s)
    (vitals s ++ [mkVital (next_rowid vital_id (vitals s)) pid rdate w bs bd hr sg])
    (prescriptions s).

(** [INSERT INTO prescriptions]. *)
Definition insert_prescription (s : store)
           (pid dname vdate summ med freq tim : string) : store :=
  mkStore (patients s) (doctors s) (vitals s)
    (prescriptions s ++
       [mkPrescription (next_rowid rx_id (prescriptions s)) pid dname vdate summ med freq tim]).

(** [ORDER BY]: rows inserted one by one into a list kept ordered by
    [le]; rows with equal keys keep their table order. *)
Fixpoint insert_ordered {A : Type} (le : A -> A -> bool) (x : A) (l : list A) : list A :=
  match l with
  | [] => [x]
  | y :: l' => if le x y then x :: l else y :: insert_ordered le x l'
  end.

Definition order_by {A : Type} (le : A -> A -> bool) (l : list A) : list A :=
  fold_right (insert_ordered le) [] l.

(** ** [get_patient_vitals] and [get_patient_prescriptions] *)

(** A row of the vitals DataFrame. *)
Record vitals_row := mkVitalsRow {
  Date         : string;
  Weight       : option Q;
  BP_Systolic  : option Z;
  BP_Diastolic : option Z;
  Heart_Rate   : option Z;
  Sugar_Level  : option Q
}.

Definition vitals_columns (v : vital) : vitals_row :=
  mkVitalsRow (record_date v) (weight_kg v) (bp_systolic v) (bp_diastolic v)
    (heart_rate v) (sugar_level v).

(** [SELECT ... FROM vitals WHERE patient_id = ? ORDER BY record_date ASC].
    An empty result gives the empty DataFrame; [pd.to_datetime] retypes
    the [Date] column and leaves the rows where they are. *)
Definition get_patient_vitals (s : store) (patient_id : string) : list vitals_row :=
  map vitals_columns
    (order_by (fun a b => (record_date a <=? record_date b)%string)
       (filter (fun v => v_patient_id v =? patient_id) (vitals s))).

(** A row of the prescriptions DataFrame. *)
Record rx_row := mkRxRow {
  Visit_Date : string;
  Doctor     : string;
  Summary    : string;
  Medicine   : string;
  Frequency  : string;
  Timing     : string
}.

Definition rx_columns (r : prescription) : rx_row :=
  mkRxRow (visit_date r) (doctor_name r) (summary r) (medicine r) (frequency r) (timing r).

(** [SELECT ... FROM prescriptions WHERE patient_id = ? ORDER BY visit_date DESC]. *)
Definition get_patient_prescriptions (s : store) (patient_id : string) : list rx_row :=
  map rx_columns
    (order_by (fun a b => (visit_date b <=? visit_date a)%string)
       (filter (fun r => rx_patient_id r =? patient_id) (prescriptions s))).

(** [df[col].notna().any()] *)
Definition notna_any {A B : Type} (col : A -> option B) (df : list A) : bool :=
  existsb (fun r => match col r with Some _ => true | None => false end) df.

(** [df.dropna(subset=[col])] *)
Definition dropna {A B : Type} (col : A -> option B) (df : list A) : list A :=
  filter (fun r => match col r with Some _ => true | None => false end) df.

(** The guard of the weight chart in the "Health Vitals" tab:
    [not vitals_df.empty] and [vitals_df['Weight (kg)'].notna().any()]. *)
Definition has_weight_data (df : list vitals_row) : bool :=
  match df with
  | [] => false
  | _ => notna_any Weight df
  end.

(** ** Sessions and what a handler reports *)

(** [st.session_state.role] together with [st.session_state.user_info]:
    the dictionary built at login holds exactly the columns of the row. *)
Inductive session :=
| PatientSession (user : patient)
| DoctorSession (user : doctor).

(** What a form handler shows to the user, named after the failure it
    stands for. *)
Inductive outcome :=
| RegistrationSuccessful (uid : string)
    (* "Registration Successful! Your Unique ID is: ..." *)
| DoctorRegistered       (* "Doctor registered successfully! Please login." *)
| ValidationError        (* "Please fill all mandatory fields." and the like *)
| DuplicateError         (* "An account with this email or phone number already exists." *)
| LoggedIn
| AuthError              (* "Invalid credentials. ..." *)
| ProfileUpdated         (* "Profile Updated!" *)
| RecordAdded            (* "New record added!" *)
| NotFoundError          (* "No patient found with ID: ..." *)
| PrescriptionSaved      (* "Prescription saved successfully!" *)
| EmptySubmissionError   (* "No medicines were entered. Prescription not saved." *)
| LoggedOut
| NoHandler.             (* the widget is not on the current screen *)

(** One entry of [st.session_state.medicines]. *)
Record med := mkMed { name : string; freq : string; med_timing : string }.

(** ** [patient_journey] *)

(** [fname and email and phone] *)
Definition mandatory (fname em ph : string) : bool :=
  Text.truthy fname && Text.truthy em && Text.truthy ph.

(** The "Register" form; [rand] is the draw of [uuid.uuid4()]. *)
Definition register_patient (s : store) (fname lname em ph : string) (rand : N)
  : store * outcome :=
  if negb (mandatory fname em ph)
  then (s, ValidationError)
  else
    let uid := Uuid.new_unique_id rand in
    match insert_patient s (mkPatient uid fname (Some lname) em ph
                              None None None None None) with
    | Some s' => (s', RegistrationSuccessful uid)
    | None => (s, DuplicateError)
    end.

(** The [WHERE] clause of the patient login query, with the two
    parameters the handler binds.  The stored side is folded by SQLite
    (ASCII only); the typed side by Python, which [Text] follows on ASCII
    text. *)
Definition login_matches (fname uid : string) (p : patient) : bool :=
  (Text.lower (first_name p) =? Text.strip (Text.lower fname))
  && (Text.upper (unique_id p) =? Text.strip (Text.upper uid)).

(** [SELECT * FROM patients WHERE lower(first_name)=? AND upper(unique_id)=?] *)
Definition login_query (s : store) (fname uid : string) : list patient :=
  filter (login_matches fname uid) (patients s).

(** The "Login" form: [user_data[0]] when the result is not empty. *)
Definition login_patient (s : store) (fname uid : string) : option patient :=
  match login_query s fname uid with
  | user_details :: _ => Some user_details
  | [] => None
  end.

(** ** [patient_dashboard] *)

(** "Save Profile": the UPDATE and the refresh of [user_info]. *)
Definition set_profile (height : Q) (dob_s gender_s diet location_s : string)
           (p : patient) : patient :=
  mkPatient (unique_id p) (first_name p) (last_name p) (email p) (phone p)
    (Some dob_s) (Some location_s) (Some height) (Some diet) (Some gender_s).

Definition update_patients (uid : string) (height : Q)
           (dob_s gender_s diet location_s : string) (rows : list patient)
  : list patient :=
  map (fun p => if unique_id p =? uid
                then set_profile height dob_s gender_s diet location_s p
                else p) rows.

Definition save_profile (s : store) (user : patient) (height : Q) (dob_d : date)
           (gender_s diet location_s : string) : store * patient :=
  let dob_s := strftime_ymd dob_d in
  (mkStore (update_patients (unique_id user) height dob_s gender_s diet location_s
              (patients s))
     (doctors s) (vitals s) (prescriptions s),
   set_profile height dob_s gender_s diet location_s user).

(** [x if x > 0 else None] *)
Definition positive_or_none_Q (x : Q) : option Q :=
  if Qle_bool x 0 then None else Some x.

Definition positive_or_none_Z (x : Z) : option Z :=
  if (x >? 0)%Z then Some x else None.

(** "Save Record" in the "Add New Data" tab. *)
Definition save_record (s : store) (user : patient) (rdate : date)
           (weight : Q) (bp_s bp_d hr : Z) (sugar : Q) : store :=
  insert_vital s (unique_id user) (strftime_ymd_hms rdate)
    (positive_or_none_Q weight)
    (positive_or_none_Z bp_s)
    (positive_or_none_Z bp_d)
    (positive_or_none_Z hr)
    (positive_or_none_Q sugar).

(** The guard of the BMI metric in the "Fitness Hub" tab. *)
Definition bmi_available (user : patient) (df : list vitals_row) : bool :=
  match height_cm user with
  | Some h => negb (Qle_bool h 0) && has_weight_data df
  | None => false
  end.

(** ** [doctor_journey] *)

Definition register_doctor (s : store) (fname lname em ph spec : string)
  : store * outcome :=
  if negb (forallb Text.truthy [fname; lname; em; ph; spec])
  then (s, ValidationError)
  else
    match insert_doctor s fname lname em ph spec with
    | Some s' => (s', DoctorRegistered)
    | None => (s, DuplicateError)
    end.

Definition login_doctor (s : store) (fname lname ph : string) : option doctor :=
  match filter (fun d =>
          (Text.lower (d_first_name d) =? Text.strip (Text.lower fname))
          && (Text.lower (d_last_name d) =? Text.strip (Text.lower lname))
          && (d_phone d =? Text.strip ph)) (doctors s) with
  | user_details :: _ => Some user_details
  | [] => None
  end.

(** ** [doctor_portal] *)

(** [f"Dr. {user['first_name']} {user.get('last_name', '')}".strip()] *)
Definition full_name (user : doctor) : string :=
  Text.strip ("Dr. " ++ d_first_name user ++ " " ++ d_last_name user).

(** [SELECT 1 FROM patients WHERE upper(unique_id)=?] bound to
    [patient_id.upper().strip()]; true when the result is not empty. *)
Definition patient_exists (s : store) (patient_id : string) : bool :=
  existsb (fun p => Text.upper (unique_id p) =? Text.strip (Text.upper patient_id))
    (patients s).

(** One turn of the loop over [st.session_state.medicines]: the state is
    the database and the [prescription_saved] flag. *)
Definition save_medicine (patient_id dname vdate summ : string)
           (acc : store * bool) (m : med) : store * bool :=
  if Text.truthy (Text.strip (name m))
  then (insert_prescription (fst acc) (Text.strip (Text.upper patient_id))
          dname vdate summ (name m) (freq m) (med_timing m), true)
  else acc.

(** "Save Full Prescription". *)
Definition save_prescription (s : store) (user : doctor) (patient_id : string)
           (vdate : date) (summ : string) (medicines : list med)
  : store * outcome :=
  if negb (Text.truthy patient_id) then (s, ValidationError)
  else if negb (patient_exists s patient_id) then (s, NotFoundError)
  else
    let '(s', prescription_saved) :=
      fold_left (save_medicine patient_id (full_name user) (strftime_ymd vdate) summ)
        medicines (s, false) in
    if prescription_saved then (s', PrescriptionSaved)
    else (s', EmptySubmissionError).

(** ** [main]: one form submission in one browser session *)

Inductive event :=
| RegisterPatient (fname lname em ph : string) (rand : N)
| LoginPatient (fname uid : string)
| SaveProfile (height : Q) (dob_d : date) (gender_s diet location_s : string)
| SaveRecord (rdate : date) (weight : Q) (bp_s bp_d hr : Z) (sugar : Q)
| RegisterDoctor (fname lname em ph spec : string)
| LoginDoctor (fname lname ph : string)
| SavePrescription (patient_id : string) (vdate : date) (summ : string)
                   (medicines : list med)
| Logout.

(** [main] shows the dashboard or the portal of the logged-in role, and
    the two journeys otherwise; a form that is not shown cannot be
    submitted. *)
Definition main (s : store) (sess : option session) (e : event)
  : store * option session * outcome :=
  match sess, e with
  | None, RegisterPatient fname lname em ph rand =>
      let '(s', o) := register_patient s fname lname em ph rand in (s', None, o)
  | None, LoginPatient fname uid =>
      match login_patient s fname uid with
      | Some u => (s, Some (PatientSession u), LoggedIn)
      | None => (s, None, AuthError)
      end
  | None, RegisterDoctor fname lname em ph spec =>
      let '(s', o) := register_doctor s fname lname em ph spec in (s', None, o)
  | None, LoginDoctor fname lname ph =>
      match login_doctor s fname lname ph with
      | Some u => (s, Some (DoctorSession u), LoggedIn)
      | None => (s, None, AuthError)
      end
  | Some (PatientSession user), SaveProfile height dob_d gender_s diet location_s =>
      let '(s', user') := save_profile s user height dob_d gender_s diet location_s in
      (s', Some (PatientSession user'), ProfileUpdated)
  | Some (PatientSession user), SaveRecord rdate weight bp_s bp_d hr sugar =>
      (save_record s user rdate weight bp_s bp_d hr sugar,
       Some (PatientSession user), RecordAdded)
  | Some (DoctorSession user), SavePrescription patient_id vdate summ medicines =>
      let '(s', o) := save_prescription s user patient_id vdate summ medicines in
      (s', Some (DoctorSession user), o)
  | Some _, Logout => (s, None, LoggedOut)
  | _, _ => (s, sess, NoHandler)
  end.

(** ** The application: one database, any number of browser sessions *)

Record app := mkApp { db : store; sessions : list (option session) }.

Definition initial_app : app := mkApp empty_store [].

Fixpoint set_nth {A : Type} (i : nat) (x : A) (l : list A) {struct l} : list A :=
  match l, i with
  | [], _ => []
  | _ :: l', O => x :: l'
  | y :: l', S i' => y :: set_nth i' x l'
  end.

(** What can happen next: a browser opens a new session, or session [i]
    submits a form. *)
Inductive action :=
| Connect
| Submit (i : nat) (e : event).

Definition step (a : app) (act : action) : app :=
  match act with
  | Connect => mkApp (db a) (sessions a ++ [None])
  | Submit i e =>
      match nth_error (sessions a) i with
      | Some sess =>
          let '(s', sess', _) := main (db a) sess e in
          mkApp s' (set_nth i sess' (sessions a))
      | None => a
      end
  end.

Definition run (acts : list action) : app := fold_left step acts initial_app.

(** The states the application can be in. *)
Definition reachable (a : app) : Prop := exists acts, run acts = a.

(** ** What the handlers maintain *)

Definition patient_ids (s : store) : list string := map unique_id (patients s).

(** The consistency of a database: every token came out of the
    generator, the three uniqueness constraints of [patients] hold, and
    every reference to a patient resolves. *)
Record store_ok (s : store) : Prop := mkStoreOk {
  ids_generated :
    Forall (fun p => exists rand, unique_id p = Uuid.new_unique_id rand) (patients s);
  ids_nodup    : NoDup (patient_ids s);
  emails_nodup : NoDup (map email (patients s));
  phones_nodup : NoDup (map phone (patients s));
  vitals_ref   : Forall (fun v => In (v_patient_id v) (patient_ids s)) (vitals s);
  rx_ref       : Forall (fun r => In (rx_patient_id r) (patient_ids s)) (prescriptions s)
}.

(** A patient session was built from a row of the table. *)
Definition session_ok (s : store) (sess : option session) : Prop :=
  match sess with
  | Some (PatientSession u) => In (unique_id u) (patient_ids s)
  | _ => True
  end.

Definition app_ok (a : app) : Prop :=
  store_ok (db a) /\ Forall (session_ok (db a)) (sessions a).

(** ** Vocabulary of the statements *)

(** What "zero is stored as null, a positive value unchanged" says of one
    REAL field and of one INTEGER field. *)
Definition stored_real (submitted : Q) (column : option Q) : Prop :=
  (submitted == 0 -> column = None) /\ (0 < submitted -> column = Some submitted).

Definition stored_int (submitted : Z) (column : option Z) : Prop :=
  (submitted = 0%Z -> column = None) /\ ((0 < submitted)%Z -> column = Some submitted).

(** What the UPDATE does to one row: the key and the registration fields
    stay; a row with the given key gets the five profile fields
    overwritten, any other row is left as it was. *)
Definition overwritten (uid : string) (h : Q) (d g di l : string) (p p' : patient) : Prop :=
  unique_id p' = unique_id p /\ first_name p' = first_name p
  /\ last_name p' = last_name p /\ email p' = email p /\ phone p' = phone p
  /\ (if unique_id p =? uid
      then height_cm p' = Some h /\ dob p' = Some d /\ gender p' = Some g
           /\ diet_pref p' = Some di /\ location p' = Some l
      else p' = p).

(** The medicine entries that produce a row. *)
Definition keeps (m : med) : bool := Text.truthy (Text.strip (name m)).

(** The columns of a prescription row that the handler chooses. *)
Definition rx_payload (r : prescription) : string * rx_row :=
  (rx_patient_id r, rx_columns r).

(** ** Sample data *)

(** Two rows that the schema accepts side by side (the primary key
    compares TEXT byte by byte) and that the login query cannot tell
    apart. *)
Definition ann_lower : patient :=
  mkPatient "ab12cd34" "Ann" (Some "Lee") "ann@example.org" "555-0100"
    None None None None None.

Definition ann_upper : patient :=
  mkPatient "AB12CD34" "ann" (Some "Roe") "roe@example.org" "555-0101"
    None None None None None.

Definition ambiguous_store : store := mkStore [ann_lower; ann_upper] [] [] [].

(** A draw of [uuid.uuid4()], and the database after Ann has registered
    with it. *)
Definition demo_rand : N := 0xdeadbeef0123456789abcdef01234567.

Definition ann_registered : store :=
  fst (register_patient empty_store "Ann" "Lee" "ann@example.org" "555-0100" demo_rand).

Definition dr_rao : doctor :=
  mkDoctor 1 "Raj" "Rao" "raj@example.org" "555-0200" "Cardiology".

Definition demo_medicines : list med :=
  [mkMed "  " "Once a day" "After Breakfast";
   mkMed "Aspirin" "Twice a day" "After Lunch"].

(** Ann registers, logs in, fills in her profile and records a vital
    without a weight; Dr. Rao registers and logs in from a second
    browser. *)
Definition demo_acts : list action :=
  [Connect;
   Submit 0 (RegisterPatient "Ann" "Lee" "ann@example.org" "555-0100" demo_rand);
   Submit 0 (LoginPatient " ann" "deadbeef ");
   Submit 0 (SaveProfile (1655 # 10) (mkDate 1990 4 2) "Female" "Vegetarian" "Pune");
   Submit 0 (SaveRecord (mkDate 2024 3 7) 0 120 80 0 (905 # 10));
   Connect;
   Submit 1 (RegisterDoctor "Raj" "Rao" "raj@example.org" "555-0200" "Cardiology");
   Submit 1 (LoginDoctor "raj" "RAO" "555-0200")].

Definition demo_app : app := run demo_acts.

(** ... and then Dr. Rao writes Ann a prescription. *)
Definition demo_app_rx : app :=
  step demo_app
    (Submit 1 (SavePrescription "deadbeef" (mkDate 2024 3 8) "Flu" demo_medicines)).

(** ** The rest of [patient_dashboard] *)

(** [list.index]: [None] is the [ValueError] of a value that is not in
    the list. *)
Fixpoint index_of (x : string) (l : list string) : option nat :=
  match l with
  | [] => None
  | y :: l' => if y =? x then Some O
               else match index_of x l' with
                    | Some i => Some (S i)
                    | None => None
                    end
  end.

Definition gender_options : list string :=
  ["Male"; "Female"; "Other"; "Prefer not to say"].

Definition diet_options : list string :=
  ["Vegetarian"; "Non-Vegetarian"; "Ovo-Vegetarian"; "Jain"].

(** [options.index(user[k]) if user.get(k) and user.get(k) in options else 0],
    the preselected entry of a profile selectbox. *)
Definition selectbox_index (options : list string) (v : option string) : option nat :=
  match v with
  | Some x => if Text.truthy x && existsb (fun o => o =? x) options
              then index_of x options
              else Some O
  | None => Some O
  end.

(** [float(user.get('height_cm') or 0)], the prefilled height. *)
Definition form_height (user : patient) : Q :=
  match height_cm user with
  | Some h => if Qeq_bool h 0 then 0 else h
  | None => 0
  end.

(** [vitals_df.dropna(subset=['Weight (kg)'])['Weight (kg)'].iloc[-1]]:
    the weight of the last row that has one; [None] is the [IndexError]
    of [iloc[-1]] on an empty frame. *)
Definition latest_weight (df : list vitals_row) : option Q :=
  match rev (dropna Weight df) with
  | r :: _ => Weight r
  | [] => None
  end.

(** Python truthiness of a nullable TEXT value. *)
Definition truthy_opt (v : option string) : bool :=
  match v with
  | Some x => Text.truthy x
  | None => false
  end.

(** The guard of the fitness plan: [goal_weight > 0 and user.get('dob')
    and user.get('gender') and not vitals_df.empty]. *)
Definition fitness_guard (goal_weight : Q) (user : patient) (df : list vitals_row) : bool :=
  negb (Qle_bool goal_weight 0) && truthy_opt (dob user) && truthy_opt (gender user)
  && match df with [] => false | _ => true end.

(** ** The medicine list of [doctor_portal] *)

(** The entry that "Add Medicine" appends and that the form starts with. *)
Definition blank_medicine : med := mkMed "" "Once a day" "After Breakfast".

(** [st.session_state.medicines]; [None] when the key is absent. *)
Definition add_medicine (ms : option (list med)) : option (list med) :=
  Some (match ms with Some l => l | None => [] end ++ [blank_medicine]).

(** "Remove Last": [pop()] only when the key is present and the list is
    not empty. *)
Definition remove_last (ms : option (list med)) : option (list med) :=
  match ms with
  | Some (m :: l) => Some (removelast (m :: l))
  | _ => ms
  end.

(** The list the prescription form shows: created with one blank entry
    when the key is absent. *)
Definition form_medicines (ms : option (list med)) : list med :=
  match ms with
  | Some l => l
  | None => [blank_medicine]
  end.

(** ** What one form submission may write *)

(** The single statements that the handlers of a session send to the
    database. *)
Inductive write (sess : option session) (s : store) : store -> Prop :=
| write_patient fname lname em ph rand s' :
    sess = None -> mandatory fname em ph = true ->
    insert_patient s (mkPatient (Uuid.new_unique_id rand) fname (Some lname) em ph
                        None None None None None) = Some s' ->
    write sess s s'
| write_doctor fname lname em ph spec s' :
    sess = None -> forallb Text.truthy [fname; lname; em; ph; spec] = true ->
    insert_doctor s fname lname em ph spec = Some s' ->
    write sess s s'
| write_profile user height dob_d gender_s diet location_s :
    sess = Some (PatientSession user) ->
    write sess s (fst (save_profile s user height dob_d gender_s diet location_s))
| write_vital user rdate weight bp_s bp_d hr sugar :
    sess = Some (PatientSession user) ->
    write sess s (save_record s user rdate weight bp_s bp_d hr sugar)
| write_prescription user p vdate summ m :
    sess = Some (DoctorSession user) ->
    In p (patients s) -> Text.truthy (Text.strip (name m)) = true ->
    write sess s (insert_prescription s (Text.upper (unique_id p)) (full_name user)
                    (strftime_ymd vdate) summ (name m) (freq m) (med_timing m)).

Inductive writes (sess : option session) (s : store) : store -> Prop :=
| writes_nil : writes sess s s
| writes_cons s1 s2 : write sess s s1 -> writes sess s1 s2 -> writes sess s s2.

(** The identity columns of a patient row: what registration sets and
    nothing ever changes. *)
Definition identity_columns (p : patient) : string * string * option string * string * string :=
  (unique_id p, first_name p, last_name p, email p, phone p).

(** [l] is the beginning of [l']. *)
Definition prefix_of {A : Type} (l l' : list A) : Prop := exists rest, l' = l ++ rest.

(** Every measurement that is not null is strictly positive. *)
Definition positive_measurements (v : vital) : Prop :=
  (forall w, weight_kg v = Some w -> 0 < w)
  /\ (forall x, bp_systolic v = Some x -> (0 < x)%Z)
  /\ (forall x, bp_diastolic v = Some x -> (0 < x)%Z)
  /\ (forall x, heart_rate v = Some x -> (0 < x)%Z)
  /\ (forall g, sugar_level v = Some g -> 0 < g).

(** The database after Bob has registered next, with a draw whose first
    32 bits are zero. *)
Definition bob_registered : store :=
  Eval vm_compute in
    fst (register_patient (db demo_app_rx) "Bob" "Roe" "bob@example.org" "555-0102" 42).

(** Ann as her session knows her after the profile save, and the
    application after she has also recorded a weight. *)
Definition ann_session : patient :=
  mkPatient "DEADBEEF" "Ann" (Some "Lee") "ann@example.org" "555-0100"
    (Some "1990-04-02") (Some "Pune") (Some (1655 # 10)) (Some "Vegetarian")
    (Some "Female").

Definition demo_app_weighed : app :=
  step demo_app_rx (Submit 0 (SaveRecord (mkDate 2024 3 9) (702 # 10) 0 0 0 0)).

(** ** Vocabulary of the further statements *)

(** Every character of the string satisfies [P]. *)
Fixpoint all_chars (P : ascii -> bool) (s : string) : bool :=
  match s with
  | EmptyString => true
  | String c s' => P c && all_chars P s'
  end.

(** The first character of a string, when it has one, is no space. *)
(** A character of ASCII, and a text made of such characters only.  On
    ASCII text Python's [str.lower()], [str.upper()] and [str.strip()]
    are the functions of [Text]; the statements about typed input are
    made for such text. *)
Definition is_ascii (c : ascii) : bool := (nat_of_ascii c <? 128)%nat.

Definition ascii_text (s : string) : Prop := all_chars is_ascii s = true.

(** The text has a character that is not whitespace: it is not blank
    after trimming. *)
Definition not_blank (s : string) : bool := negb (all_chars Text.is_space s).

Definition starts_clean (s : string) : Prop :=
  match s with
  | EmptyString => True
  | String c _ => Text.is_space c = false
  end.

(** A digit or a capital letter from A to F. *)
Definition is_upper_hex (c : ascii) : bool :=
  existsb (Ascii.eqb c) (list_ascii_of_string "0123456789ABCDEF").

(** What "the tables only grow" says of two databases. *)
Definition grows (s s' : store) : Prop :=
  prefix_of (vitals s) (vitals s')
  /\ prefix_of (prescriptions s) (prescriptions s')
  /\ prefix_of (doctors s) (doctors s')
  /\ prefix_of (map identity_columns (patients s)) (map identity_columns (patients s')).

(** Surrogate keys are positive and distinct within their table. *)
Definition rowids_ok (s : store) : Prop :=
  NoDup (map vital_id (vitals s))
  /\ NoDup (map rx_id (prescriptions s))
  /\ NoDup (map doctor_id (doctors s))
  /\ Forall (fun v => (1 <= vital_id v)%N) (vitals s)
  /\ Forall (fun r => (1 <= rx_id r)%N) (prescriptions s)
  /\ Forall (fun d => (1 <= doctor_id d)%N) (doctors s).

(** The mandatory fields of an account are not empty. *)
Definition patient_filled (p : patient) : Prop :=
  first_name p <> "" /\ email p <> "" /\ phone p <> "".

Definition doctor_filled (d : doctor) : Prop :=
  d_first_name d <> "" /\ d_last_name d <> "" /\ d_email d <> ""
  /\ d_phone d <> "" /\ speciality d <> "".

(** The accounts of a database are filled in and the doctors' contacts
    are unique. *)
Definition accounts_ok (s : store) : Prop :=
  Forall patient_filled (patients s)
  /\ Forall doctor_filled (doctors s)
  /\ NoDup (map d_email (doctors s))
  /\ NoDup (map d_phone (doctors s)).

(** Stored medicines are not blank and stored dates come from [strftime]. *)
Definition rows_wellformed (s : store) : Prop :=
  Forall (fun r => Text.strip (medicine r) <> ""
                   /\ exists d, visit_date r = strftime_ymd d) (prescriptions s)
  /\ Forall (fun v => exists d, record_date v = strftime_ymd_hms d) (vitals s)
  /\ Forall (fun p => forall x, dob p = Some x -> exists d, x = strftime_ymd d) (patients s).

(** A doctor session was built from a row of [doctors]. *)
Definition doctor_session_ok (s : store) (sess : option session) : Prop :=
  match sess with
  | Some (DoctorSession u) => In u (doctors s)
  | _ => True
  end.

(** The prescription carries the display name of a registered doctor. *)
Definition signed (s : store) (r : prescription) : Prop :=
  exists d, In d (doctors s) /\ doctor_name r = full_name d.

(** Every doctor session and every prescription goes back to a
    registered doctor. *)
Definition signatures_ok (a : app) : Prop :=
  Forall (doctor_session_ok (db a)) (sessions a)
  /\ Forall (signed (db a)) (prescriptions (db a)).

(** * Properties *)

(** ** Text *)

Module TextFacts.
Import Text.

Lemma upper_char_idem (c : ascii) : upper_char (upper_char c) = upper_char c.
Proof.
  destruct c as [b0 b1 b2 b3 b4 b5 b6 b7].
  destruct b0, b1, b2, b3, b4, b5, b6, b7; reflexivity.
Qed.

Lemma upper_idem (s : string) : upper (upper s) = upper s.
Proof.
  unfold upper. induction s as [|c s IH]; simpl.
  - reflexivity.
  - now rewrite upper_char_idem, IH.
Qed.

Lemma map_string_length f (s : string) : length (map_string f s) = length s.
Proof. induction s; simpl; congruence. Qed.

Lemma fixed_digits_length digit b w : forall n acc,
  length (fixed_digits digit b w n acc) = (w + length acc)%nat.
Proof.
  induction w as [|w IH]; intros n acc; simpl.
  - reflexivity.
  - rewrite IH. simpl. lia.
Qed.

Lemma substring_0_length : forall (n : nat) (s : string),
  (n <= length s)%nat -> length (substring 0 n s) = n.
Proof.
  induction n as [|n IH]; intros [|c s] H; simpl in *; try reflexivity; try lia.
  rewrite IH; [reflexivity | lia].
Qed.

Lemma substring_0_append : forall (a b : string),
  substring 0 (length a) (a ++ b) = a.
Proof.
  induction a as [|c a IH]; intros b; simpl.
  - now destruct b.
  - now rewrite IH.
Qed.

Lemma truthy_true (s : string) : truthy s = true <-> s <> "".
Proof. destruct s; simpl; split; congruence. Qed.

Lemma lstrip_length (s : string) : (length (lstrip s) <= length s)%nat.
Proof.
  induction s as [|c s IH]; simpl; [lia|].
  destruct (is_space c); simpl; lia.
Qed.

Lemma rstrip_length (s : string) : (length (rstrip s) <= length s)%nat.
Proof.
  induction s as [|c s IH]; simpl; [lia|].
  destruct (rstrip s); [destruct (is_space c)|]; simpl in *; lia.
Qed.

Lemma strip_length (s : string) : (length (strip s) <= length s)%nat.
Proof.
  unfold strip. pose proof (rstrip_length (lstrip s)). pose proof (lstrip_length s). lia.
Qed.

End TextFacts.

(** ** The patient token *)

Module UuidFacts.
Import Text TextFacts Uuid.

Lemma str_prefix (u : N) : substring 0 8 (str u) = substring 0 8 (hex 32 u).
Proof.
  unfold str.
  assert (L : length (substring 0 8 (hex 32 u)) = 8%nat).
  { apply substring_0_length. unfold hex. rewrite fixed_digits_length. simpl. lia. }
  set (a := substring 0 8 (hex 32 u)) in *.
  rewrite <- L at 1. apply substring_0_append.
Qed.

Lemma new_unique_id_length (rand : N) : length (new_unique_id rand) = 8%nat.
Proof.
  unfold new_unique_id, upper. rewrite map_string_length, str_prefix.
  apply substring_0_length. unfold hex. rewrite fixed_digits_length. simpl. lia.
Qed.

Lemma new_unique_id_upper (rand : N) : upper (new_unique_id rand) = new_unique_id rand.
Proof. unfold new_unique_id. apply upper_idem. Qed.

End UuidFacts.

(** ** [ORDER BY] *)

Section OrderBy.
Context {A : Type} (le : A -> A -> bool).
Hypothesis le_total : forall x y, le x y = true \/ le y x = true.
Hypothesis le_trans : forall x y z, le x y = true -> le y z = true -> le x z = true.

Let leP (x y : A) : Prop := le x y = true.

Lemma insert_ordered_perm (x : A) (l : list A) :
  Permutation (insert_ordered le x l) (x :: l).
Proof.
  induction l as [|y l IH]; simpl.
  - apply Permutation_refl.
  - destruct (le x y).
    + apply Permutation_refl.
    + eapply perm_trans; [apply perm_skip, IH | apply perm_swap].
Qed.

Lemma order_by_perm (l : list A) : Permutation (order_by le l) l.
Proof.
  unfold order_by. induction l as [|x l IH]; simpl.
  - apply perm_nil.
  - eapply perm_trans; [apply insert_ordered_perm | apply perm_skip, IH].
Qed.

Lemma insert_ordered_sorted (x : A) (l : list A) :
  StronglySorted leP l -> StronglySorted leP (insert_ordered le x l).
Proof.
  induction 1 as [|y l Hs IH Hy]; simpl.
  - repeat constructor.
  - destruct (le x y) eqn:E.
    + constructor; [constructor; assumption|].
      constructor; [exact E|].
      rewrite Forall_forall in *. intros z Hz. eapply le_trans; [exact E | exact (Hy z Hz)].
    + constructor; [exact IH|].
      assert (Hyx : leP y x) by (destruct (le_total x y); congruence).
      rewrite Forall_forall in *. intros z Hz.
      apply (Permutation_in _ (insert_ordered_perm x l)) in Hz.
      destruct Hz as [<-|Hz]; [exact Hyx | exact (Hy z Hz)].
Qed.

Lemma order_by_sorted (l : list A) : StronglySorted leP (order_by le l).
Proof.
  unfold order_by. induction l as [|x l IH]; simpl.
  - constructor.
  - apply insert_ordered_sorted, IH.
Qed.

End OrderBy.

(** ** The BINARY collation on TEXT *)

Lemma string_leb_trans : forall a b c : string,
  (a <=? b) = true -> (b <=? c) = true -> (a <=? c) = true.
Proof.
  unfold String.leb.
  induction a as [|x a IH]; intros [|y b] [|z c]; simpl; try easy.
  unfold Ascii.compare.
  destruct (N.compare_spec (N_of_ascii x) (N_of_ascii y)) as [Exy|Lxy|Gxy];
    destruct (N.compare_spec (N_of_ascii y) (N_of_ascii z)) as [Eyz|Lyz|Gyz];
    destruct (N.compare_spec (N_of_ascii x) (N_of_ascii z)) as [Exz|Lxz|Gxz];
    try easy; try lia.
  apply IH.
Qed.

Lemma string_leb_refl (a : string) : (a <=? a) = true.
Proof. destruct (String.leb_total a a); assumption. Qed.

(** ** Blank after trimming *)

Lemma lstrip_blank (s : string) :
  all_chars Text.is_space s = true -> Text.lstrip s = "".
Proof.
  induction s as [|c s IH]; simpl; [reflexivity|].
  intros H. apply andb_true_iff in H. destruct H as [Hc Hs]. now rewrite Hc, IH.
Qed.

Lemma lstrip_not_blank (s : string) :
  all_chars Text.is_space s = false ->
  exists c r, Text.lstrip s = String c r /\ Text.is_space c = false.
Proof.
  induction s as [|c s IH]; simpl; [discriminate|].
  destruct (Text.is_space c) eqn:E; simpl; [exact IH | eauto].
Qed.

Lemma rstrip_not_empty (c : ascii) (r : string) :
  Text.is_space c = false -> Text.rstrip (String c r) <> "".
Proof.
  intros E. simpl. destruct (Text.rstrip r); [rewrite E|]; discriminate.
Qed.

(** The trimmed text is non-empty exactly when the text has a character
    that is not whitespace. *)
Lemma truthy_strip (s : string) : Text.truthy (Text.strip s) = not_blank s.
Proof.
  unfold not_blank, Text.strip. destruct (all_chars Text.is_space s) eqn:E.
  - now rewrite lstrip_blank.
  - destruct (lstrip_not_blank s E) as [c [r [-> Hc]]].
    pose proof (rstrip_not_empty c r Hc) as H.
    destruct (Text.rstrip (String c r)); [congruence | reflexivity].
Qed.

(** ** Preservation of [store_ok] *)

Lemma existsb_eqb_false {A : Type} (f : A -> string) (x : string) (l : list A) :
  existsb (fun q => f q =? x) l = false <-> ~ In x (map f l).
Proof.
  induction l as [|a l IH]; simpl.
  - tauto.
  - rewrite orb_false_iff, IH, String.eqb_neq. tauto.
Qed.

Lemma existsb_eqb_true {A : Type} (f : A -> string) (x : string) (l : list A) :
  existsb (fun q => f q =? x) l = true <-> In x (map f l).
Proof.
  induction l as [|a l IH]; simpl.
  - split; [discriminate | tauto].
  - rewrite orb_true_iff, IH, String.eqb_eq. tauto.
Qed.

Lemma NoDup_snoc {A : Type} (l : list A) (x : A) :
  NoDup l -> ~ In x l -> NoDup (l ++ [x]).
Proof.
  intros Hl Hx. apply NoDup_rev in Hl.
  rewrite <- (rev_involutive (l ++ [x])). apply NoDup_rev.
  rewrite rev_app_distr. simpl. constructor; [|exact Hl].
  now rewrite <- in_rev.
Qed.

Lemma store_ok_empty : store_ok empty_store.
Proof. split; simpl; constructor. Qed.

Lemma insert_patient_some (s s' : store) (p : patient) :
  insert_patient s p = Some s' <->
  (~ In (unique_id p) (patient_ids s) /\ ~ In (email p) (map email (patients s))
   /\ ~ In (phone p) (map phone (patients s)))
  /\ s' = mkStore (patients s ++ [p]) (doctors s) (vitals s) (prescriptions s).
Proof.
  unfold insert_patient, patient_ids.
  rewrite <- !existsb_eqb_false.
  destruct (existsb (fun q => unique_id q =? unique_id p) (patients s));
    destruct (existsb (fun q => email q =? email p) (patients s));
    destruct (existsb (fun q => phone q =? phone p) (patients s));
    simpl;
    (split; [intros H; inversion H; auto
            | intros [[H1 [H2 H3]] H]; subst; try discriminate; auto]).
Qed.

Lemma insert_patient_none (s : store) (p : patient) :
  insert_patient s p = None <->
  (In (unique_id p) (patient_ids s) \/ In (email p) (map email (patients s))
   \/ In (phone p) (map phone (patients s))).
Proof.
  unfold insert_patient, patient_ids.
  rewrite <- !existsb_eqb_true.
  destruct (existsb (fun q => unique_id q =? unique_id p) (patients s));
    destruct (existsb (fun q => email q =? email p) (patients s));
    destruct (existsb (fun q => phone q =? phone p) (patients s));
    simpl; split; intros H; try reflexivity; try discriminate H; try tauto.
  destruct H as [H|[H|H]]; discriminate H.
Qed.

Lemma Forall_In_weaken {A : Type} (f : A -> string) (l : list A) (ids ids' : list string) :
  incl ids ids' -> Forall (fun x => In (f x) ids) l -> Forall (fun x => In (f x) ids') l.
Proof.
  intros Hi. apply Forall_impl. intros a. apply Hi.
Qed.

Lemma insert_patient_ok (s s' : store) (p : patient) :
  store_ok s -> (exists rand, unique_id p = Uuid.new_unique_id rand) ->
  insert_patient s p = Some s' ->
  store_ok s' /\ patient_ids s' = patient_ids s ++ [unique_id p].
Proof.
  intros [Hg Hi He Hp Hv Hr] Hgen H.
  apply insert_patient_some in H. destruct H as [[N1 [N2 N3]] ->].
  unfold patient_ids in *. simpl. rewrite !map_app. simpl.
  split; [|reflexivity].
  split; simpl; unfold patient_ids; simpl; rewrite ?map_app; simpl.
  - apply Forall_app. split; [exact Hg | constructor; [exact Hgen | constructor]].
  - now apply NoDup_snoc.
  - now apply NoDup_snoc.
  - now apply NoDup_snoc.
  - eapply Forall_In_weaken; [|exact Hv]. apply incl_appl, incl_refl.
  - eapply Forall_In_weaken; [|exact Hr]. apply incl_appl, incl_refl.
Qed.

Lemma update_patients_ids uid h d g di l rows :
  map unique_id (update_patients uid h d g di l rows) = map unique_id rows.
Proof.
  unfold update_patients. rewrite map_map. apply map_ext.
  intros p. now destruct (unique_id p =? uid).
Qed.

Lemma update_patients_emails uid h d g di l rows :
  map email (update_patients uid h d g di l rows) = map email rows.
Proof.
  unfold update_patients. rewrite map_map. apply map_ext.
  intros p. now destruct (unique_id p =? uid).
Qed.

Lemma update_patients_phones uid h d g di l rows :
  map phone (update_patients uid h d g di l rows) = map phone rows.
Proof.
  unfold update_patients. rewrite map_map. apply map_ext.
  intros p. now destruct (unique_id p =? uid).
Qed.

Lemma save_profile_ok s user h d g di l :
  store_ok s ->
  store_ok (fst (save_profile s user h d g di l))
  /\ patient_ids (fst (save_profile s user h d g di l)) = patient_ids s
  /\ unique_id (snd (save_profile s user h d g di l)) = unique_id user.
Proof.
  intros [Hg Hi He Hp Hv Hr]. unfold save_profile, patient_ids in *. simpl.
  rewrite update_patients_ids. repeat split; simpl; unfold patient_ids; simpl;
    rewrite ?update_patients_ids, ?update_patients_emails, ?update_patients_phones;
    try assumption.
  unfold update_patients. rewrite Forall_map. revert Hg. apply Forall_impl.
  intros p Hgen. now destruct (unique_id p =? unique_id user).
Qed.

Lemma save_record_ok s user rd w bs bd hr sg :
  store_ok s -> In (unique_id user) (patient_ids s) ->
  store_ok (save_record s user rd w bs bd hr sg)
  /\ patient_ids (save_record s user rd w bs bd hr sg) = patient_ids s.
Proof.
  intros [Hg Hi He Hp Hv Hr] Hu. split; [|reflexivity].
  split; simpl; try assumption.
  apply Forall_app. split; [exact Hv|]. constructor; [exact Hu | constructor].
Qed.

Lemma insert_doctor_frame s s' fn ln em ph sp :
  insert_doctor s fn ln em ph sp = Some s' ->
  patients s' = patients s /\ vitals s' = vitals s /\ prescriptions s' = prescriptions s.
Proof.
  unfold insert_doctor.
  destruct (existsb _ _ || existsb _ _); [discriminate|].
  intros H. inversion H. simpl. auto.
Qed.

Lemma store_ok_frame s s' :
  patients s' = patients s -> vitals s' = vitals s -> prescriptions s' = prescriptions s ->
  store_ok s -> store_ok s'.
Proof.
  intros E1 E2 E3 [Hg Hi He Hp Hv Hr].
  split; unfold patient_ids in *; rewrite ?E1, ?E2, ?E3; assumption.
Qed.

Lemma patient_exists_true (s : store) (pid : string) :
  patient_exists s pid = true <->
  exists p, In p (patients s)
            /\ Text.upper (unique_id p) = Text.strip (Text.upper pid).
Proof.
  unfold patient_exists. rewrite existsb_exists.
  split; intros [p [Hin H]]; exists p; split; auto; now apply String.eqb_eq.
Qed.

Lemma generated_id_upper (s : store) (p : patient) :
  store_ok s -> In p (patients s) -> Text.upper (unique_id p) = unique_id p.
Proof.
  intros Hok Hin. pose proof (ids_generated s Hok) as Hg.
  rewrite Forall_forall in Hg. destruct (Hg p Hin) as [rand ->].
  apply UuidFacts.new_unique_id_upper.
Qed.

Lemma generated_id_length (s : store) (p : patient) :
  store_ok s -> In p (patients s) -> length (unique_id p) = 8%nat.
Proof.
  intros Hok Hin. pose proof (ids_generated s Hok) as Hg.
  rewrite Forall_forall in Hg. destruct (Hg p Hin) as [rand ->].
  apply UuidFacts.new_unique_id_length.
Qed.

(** On a consistent database, the patient found by the existence check
    has exactly the token that the handler writes into the new rows. *)
Lemma patient_exists_written_id (s : store) (pid : string) :
  store_ok s -> patient_exists s pid = true ->
  exists p, In p (patients s) /\ unique_id p = Text.strip (Text.upper pid).
Proof.
  intros Hok H. apply patient_exists_true in H. destruct H as [p [Hin H]].
  exists p. split; [exact Hin|]. now rewrite <- (generated_id_upper s p Hok Hin).
Qed.

Lemma patient_exists_nonempty (s : store) (pid : string) :
  store_ok s -> patient_exists s pid = true -> Text.truthy pid = true.
Proof.
  intros Hok H. destruct (patient_exists_written_id s pid Hok H) as [p [Hin E]].
  pose proof (generated_id_length s p Hok Hin) as L. rewrite E in L.
  destruct pid; [discriminate L | reflexivity].
Qed.

(** ** The loop over the medicines *)

Lemma save_medicine_loop pid dn vd sm : forall (medicines : list med) (s : store) (b : bool),
  exists rows,
    fold_left (save_medicine pid dn vd sm) medicines (s, b)
    = (mkStore (patients s) (doctors s) (vitals s) (prescriptions s ++ rows),
       b || existsb keeps medicines)
    /\ map rx_payload rows
       = map (fun m => (Text.strip (Text.upper pid),
                        mkRxRow vd dn sm (name m) (freq m) (med_timing m)))
           (filter keeps medicines).
Proof.
  induction medicines as [|m medicines IH]; intros s b; simpl.
  - exists []. rewrite app_nil_r, orb_false_r. now destruct s.
  - unfold save_medicine at 2. fold (keeps m). destruct (keeps m); simpl.
    + destruct (IH (insert_prescription s (Text.strip (Text.upper pid)) dn vd sm
                      (name m) (freq m) (med_timing m)) true) as [rows [E P]].
      eexists (_ :: rows). rewrite E. simpl. rewrite <- app_assoc. simpl.
      rewrite orb_true_r. split; [reflexivity|].
      unfold rx_payload at 1. simpl. now rewrite P.
    + apply IH.
Qed.

Lemma save_prescription_cases s user pid vd sm medicines :
  (Text.truthy pid = false
   /\ save_prescription s user pid vd sm medicines = (s, ValidationError))
  \/ (Text.truthy pid = true /\ patient_exists s pid = false
      /\ save_prescription s user pid vd sm medicines = (s, NotFoundError))
  \/ (Text.truthy pid = true /\ patient_exists s pid = true
      /\ exists rows,
           save_prescription s user pid vd sm medicines
           = (mkStore (patients s) (doctors s) (vitals s) (prescriptions s ++ rows),
              if existsb keeps medicines then PrescriptionSaved else EmptySubmissionError)
           /\ map rx_payload rows
              = map (fun m => (Text.strip (Text.upper pid),
                               mkRxRow (strftime_ymd vd) (full_name user) sm
                                 (name m) (freq m) (med_timing m)))
                  (filter keeps medicines)).
Proof.
  unfold save_prescription.
  destruct (Text.truthy pid); simpl; [|now left].
  right. destruct (patient_exists s pid); simpl; [|now left].
  right. repeat split.
  destruct (save_medicine_loop pid (full_name user) (strftime_ymd vd) sm medicines s false)
    as [rows [E P]].
  exists rows. rewrite E. simpl. split; [|exact P].
  now destruct (existsb keeps medicines).
Qed.

Lemma save_prescription_ok s user pid vd sm medicines :
  store_ok s ->
  store_ok (fst (save_prescription s user pid vd sm medicines))
  /\ patient_ids (fst (save_prescription s user pid vd sm medicines)) = patient_ids s.
Proof.
  intros Hok.
  destruct (save_prescription_cases s user pid vd sm medicines)
    as [[_ ->]|[[_ [_ ->]]|[_ [Hex [rows [-> P]]]]]]; simpl; auto.
  split; [|reflexivity].
  destruct (patient_exists_written_id s pid Hok Hex) as [p [Hin Hp]].
  destruct Hok as [Hg Hi He Hph Hv Hr]. split; simpl; try assumption.
  apply Forall_app. split; [exact Hr|].
  apply Forall_forall. intros r Hr'.
  assert (Hpay : In (rx_payload r) (map rx_payload rows)) by now apply in_map.
  rewrite P in Hpay. apply in_map_iff in Hpay. destruct Hpay as [m [Hm _]].
  unfold rx_payload in Hm. injection Hm as E1 _. cbv beta.
  rewrite <- E1, <- Hp. unfold patient_ids. now apply in_map.
Qed.

Lemma login_patient_in s fname uid u :
  login_patient s fname uid = Some u ->
  In u (patients s) /\ login_matches fname uid u = true.
Proof.
  unfold login_patient, login_query.
  destruct (filter (login_matches fname uid) (patients s)) as [|p l] eqn:E; [discriminate|].
  intros H. inversion H; subst. apply filter_In. rewrite E. now left.
Qed.

Lemma session_ok_mono s s' sess :
  incl (patient_ids s) (patient_ids s') -> session_ok s sess -> session_ok s' sess.
Proof.
  intros Hi. destruct sess as [[u|u]|]; simpl; auto.
Qed.

(** One form submission keeps the database consistent, keeps the
    submitting session valid, and never removes a patient. *)
Lemma main_ok s sess e :
  store_ok s -> session_ok s sess ->
  store_ok (fst (fst (main s sess e)))
  /\ session_ok (fst (fst (main s sess e))) (snd (fst (main s sess e)))
  /\ incl (patient_ids s) (patient_ids (fst (fst (main s sess e)))).
Proof.
  intros Hok Hs.
  destruct sess as [[user|user]|];
    destruct e as [fname lname em ph rand | fname uid
                  | height dob_d gender_s diet location_s
                  | rdate weight bp_s bp_d hr sugar
                  | fname lname em ph spec | fname lname ph
                  | patient_id vdate summ medicines | ];
    cbv beta iota delta [main];
    try (split; [exact Hok | split; [first [exact Hs | exact I] | apply incl_refl]]).
  - (* Save Profile *)
    destruct (save_profile_ok s user height dob_d gender_s diet location_s Hok)
      as [H1 [H2 H3]].
    destruct (save_profile s user height dob_d gender_s diet location_s) as [s' u'].
    simpl in *. rewrite H2, H3. split; [exact H1 | split; [exact Hs | apply incl_refl]].
  - (* Save Record *)
    destruct (save_record_ok s user rdate weight bp_s bp_d hr sugar Hok Hs) as [H1 H2].
    simpl fst. simpl snd. rewrite H2.
    split; [exact H1 | split; [exact Hs | apply incl_refl]].
  - (* Save Full Prescription *)
    destruct (save_prescription_ok s user patient_id vdate summ medicines Hok) as [H1 H2].
    destruct (save_prescription s user patient_id vdate summ medicines) as [s' o].
    simpl in *. rewrite H2. split; [exact H1 | split; [exact I | apply incl_refl]].
  - (* Register (patient) *)
    unfold register_patient.
    destruct (negb _);
      [split; [exact Hok | split; [exact I | apply incl_refl]]|].
    destruct (insert_patient s _) as [s'|] eqn:E;
      [|split; [exact Hok | split; [exact I | apply incl_refl]]].
    apply insert_patient_ok in E; [|exact Hok|simpl; eauto].
    destruct E as [H1 H2]. simpl fst. simpl snd. rewrite H2.
    split; [exact H1 | split; [exact I | apply incl_appl, incl_refl]].
  - (* Login (patient) *)
    destruct (login_patient s fname uid) as [u|] eqn:E;
      [|split; [exact Hok | split; [exact I | apply incl_refl]]].
    apply login_patient_in in E. destruct E as [Hin _].
    split; [exact Hok | split; [|apply incl_refl]].
    simpl. unfold patient_ids. now apply in_map.
  - (* Register (doctor) *)
    unfold register_doctor.
    destruct (negb _);
      [split; [exact Hok | split; [exact I | apply incl_refl]]|].
    destruct (insert_doctor s fname lname em ph spec) as [s'|] eqn:E;
      [|split; [exact Hok | split; [exact I | apply incl_refl]]].
    apply insert_doctor_frame in E. destruct E as [E1 [E2 E3]].
    simpl fst. simpl snd. split; [|split; [exact I|]].
    + eapply store_ok_frame; eauto.
    + unfold patient_ids. rewrite E1. apply incl_refl.
  - (* Login (doctor) *)
    destruct (login_doctor s fname lname ph);
      (split; [exact Hok | split; [exact I | apply incl_refl]]).
Qed.

Lemma set_nth_Forall {A : Type} (P : A -> Prop) (x : A) : forall (l : list A) (i : nat),
  Forall P l -> P x -> Forall P (set_nth i x l).
Proof.
  induction l as [|y l IH]; intros i Hl Hx; simpl.
  - constructor.
  - inversion Hl; subst. destruct i; constructor; auto.
Qed.

Lemma step_ok (a : app) (act : action) : app_ok a -> app_ok (step a act).
Proof.
  intros [Hok Hs]. destruct act as [|i e]; simpl.
  - split; [exact Hok|]. apply Forall_app. split; [exact Hs|]. repeat constructor.
  - destruct (nth_error (sessions a) i) as [sess|] eqn:E; [|now split].
    assert (Hsess : session_ok (db a) sess).
    { rewrite Forall_forall in Hs. apply Hs. eapply nth_error_In; eauto. }
    destruct (main_ok (db a) sess e Hok Hsess) as [H1 [H2 H3]].
    destruct (main (db a) sess e) as [[s' sess'] o]. simpl in *.
    split; simpl; [exact H1|].
    apply set_nth_Forall; [|exact H2].
    revert Hs. apply Forall_impl. intros x. now apply session_ok_mono.
Qed.

Lemma run_ok (acts : list action) : app_ok (run acts).
Proof.
  unfold run.
  assert (G : forall a, app_ok a -> app_ok (fold_left step acts a)).
  { induction acts as [|act acts IH]; intros a Ha; simpl; [exact Ha|].
    apply IH, step_ok, Ha. }
  apply G. split; [apply store_ok_empty | constructor].
Qed.

Lemma reachable_ok (a : app) : reachable a -> app_ok a.
Proof. intros [acts <-]. apply run_ok. Qed.

(** ** Dates as TEXT *)

Lemma string_append_assoc (a b c : string) :
  ((a ++ b) ++ c = a ++ (b ++ c))%string.
Proof. induction a as [|x a IH]; simpl; [reflexivity | now rewrite IH]. Qed.

Lemma fixed_digits_append digit b w : forall n acc,
  Text.fixed_digits digit b w n acc
  = (Text.fixed_digits digit b w n "" ++ acc)%string.
Proof.
  induction w as [|w IH]; intros n acc; simpl; [reflexivity|].
  rewrite (IH _ (String _ acc)), (IH _ (String _ "")).
  now rewrite string_append_assoc.
Qed.

Lemma dec_digit_compare (x y : N) :
  (x < 10)%N -> (y < 10)%N ->
  Ascii.compare (Text.dec_digit x) (Text.dec_digit y) = (x ?= y)%N.
Proof.
  intros Hx Hy.
  assert (Cx : In x [0;1;2;3;4;5;6;7;8;9]%N)
    by (simpl; destruct x as [|p]; [tauto|]; do 10 (destruct p as [p|p|]; try lia); tauto).
  assert (Cy : In y [0;1;2;3;4;5;6;7;8;9]%N)
    by (simpl; destruct y as [|p]; [tauto|]; do 10 (destruct p as [p|p|]; try lia); tauto).
  simpl in Cx, Cy.
  repeat (destruct Cx as [<-|Cx]; [repeat (destruct Cy as [<-|Cy]; [reflexivity|]); contradiction|]).
  contradiction.
Qed.

Lemma fixed_dec_compare : forall (w : nat) (a b : N) (acc1 acc2 : string),
  (a < 10 ^ N.of_nat w)%N -> (b < 10 ^ N.of_nat w)%N ->
  String.compare (Text.fixed_digits Text.dec_digit 10 w a acc1)
                 (Text.fixed_digits Text.dec_digit 10 w b acc2)
  = match (a ?= b)%N with
    | Eq => String.compare acc1 acc2
    | c => c
    end.
Proof.
  induction w as [|w IH]; intros a b acc1 acc2 Ha Hb.
  - simpl in *. assert (a = 0%N) by lia. assert (b = 0%N) by lia. now subst.
  - rewrite Nat2N.inj_succ, N.pow_succ_r' in Ha, Hb.
    assert (Ha' : (a / 10 < 10 ^ N.of_nat w)%N) by (apply N.Div0.div_lt_upper_bound; lia).
    assert (Hb' : (b / 10 < 10 ^ N.of_nat w)%N) by (apply N.Div0.div_lt_upper_bound; lia).
    simpl. rewrite (IH _ _ _ _ Ha' Hb'). simpl.
    rewrite dec_digit_compare by (apply N.mod_lt; lia).
    pose proof (N.div_mod a 10 ltac:(lia)) as Da.
    pose proof (N.div_mod b 10 ltac:(lia)) as Db.
    pose proof (N.mod_lt a 10 ltac:(lia)) as Ma.
    pose proof (N.mod_lt b 10 ltac:(lia)) as Mb.
    clear IH Ha Hb Ha' Hb'.
    generalize dependent (a / 10)%N. intros qa Da.
    generalize dependent (a mod 10)%N. intros ra Da Ma.
    generalize dependent (b / 10)%N. intros qb Db.
    generalize dependent (b mod 10)%N. intros rb Db Mb.
    destruct (N.compare_spec qa qb) as [E|L|G];
      destruct (N.compare_spec ra rb) as [E'|L'|G'];
      destruct (N.compare_spec a b) as [E''|L''|G'']; try reflexivity; lia.
Qed.

Lemma year_text_four (y : N) : (1000 <= y)%N -> year_text y = Text.dec 4 y.
Proof.
  intros H. unfold year_text.
  destruct (N.ltb_spec y 10); [lia|]. destruct (N.ltb_spec y 100); [lia|].
  destruct (N.ltb_spec y 1000); [lia | reflexivity].
Qed.

Lemma strftime_ymd_hms_compare (d1 d2 : date) :
  date_ok d1 -> date_ok d2 ->
  String.compare (strftime_ymd_hms d1) (strftime_ymd_hms d2) = date_compare d1 d2.
Proof.
  intros [Y1 [M1 D1]] [Y2 [M2 D2]].
  unfold strftime_ymd_hms, strftime_ymd.
  rewrite !year_text_four by lia. unfold Text.dec, date_compare.
  rewrite !string_append_assoc.
  rewrite <- !fixed_digits_append.
  rewrite fixed_dec_compare by (simpl; lia).
  destruct (year d1 ?= year d2)%N; try reflexivity.
  cbn [append String.compare].
  change (Ascii.compare "-" "-") with Eq. cbv iota.
  rewrite fixed_dec_compare by (simpl; lia).
  destruct (month d1 ?= month d2)%N; try reflexivity.
  cbn [append String.compare].
  change (Ascii.compare "-" "-") with Eq. cbv iota.
  rewrite fixed_dec_compare by (simpl; lia).
  destruct (day d1 ?= day d2)%N; reflexivity.
Qed.

(** For the dates the application writes, the TEXT order that
    [ORDER BY record_date] uses is the order of the calendar. *)
Lemma record_date_order_is_chronological (d1 d2 : date) :
  date_ok d1 -> date_ok d2 ->
  ((strftime_ymd_hms d1 <=? strftime_ymd_hms d2)%string = true
   <-> date_compare d1 d2 <> Gt).
Proof.
  intros H1 H2. unfold String.leb. rewrite (strftime_ymd_hms_compare _ _ H1 H2).
  destruct (date_compare d1 d2); split; congruence.
Qed.

(** ** Retrieval *)

Lemma StronglySorted_map {A B : Type} (f : A -> B) (R : B -> B -> Prop) (l : list A) :
  StronglySorted (fun a b => R (f a) (f b)) l -> StronglySorted R (map f l).
Proof.
  induction 1 as [|a l Hs IH Ha]; simpl; constructor; auto.
  rewrite Forall_map. exact Ha.
Qed.

Lemma existsb_perm {A : Type} (f : A -> bool) (l l' : list A) :
  Permutation l l' -> existsb f l = existsb f l'.
Proof.
  induction 1 as [|x l l' _ IH|x y l|l l' l'' _ IH1 _ IH2]; simpl.
  - reflexivity.
  - now rewrite IH.
  - now destruct (f x), (f y).
  - congruence.
Qed.

Lemma has_weight_data_notna (df : list vitals_row) :
  has_weight_data df = notna_any Weight df.
Proof. now destruct df. Qed.

Lemma get_patient_vitals_perm (s : store) (pid : string) :
  Permutation (get_patient_vitals s pid)
    (map vitals_columns (filter (fun v => v_patient_id v =? pid) (vitals s))).
Proof. unfold get_patient_vitals. apply Permutation_map, order_by_perm. Qed.

(** C6.  Vital retrieval returns the rows of [vitals] whose [patient_id]
    is the requested one, each exactly once and no other row, as rows
    whose date, weight, systolic, diastolic, heart rate and sugar are
    the stored [record_date], [weight_kg], [bp_systolic], [bp_diastolic],
    [heart_rate] and [sugar_level], in non-decreasing [record_date]
    order; when the patient has no row the result is the empty sequence. *)
Theorem get_patient_vitals_complete_sorted (s : store) (patient_id : string) :
  Permutation
    (map (fun row => (Date row, Weight row, BP_Systolic row, BP_Diastolic row,
                      Heart_Rate row, Sugar_Level row))
       (get_patient_vitals s patient_id))
    (map (fun v => (record_date v, weight_kg v, bp_systolic v, bp_diastolic v,
                    heart_rate v, sugar_level v))
       (filter (fun v => v_patient_id v =? patient_id) (vitals s)))
  /\ (forall row, In row (get_patient_vitals s patient_id) <->
        exists v, In v (vitals s) /\ v_patient_id v = patient_id
                  /\ Date row = record_date v /\ Weight row = weight_kg v
                  /\ BP_Systolic row = bp_systolic v
                  /\ BP_Diastolic row = bp_diastolic v
                  /\ Heart_Rate row = heart_rate v
                  /\ Sugar_Level row = sugar_level v)
  /\ StronglySorted (fun a b => (Date a <=? Date b) = true)
       (get_patient_vitals s patient_id)
  /\ List.length (get_patient_vitals s patient_id)
     = List.length (filter (fun v => v_patient_id v =? patient_id) (vitals s))
  /\ ((forall v, In v (vitals s) -> v_patient_id v <> patient_id) ->
      get_patient_vitals s patient_id = []).
Proof.
  pose proof (get_patient_vitals_perm s patient_id) as HP.
  split; [|split; [|split; [|split]]].
  - apply (Permutation_map (fun row => (Date row, Weight row, BP_Systolic row,
                                        BP_Diastolic row, Heart_Rate row,
                                        Sugar_Level row))) in HP.
    now rewrite map_map in HP.
  - intros row. split.
    + intros Hin. apply (Permutation_in _ HP) in Hin.
      apply in_map_iff in Hin. destruct Hin as [v [<- Hv]].
      apply filter_In in Hv. destruct Hv as [Hv E]. apply String.eqb_eq in E.
      exists v. simpl. repeat split; auto.
    + intros [v [Hv [E [E1 [E2 [E3 [E4 [E5 E6]]]]]]]].
      apply (Permutation_in _ (Permutation_sym HP)).
      assert (Er : row = vitals_columns v)
        by (destruct row; unfold vitals_columns; simpl in *; congruence).
      rewrite Er. apply in_map, filter_In. split; [exact Hv | now apply String.eqb_eq].
  - unfold get_patient_vitals. apply StronglySorted_map.
    apply (order_by_sorted (fun a b => (record_date a <=? record_date b)%string)).
    + intros x y. apply String.leb_total.
    + intros x y z. apply string_leb_trans.
  - rewrite (Permutation_length HP). apply length_map.
  - intros Hnone.
    assert (E : filter (fun v => v_patient_id v =? patient_id) (vitals s) = []).
    { revert Hnone. generalize (vitals s) as l.
      induction l as [|v l IH]; intros Hnone; simpl; [reflexivity|].
      destruct (v_patient_id v =? patient_id) eqn:Ev.
      - apply String.eqb_eq in Ev. exfalso. apply (Hnone v); simpl; auto.
      - apply IH. intros w Hw. apply Hnone. now right. }
    unfold get_patient_vitals. now rewrite E.
Qed.

(** ** Vital recording *)

Lemma positive_or_none_Q_stored (x : Q) : stored_real x (positive_or_none_Q x).
Proof.
  unfold stored_real, positive_or_none_Q. split; intros H.
  - assert (Hle : Qle_bool x 0 = true) by (apply Qle_bool_iff; rewrite H; apply Qle_refl).
    now rewrite Hle.
  - destruct (Qle_bool x 0) eqn:E; [|reflexivity].
    apply Qle_bool_iff in E. exfalso. apply (Qlt_irrefl 0).
    eapply Qlt_le_trans; eauto.
Qed.

Lemma positive_or_none_Z_stored (x : Z) : stored_int x (positive_or_none_Z x).
Proof.
  unfold stored_int, positive_or_none_Z. split; intros H.
  - now subst.
  - destruct (x >? 0)%Z eqn:E; [reflexivity|]. lia.
Qed.

Lemma get_patient_vitals_after_insert s pid rd w bs bd hr sg :
  Permutation
    (get_patient_vitals (insert_vital s pid rd w bs bd hr sg) pid)
    (mkVitalsRow rd w bs bd hr sg :: get_patient_vitals s pid).
Proof.
  eapply perm_trans; [apply get_patient_vitals_perm|].
  simpl. rewrite filter_app, map_app. simpl. rewrite String.eqb_refl. simpl.
  eapply perm_trans; [apply Permutation_app_comm|]. simpl.
  apply perm_skip, Permutation_sym, get_patient_vitals_perm.
Qed.

(** C1.  A vital submission appends one row for the logged-in patient in
    which every measurement submitted as zero is null and every strictly
    positive measurement is stored as submitted; retrieval returns that
    row next to the earlier ones.  When the weight was zero, the row
    comes back with a null weight, [dropna] discards it, and it does not
    change the value of the has-weight-data test (nor of the BMI guard
    built on it). *)
Theorem save_record_zero_is_null (s : store) (user : patient) (rdate : date)
        (weight : Q) (bp_s bp_d hr : Z) (sugar : Q) :
  exists row,
    vitals (save_record s user rdate weight bp_s bp_d hr sugar) = vitals s ++ [row]
    /\ v_patient_id row = unique_id user
    /\ record_date row = strftime_ymd_hms rdate
    /\ stored_real weight (weight_kg row)
    /\ stored_int bp_s (bp_systolic row)
    /\ stored_int bp_d (bp_diastolic row)
    /\ stored_int hr (heart_rate row)
    /\ stored_real sugar (sugar_level row)
    /\ Permutation
         (get_patient_vitals (save_record s user rdate weight bp_s bp_d hr sugar)
            (unique_id user))
         (vitals_columns row :: get_patient_vitals s (unique_id user))
    /\ (weight == 0 ->
        In (vitals_columns row)
           (get_patient_vitals (save_record s user rdate weight bp_s bp_d hr sugar)
              (unique_id user))
        /\ Weight (vitals_columns row) = None
        /\ dropna Weight [vitals_columns row] = []
        /\ has_weight_data
             (get_patient_vitals (save_record s user rdate weight bp_s bp_d hr sugar)
                (unique_id user))
           = has_weight_data (get_patient_vitals s (unique_id user))
        /\ bmi_available user
             (get_patient_vitals (save_record s user rdate weight bp_s bp_d hr sugar)
                (unique_id user))
           = bmi_available user (get_patient_vitals s (unique_id user))).
Proof.
  pose proof (get_patient_vitals_after_insert s (unique_id user) (strftime_ymd_hms rdate)
                (positive_or_none_Q weight) (positive_or_none_Z bp_s)
                (positive_or_none_Z bp_d) (positive_or_none_Z hr)
                (positive_or_none_Q sugar)) as HP.
  fold (save_record s user rdate weight bp_s bp_d hr sugar) in HP.
  eexists. split; [reflexivity|]. simpl.
  repeat (split; [first [reflexivity | apply positive_or_none_Q_stored
                        | apply positive_or_none_Z_stored]|]).
  split; [exact HP|].
  intros Hz.
  assert (HW : positive_or_none_Q weight = None)
    by (apply (positive_or_none_Q_stored weight); exact Hz).
  rewrite HW in *.
  assert (HD : has_weight_data
                 (get_patient_vitals (save_record s user rdate weight bp_s bp_d hr sugar)
                    (unique_id user))
               = has_weight_data (get_patient_vitals s (unique_id user))).
  { rewrite !has_weight_data_notna. unfold notna_any.
    rewrite (existsb_perm _ _ _ HP). reflexivity. }
  split; [apply (Permutation_in _ (Permutation_sym HP)); left; reflexivity|].
  split; [reflexivity|]. split; [reflexivity|]. split; [exact HD|].
  unfold bmi_available. now rewrite HD.
Qed.

(** ** Profile update *)

Lemma set_profile_idem h d g di l (p : patient) :
  set_profile h d g di l (set_profile h d g di l p) = set_profile h d g di l p.
Proof. reflexivity. Qed.

Lemma update_patients_idem uid h d g di l (rows : list patient) :
  update_patients uid h d g di l (update_patients uid h d g di l rows)
  = update_patients uid h d g di l rows.
Proof.
  unfold update_patients. rewrite map_map. apply map_ext. intros p.
  destruct (unique_id p =? uid) eqn:E; simpl; now rewrite E.
Qed.

(** C9.  Saving the profile overwrites exactly the five mutable fields
    (height, date of birth, gender, diet, location) of the rows whose key
    is the session's [unique_id], and nothing else in the database; doing
    the same save a second time changes nothing, neither in the database
    nor in the session. *)
Theorem save_profile_idempotent (s : store) (user : patient) (height : Q)
        (dob_d : date) (gender_s diet location_s : string) :
  save_profile (fst (save_profile s user height dob_d gender_s diet location_s))
               (snd (save_profile s user height dob_d gender_s diet location_s))
               height dob_d gender_s diet location_s
  = save_profile s user height dob_d gender_s diet location_s
  /\ fst (save_profile (fst (save_profile s user height dob_d gender_s diet location_s))
            user height dob_d gender_s diet location_s)
     = fst (save_profile s user height dob_d gender_s diet location_s)
  /\ doctors (fst (save_profile s user height dob_d gender_s diet location_s)) = doctors s
  /\ vitals (fst (save_profile s user height dob_d gender_s diet location_s)) = vitals s
  /\ prescriptions (fst (save_profile s user height dob_d gender_s diet location_s))
     = prescriptions s
  /\ Forall2 (overwritten (unique_id user) height (strftime_ymd dob_d)
                gender_s diet location_s)
       (patients s)
       (patients (fst (save_profile s user height dob_d gender_s diet location_s))).
Proof.
  unfold save_profile. simpl.
  rewrite update_patients_idem.
  repeat (split; [reflexivity|]).
  induction (patients s) as [|p rows IH]; simpl; constructor; [|exact IH].
  unfold overwritten. destruct (unique_id p =? unique_id user); simpl; tauto.
Qed.

(** ** Referential integrity *)

Lemma store_ok_vital_ref (s : store) (v : vital) :
  store_ok s -> In v (vitals s) ->
  exists p, In p (patients s) /\ unique_id p = v_patient_id v.
Proof.
  intros Hok Hv. pose proof (vitals_ref s Hok) as H.
  rewrite Forall_forall in H. specialize (H v Hv).
  apply in_map_iff in H. destruct H as [p [E Hp]]. eauto.
Qed.

Lemma store_ok_rx_ref (s : store) (r : prescription) :
  store_ok s -> In r (prescriptions s) ->
  exists p, In p (patients s) /\ unique_id p = rx_patient_id r.
Proof.
  intros Hok Hr. pose proof (rx_ref s Hok) as H.
  rewrite Forall_forall in H. specialize (H r Hr).
  apply in_map_iff in H. destruct H as [p [E Hp]]. eauto.
Qed.

Lemma step_keeps_patients (a : app) (act : action) :
  app_ok a -> incl (patient_ids (db a)) (patient_ids (db (step a act))).
Proof.
  intros [Hok Hs]. destruct act as [|i e]; simpl; [apply incl_refl|].
  destruct (nth_error (sessions a) i) as [sess|] eqn:E; [|apply incl_refl].
  assert (Hsess : session_ok (db a) sess).
  { rewrite Forall_forall in Hs. apply Hs. eapply nth_error_In; eauto. }
  destruct (main_ok (db a) sess e Hok Hsess) as [_ [_ H3]].
  destruct (main (db a) sess e) as [[s' sess'] o]. exact H3.
Qed.

(** C7.  In every state the application can reach from the empty
    database, every row of [vitals] and every row of [prescriptions]
    carries the [unique_id] of a row of [patients]; every patient session
    is the session of a stored patient; and no step removes a patient. *)
Theorem referential_integrity (a : app) :
  reachable a ->
  (forall v, In v (vitals (db a)) ->
     exists p, In p (patients (db a)) /\ unique_id p = v_patient_id v)
  /\ (forall r, In r (prescriptions (db a)) ->
        exists p, In p (patients (db a)) /\ unique_id p = rx_patient_id r)
  /\ (forall user, In (Some (PatientSession user)) (sessions a) ->
        exists p, In p (patients (db a)) /\ unique_id p = unique_id user)
  /\ (forall act uid, In uid (patient_ids (db a)) ->
        In uid (patient_ids (db (step a act)))).
Proof.
  intros Hr. pose proof (reachable_ok a Hr) as Hok. destruct Hok as [Hok Hs].
  split; [|split; [|split]].
  - intros v. now apply store_ok_vital_ref.
  - intros r. now apply store_ok_rx_ref.
  - intros user Hin. rewrite Forall_forall in Hs. specialize (Hs _ Hin). simpl in Hs.
    apply in_map_iff in Hs. destruct Hs as [p [E Hp]]. eauto.
  - intros act uid. apply step_keeps_patients. split; [exact Hok|exact Hs].
Qed.

(** ** Prescription recording *)

Lemma rx_payload_rows (pid dn vd sm : string) : forall (rows : list prescription) (ms : list med),
  map rx_payload rows
  = map (fun m => (pid, mkRxRow vd dn sm (name m) (freq m) (med_timing m))) ms ->
  map (fun r => (medicine r, frequency r, timing r)) rows
  = map (fun m => (name m, freq m, med_timing m)) ms
  /\ Forall (fun r => rx_patient_id r = pid /\ doctor_name r = dn
                      /\ visit_date r = vd /\ summary r = sm) rows.
Proof.
  induction rows as [|r rows IH]; intros [|m ms] H; simpl in *; try discriminate.
  - split; [reflexivity | constructor].
  - injection H as E1 F1 F2 F3 F4 F5 F6 E3. destruct (IH ms E3) as [Hm Hf].
    split; [now rewrite Hm, F4, F5, F6|].
    constructor; [tauto | exact Hf].
Qed.

(** C3.  In every state the application can reach, when the existence
    check finds the patient (the patient id is then never empty, so the
    "id is required" guard stays silent) and the medicine names are ASCII
    text, saving a prescription appends exactly one row per medicine
    entry whose name is not blank, that is, has a character that is not
    whitespace, in the order of the entries and with the entry's name,
    frequency and timing; blank-named entries add nothing; every new row
    carries the same patient id, doctor name, visit date and summary.
    The handler reports success when at least one row was written; when
    every name is blank it writes nothing and reports the empty
    submission instead. *)
Theorem save_prescription_one_row_per_medicine (a : app) (user : doctor)
        (patient_id : string) (vdate : date) (summ : string) (medicines : list med) :
  reachable a ->
  patient_exists (db a) patient_id = true ->
  Forall (fun m => ascii_text (name m)) medicines ->
  exists rows,
    fst (save_prescription (db a) user patient_id vdate summ medicines)
    = mkStore (patients (db a)) (doctors (db a)) (vitals (db a))
        (prescriptions (db a) ++ rows)
    /\ map (fun r => (medicine r, frequency r, timing r)) rows
       = map (fun m => (name m, freq m, med_timing m))
           (filter (fun m => not_blank (name m)) medicines)
    /\ Forall (fun r => rx_patient_id r = Text.strip (Text.upper patient_id)
                        /\ doctor_name r = full_name user
                        /\ visit_date r = strftime_ymd vdate
                        /\ summary r = summ) rows
    /\ snd (save_prescription (db a) user patient_id vdate summ medicines)
       = match filter (fun m => not_blank (name m)) medicines with
         | [] => EmptySubmissionError
         | _ :: _ => PrescriptionSaved
         end
    /\ (filter (fun m => not_blank (name m)) medicines = [] ->
        save_prescription (db a) user patient_id vdate summ medicines
        = (db a, EmptySubmissionError)).
Proof.
  intros Hr Hex _. destruct (reachable_ok a Hr) as [Hok _].
  pose proof (patient_exists_nonempty (db a) patient_id Hok Hex) as Hne.
  destruct (save_prescription_cases (db a) user patient_id vdate summ medicines)
    as [[Hf _]|[[_ [Hf _]]|[_ [_ [rows [E P]]]]]]; try congruence.
  assert (K : filter (fun m => not_blank (name m)) medicines = filter keeps medicines)
    by (apply filter_ext; intros m; unfold keeps; now rewrite truthy_strip).
  rewrite K.
  destruct (rx_payload_rows _ _ _ _ rows _ P) as [Hm Hfa].
  assert (Hout : (if existsb keeps medicines then PrescriptionSaved else EmptySubmissionError)
                 = match filter keeps medicines with
                   | [] => EmptySubmissionError
                   | _ :: _ => PrescriptionSaved
                   end).
  { clear. induction medicines as [|m ms IH]; simpl; [reflexivity|].
    destruct (keeps m); simpl; [reflexivity | exact IH]. }
  exists rows. rewrite E. simpl.
  split; [reflexivity|]. split; [exact Hm|]. split; [exact Hfa|]. split; [exact Hout|].
  intros Hnil. rewrite Hnil in *. destruct rows; [|discriminate Hm].
  rewrite app_nil_r, Hout. now destruct (db a).
Qed.

(** ** Canonical tokens *)

Lemma get_patient_prescriptions_perm (s : store) (pid : string) :
  Permutation (get_patient_prescriptions s pid)
    (map rx_columns (filter (fun r => rx_patient_id r =? pid) (prescriptions s))).
Proof. unfold get_patient_prescriptions. apply Permutation_map, order_by_perm. Qed.


(** ** Patient login *)

Lemma filter_first {A : Type} (P : A -> bool) : forall (l : list A) (u : A) (rest : list A),
  filter P l = u :: rest ->
  exists before after, l = before ++ u :: after
    /\ Forall (fun q => P q = false) before /\ P u = true.
Proof.
  induction l as [|x l IH]; intros u rest H; simpl in H; [discriminate|].
  destruct (P x) eqn:E.
  - injection H as -> _. exists [], l. repeat split; auto.
  - destruct (IH u rest H) as [before [after [-> [Hb Hu]]]].
    exists (x :: before), after. repeat split; auto.
Qed.

Lemma filter_unique_key {A : Type} (key : A -> string) (P : A -> bool) (c : string) :
  forall l : list A,
  NoDup (map key l) -> (forall x, In x l -> P x = true -> key x = c) ->
  (List.length (filter P l) <= 1)%nat.
Proof.
  induction l as [|x l IH]; intros Hnd Hk; simpl; [lia|].
  inversion Hnd as [|? ? Hx Hl]; subst.
  assert (IHl := IH Hl (fun y Hy => Hk y (or_intror Hy))).
  destruct (P x) eqn:E; [|exact IHl]. simpl.
  destruct (filter P l) as [|y rest] eqn:F; [simpl; lia|].
  exfalso. apply Hx.
  assert (Hy : In y (filter P l)) by (rewrite F; now left).
  apply filter_In in Hy. destruct Hy as [Hy Py].
  rewrite (Hk x (or_introl eq_refl) E), <- (Hk y (or_intror Hy) Py).
  now apply in_map.
Qed.

(** The schema alone does not rule out two matches: both rows of
    [ambiguous_store] match the login input, and the login then succeeds
    with the first of them.  No run of the application stores such rows. *)
Lemma login_succeeds_on_two_matches :
  (exists s1, insert_patient empty_store ann_lower = Some s1
              /\ insert_patient s1 ann_upper = Some ambiguous_store)
  /\ login_query ambiguous_store "Ann" "ab12cd34" = [ann_lower; ann_upper]
  /\ login_patient ambiguous_store "Ann" "ab12cd34" = Some ann_lower.
Proof.
  split; [|split]; try reflexivity.
  eexists. split; reflexivity.
Qed.

(** On any database, a patient login succeeds exactly when at least one
    row matches, with the first matching row in table order; in every
    state the application can reach, at most one row matches. *)
Lemma login_patient_first_match (s : store) (fname uid : string) :
  (login_patient s fname uid = None <-> login_query s fname uid = [])
  /\ ((exists u, login_patient s fname uid = Some u)
      <-> (1 <= List.length (login_query s fname uid))%nat)
  /\ (forall u, login_patient s fname uid = Some u ->
        login_matches fname uid u = true
        /\ exists before after, patients s = before ++ u :: after
             /\ Forall (fun q => login_matches fname uid q = false) before)
  /\ (forall u, login_query s fname uid = [u] -> login_patient s fname uid = Some u)
  /\ (forall a, reachable a -> db a = s ->
        (List.length (login_query s fname uid) <= 1)%nat).
Proof.
  unfold login_patient.
  split; [|split; [|split; [|split]]].
  - destruct (login_query s fname uid); split; intros H; try reflexivity; discriminate H.
  - destruct (login_query s fname uid) as [|p l]; simpl; split.
    + intros [u H]. discriminate H.
    + lia.
    + lia.
    + eauto.
  - intros u H. unfold login_query in H.
    destruct (filter (login_matches fname uid) (patients s)) as [|p l] eqn:E; [discriminate|].
    injection H as ->.
    destruct (filter_first _ _ _ _ E) as [before [after [Hl [Hb Hu]]]]. eauto.
  - intros u H. now rewrite H.
  - intros a Hr <-. destruct (reachable_ok a Hr) as [Hok _].
    unfold login_query.
    apply (filter_unique_key unique_id _ (Text.strip (Text.upper uid))).
    + exact (ids_nodup _ Hok).
    + intros p Hp Hm. unfold login_matches in Hm.
      apply andb_true_iff in Hm. destruct Hm as [_ Hm]. apply String.eqb_eq in Hm.
      now rewrite <- (generated_id_upper _ _ Hok Hp).
Qed.

(** ** Patient registration *)

Lemma register_patient_missing s fname lname em ph rand :
  mandatory fname em ph = false ->
  register_patient s fname lname em ph rand = (s, ValidationError).
Proof. unfold register_patient, mandatory. now intros ->. Qed.

Lemma register_patient_present s fname lname em ph rand :
  mandatory fname em ph = true ->
  register_patient s fname lname em ph rand
  = match insert_patient s (mkPatient (Uuid.new_unique_id rand) fname (Some lname) em ph
                              None None None None None) with
    | Some s' => (s', RegistrationSuccessful (Uuid.new_unique_id rand))
    | None => (s, DuplicateError)
    end.
Proof. unfold register_patient, mandatory. now intros ->. Qed.

Lemma register_patient_success s fname lname em ph rand s' uid :
  register_patient s fname lname em ph rand = (s', RegistrationSuccessful uid) ->
  uid = Uuid.new_unique_id rand
  /\ ~ In uid (patient_ids s)
  /\ s' = mkStore (patients s ++ [mkPatient uid fname (Some lname) em ph
                                    None None None None None])
            (doctors s) (vitals s) (prescriptions s).
Proof.
  unfold register_patient. destruct (negb _); [discriminate|].
  destruct (insert_patient s _) as [s1|] eqn:E; [|discriminate].
  intros H. injection H as -> <-.
  apply insert_patient_some in E. simpl in E. tauto.
Qed.

(** C4, as stated, fails: Ann's email is taken, and a second
    registration with that email but an empty first name is turned away
    by the mandatory-field check, not as a duplicate. *)
Lemma duplicate_email_but_validation_error :
  In "ann@example.org" (map email (patients ann_registered))
  /\ register_patient ann_registered "" "Roe" "ann@example.org" "555-0101" 7
     = (ann_registered, ValidationError)
  /\ ValidationError <> DuplicateError.
Proof.
  split; [|split].
  - vm_compute. now left.
  - reflexivity.
  - discriminate.
Qed.

(** C4, amended.  In a database that already holds the email or the
    phone, a registration with the three mandatory fields present fails
    with the one generic duplicate error, whichever field collided (with
    a mandatory field missing it fails with the validation error
    instead); either way the database is unchanged, so after a successful
    registration followed by such a call the table has grown by exactly
    one row. *)
Theorem duplicate_registration_rejected (s : store) (fname lname em ph : string)
        (rand : N) :
  In em (map email (patients s)) \/ In ph (map phone (patients s)) ->
  (mandatory fname em ph = true ->
   register_patient s fname lname em ph rand = (s, DuplicateError))
  /\ (mandatory fname em ph = false ->
      register_patient s fname lname em ph rand = (s, ValidationError))
  /\ fst (register_patient s fname lname em ph rand) = s
  /\ (forall s0 fname1 lname1 em1 ph1 rand1 uid,
        register_patient s0 fname1 lname1 em1 ph1 rand1 = (s, RegistrationSuccessful uid) ->
        List.length (patients (fst (register_patient s fname lname em ph rand)))
        = S (List.length (patients s0))).
Proof.
  intros Hdup.
  assert (Hreject : mandatory fname em ph = true ->
                    register_patient s fname lname em ph rand = (s, DuplicateError)).
  { intros Hm. rewrite (register_patient_present _ _ _ _ _ _ Hm).
    assert (E : insert_patient s (mkPatient (Uuid.new_unique_id rand) fname (Some lname)
                                    em ph None None None None None) = None)
      by (apply insert_patient_none; simpl; tauto).
    now rewrite E. }
  assert (Hsame : fst (register_patient s fname lname em ph rand) = s).
  { destruct (mandatory fname em ph) eqn:Hm.
    - now rewrite Hreject.
    - now rewrite register_patient_missing. }
  split; [exact Hreject|]. split; [apply register_patient_missing|].
  split; [exact Hsame|].
  intros s0 fname1 lname1 em1 ph1 rand1 uid H1. rewrite Hsame.
  apply register_patient_success in H1. destruct H1 as [_ [_ ->]]. simpl.
  rewrite length_app. simpl. lia.
Qed.

(** C8, as stated, fails: the email and the phone are new, but the
    random draw starts with the eight hex digits of Ann's token, and the
    registration is turned away. *)
Lemma fresh_contact_but_token_collision :
  mandatory "Bob" "bob@example.org" "555-0102" = true
  /\ ~ In "bob@example.org" (map email (patients ann_registered))
  /\ ~ In "555-0102" (map phone (patients ann_registered))
  /\ register_patient ann_registered "Bob" "Roe" "bob@example.org" "555-0102"
       0xdeadbeef00000000000000000000002a
     = (ann_registered, DuplicateError).
Proof.
  split; [reflexivity|]. split; [|split].
  - vm_compute. intros [H|[]]; discriminate H.
  - vm_compute. intros [H|[]]; discriminate H.
  - reflexivity.
Qed.

(** C8, amended.  With the mandatory fields present and an email and a
    phone that no stored patient has, registration succeeds whenever the
    generated token is not the [unique_id] of a stored patient: it then
    appends the new row and returns the token.  When the token collides
    with a stored [unique_id] the registration is rejected and nothing is
    stored.  A token returned by a successful registration is never the
    [unique_id] of a patient stored before. *)
Theorem register_patient_unused_contact (s : store) (fname lname em ph : string)
        (rand : N) :
  mandatory fname em ph = true ->
  ~ In em (map email (patients s)) ->
  ~ In ph (map phone (patients s)) ->
  (~ In (Uuid.new_unique_id rand) (patient_ids s) ->
   register_patient s fname lname em ph rand
   = (mkStore (patients s ++ [mkPatient (Uuid.new_unique_id rand) fname (Some lname)
                                em ph None None None None None])
        (doctors s) (vitals s) (prescriptions s),
      RegistrationSuccessful (Uuid.new_unique_id rand)))
  /\ (In (Uuid.new_unique_id rand) (patient_ids s) ->
      register_patient s fname lname em ph rand = (s, DuplicateError))
  /\ (forall s' uid,
        register_patient s fname lname em ph rand = (s', RegistrationSuccessful uid) ->
        ~ In uid (patient_ids s) /\ In uid (patient_ids s')).
Proof.
  intros Hm He Hp. split; [|split].
  - intros Hid. rewrite (register_patient_present _ _ _ _ _ _ Hm).
    destruct (insert_patient s _) as [s'|] eqn:E.
    + apply insert_patient_some in E. destruct E as [_ ->]. reflexivity.
    + apply insert_patient_none in E. simpl in E. tauto.
  - intros Hid. rewrite (register_patient_present _ _ _ _ _ _ Hm).
    assert (E : insert_patient s (mkPatient (Uuid.new_unique_id rand) fname (Some lname)
                                    em ph None None None None None) = None)
      by (apply insert_patient_none; simpl; tauto).
    now rewrite E.
  - intros s' uid H. apply register_patient_success in H.
    destruct H as [_ [Hn ->]]. split; [exact Hn|].
    unfold patient_ids. simpl. rewrite map_app. apply in_or_app. right. now left.
Qed.

(** ** Prescription for an unknown patient *)

(** C5, as stated, fails: an empty patient id matches no patient, and
    the handler answers with the "id is required" validation error, not
    with the not-found error. *)
Lemma empty_patient_id_is_validation_error :
  patient_exists ann_registered "" = false
  /\ save_prescription ann_registered
       (mkDoctor 1 "Raj" "Rao" "raj@example.org" "555-0200" "Cardiology")
       "" (mkDate 2024 3 8) "Flu"
       [mkMed "Aspirin" "Once a day" "After Breakfast"]
     = (ann_registered, ValidationError)
  /\ ValidationError <> NotFoundError.
Proof.
  split; [|split].
  - reflexivity.
  - reflexivity.
  - discriminate.
Qed.

(** C5, amended.  When the patient id, an ASCII text, matches no stored
    [unique_id] (uppercased on both sides, the input trimmed), saving a
    prescription inserts nothing and leaves the database as it was: with
    a non-empty id it fails with the not-found error, and with an empty
    id it fails with the validation error. *)
Theorem save_prescription_unknown_patient (s : store) (user : doctor)
        (patient_id : string) (vdate : date) (summ : string) (medicines : list med) :
  ascii_text patient_id ->
  patient_exists s patient_id = false ->
  fst (save_prescription s user patient_id vdate summ medicines) = s
  /\ (patient_id <> "" ->
      snd (save_prescription s user patient_id vdate summ medicines) = NotFoundError)
  /\ (patient_id = "" ->
      snd (save_prescription s user patient_id vdate summ medicines) = ValidationError).
Proof.
  intros _ Hex. unfold save_prescription. rewrite Hex.
  destruct patient_id as [|c pid]; simpl.
  - split; [reflexivity|]. split; [congruence | reflexivity].
  - split; [reflexivity|]. split; [reflexivity | discriminate].
Qed.

(** ** A session of the application, start to end *)

Lemma demo_app_reachable : reachable demo_app.
Proof. exists demo_acts. reflexivity. Defined.

Lemma demo_app_rx_reachable : reachable demo_app_rx.
Proof.
  exists (demo_acts ++
            [Submit 1 (SavePrescription "deadbeef" (mkDate 2024 3 8) "Flu" demo_medicines)]).
  reflexivity.
Defined.

Example demo_app_rx_db :
  db demo_app_rx
  = mkStore
      [mkPatient "DEADBEEF" "Ann" (Some "Lee") "ann@example.org" "555-0100"
         (Some "1990-04-02") (Some "Pune") (Some (1655 # 10)) (Some "Vegetarian")
         (Some "Female")]
      [dr_rao]
      [mkVital 1 "DEADBEEF" "2024-03-07 00:00:00" None (Some 120%Z) (Some 80%Z) None
         (Some (905 # 10))]
      [mkPrescription 1 "DEADBEEF" "Dr. Raj Rao" "2024-03-08" "Flu" "Aspirin"
         "Twice a day" "After Lunch"].
Proof. reflexivity. Qed.

Example demo_app_sessions :
  sessions demo_app_rx
  = [Some (PatientSession
             (mkPatient "DEADBEEF" "Ann" (Some "Lee") "ann@example.org" "555-0100"
                (Some "1990-04-02") (Some "Pune") (Some (1655 # 10)) (Some "Vegetarian")
                (Some "Female")));
     Some (DoctorSession dr_rao)].
Proof. reflexivity. Qed.

Example new_unique_id_ex : Uuid.new_unique_id demo_rand = "DEADBEEF".
Proof. reflexivity. Qed.

Example uuid_str_ex :
  Uuid.str (Uuid.uuid4 0xdeadbeef0123f56719abcdef01234567)
  = "deadbeef-0123-4567-99ab-cdef01234567".
Proof. reflexivity. Qed.

Example strftime_ex :
  strftime_ymd_hms (mkDate 2024 3 7) = "2024-03-07 00:00:00".
Proof. reflexivity. Qed.

Example strip_ex : Text.strip "  ab c " = "ab c".
Proof. reflexivity. Qed.

Example get_patient_vitals_ex :
  get_patient_vitals
    (mkStore [] []
       [mkVital 1 "DEADBEEF" "2024-03-07 00:00:00" None (Some 120%Z) None None None;
        mkVital 2 "0BADF00D" "2024-01-01 00:00:00" None None None None None;
        mkVital 3 "DEADBEEF" "2024-02-11 00:00:00" (Some (70 # 1)) None None None None]
       [])
    "DEADBEEF"
  = [mkVitalsRow "2024-02-11 00:00:00" (Some (70 # 1)) None None None None;
     mkVitalsRow "2024-03-07 00:00:00" None (Some 120%Z) None None None].
Proof. reflexivity. Qed.

(** ** The theorems at work on the demo session *)

Lemma referential_integrity_witness :
  reachable demo_app_rx
  /\ ((forall v, In v (vitals (db demo_app_rx)) ->
         exists p, In p (patients (db demo_app_rx)) /\ unique_id p = v_patient_id v)
      /\ (forall r, In r (prescriptions (db demo_app_rx)) ->
            exists p, In p (patients (db demo_app_rx)) /\ unique_id p = rx_patient_id r)
      /\ (forall user, In (Some (PatientSession user)) (sessions demo_app_rx) ->
            exists p, In p (patients (db demo_app_rx)) /\ unique_id p = unique_id user)
      /\ (forall act uid, In uid (patient_ids (db demo_app_rx)) ->
            In uid (patient_ids (db (step demo_app_rx act))))).
Proof.
  split; [exact demo_app_rx_reachable|].
  exact (referential_integrity demo_app_rx demo_app_rx_reachable).
Defined.


Lemma save_prescription_one_row_per_medicine_witness :
  reachable demo_app
  /\ patient_exists (db demo_app) "deadbeef" = true
  /\ Forall (fun m => ascii_text (name m)) demo_medicines
  /\ exists rows,
       fst (save_prescription (db demo_app) dr_rao "deadbeef" (mkDate 2024 3 8) "Flu"
              demo_medicines)
       = mkStore (patients (db demo_app)) (doctors (db demo_app)) (vitals (db demo_app))
           (prescriptions (db demo_app) ++ rows)
       /\ map (fun r => (medicine r, frequency r, timing r)) rows
          = map (fun m => (name m, freq m, med_timing m))
              (filter (fun m => not_blank (name m)) demo_medicines)
       /\ Forall (fun r => rx_patient_id r = Text.strip (Text.upper "deadbeef")
                           /\ doctor_name r = full_name dr_rao
                           /\ visit_date r = strftime_ymd (mkDate 2024 3 8)
                           /\ summary r = "Flu") rows
       /\ snd (save_prescription (db demo_app) dr_rao "deadbeef" (mkDate 2024 3 8) "Flu"
                 demo_medicines)
          = match filter (fun m => not_blank (name m)) demo_medicines with
            | [] => EmptySubmissionError
            | _ :: _ => PrescriptionSaved
            end
       /\ (filter (fun m => not_blank (name m)) demo_medicines = [] ->
           save_prescription (db demo_app) dr_rao "deadbeef" (mkDate 2024 3 8) "Flu"
             demo_medicines
           = (db demo_app, EmptySubmissionError)).
Proof.
  assert (Ha : Forall (fun m => ascii_text (name m)) demo_medicines)
    by (repeat constructor).
  split; [exact demo_app_reachable|]. split; [reflexivity|]. split; [exact Ha|].
  exact (save_prescription_one_row_per_medicine demo_app dr_rao "deadbeef"
           (mkDate 2024 3 8) "Flu" demo_medicines demo_app_reachable eq_refl Ha).
Defined.

Lemma duplicate_registration_rejected_witness :
  (In "ann@example.org" (map email (patients ann_registered))
   \/ In "555-0109" (map phone (patients ann_registered)))
  /\ ((mandatory "Zoe" "ann@example.org" "555-0109" = true ->
       register_patient ann_registered "Zoe" "Roe" "ann@example.org" "555-0109" 7
       = (ann_registered, DuplicateError))
      /\ (mandatory "Zoe" "ann@example.org" "555-0109" = false ->
          register_patient ann_registered "Zoe" "Roe" "ann@example.org" "555-0109" 7
          = (ann_registered, ValidationError))
      /\ fst (register_patient ann_registered "Zoe" "Roe" "ann@example.org" "555-0109" 7)
         = ann_registered
      /\ (forall s0 fname1 lname1 em1 ph1 rand1 uid,
            register_patient s0 fname1 lname1 em1 ph1 rand1
            = (ann_registered, RegistrationSuccessful uid) ->
            List.length
              (patients (fst (register_patient ann_registered "Zoe" "Roe"
                                "ann@example.org" "555-0109" 7)))
            = S (List.length (patients s0)))).
Proof.
  assert (H : In "ann@example.org" (map email (patients ann_registered))
              \/ In "555-0109" (map phone (patients ann_registered)))
    by (left; vm_compute; left; reflexivity).
  split; [exact H|].
  exact (duplicate_registration_rejected ann_registered "Zoe" "Roe" "ann@example.org"
           "555-0109" 7 H).
Defined.

Lemma register_patient_unused_contact_witness :
  mandatory "Bob" "bob@example.org" "555-0102" = true
  /\ ~ In "bob@example.org" (map email (patients ann_registered))
  /\ ~ In "555-0102" (map phone (patients ann_registered))
  /\ ((~ In (Uuid.new_unique_id 42) (patient_ids ann_registered) ->
       register_patient ann_registered "Bob" "Roe" "bob@example.org" "555-0102" 42
       = (mkStore (patients ann_registered
                     ++ [mkPatient (Uuid.new_unique_id 42) "Bob" (Some "Roe")
                           "bob@example.org" "555-0102" None None None None None])
            (doctors ann_registered) (vitals ann_registered)
            (prescriptions ann_registered),
          RegistrationSuccessful (Uuid.new_unique_id 42)))
      /\ (In (Uuid.new_unique_id 42) (patient_ids ann_registered) ->
          register_patient ann_registered "Bob" "Roe" "bob@example.org" "555-0102" 42
          = (ann_registered, DuplicateError))
      /\ (forall s' uid,
            register_patient ann_registered "Bob" "Roe" "bob@example.org" "555-0102" 42
            = (s', RegistrationSuccessful uid) ->
            ~ In uid (patient_ids ann_registered) /\ In uid (patient_ids s'))).
Proof.
  assert (He : ~ In "bob@example.org" (map email (patients ann_registered)))
    by (vm_compute; intros [H|[]]; discriminate H).
  assert (Hp : ~ In "555-0102" (map phone (patients ann_registered)))
    by (vm_compute; intros [H|[]]; discriminate H).
  split; [reflexivity|]. split; [exact He|]. split; [exact Hp|].
  exact (register_patient_unused_contact ann_registered "Bob" "Roe" "bob@example.org"
           "555-0102" 42 eq_refl He Hp).
Defined.

Lemma save_prescription_unknown_patient_witness :
  ascii_text "0BADF00D"
  /\ patient_exists ann_registered "0BADF00D" = false
  /\ (fst (save_prescription ann_registered dr_rao "0BADF00D" (mkDate 2024 3 8) "Flu"
             demo_medicines)
      = ann_registered
      /\ ("0BADF00D" <> "" ->
          snd (save_prescription ann_registered dr_rao "0BADF00D" (mkDate 2024 3 8) "Flu"
                 demo_medicines)
          = NotFoundError)
      /\ ("0BADF00D" = "" ->
          snd (save_prescription ann_registered dr_rao "0BADF00D" (mkDate 2024 3 8) "Flu"
                 demo_medicines)
          = ValidationError)).
Proof.
  split; [reflexivity|]. split; [reflexivity|].
  exact (save_prescription_unknown_patient ann_registered dr_rao "0BADF00D"
           (mkDate 2024 3 8) "Flu" demo_medicines eq_refl eq_refl).
Defined.

(** * Beyond the claims *)

(** ** More on text *)

Lemma lower_upper_char (c : ascii) : Text.lower_char (Text.upper_char c) = Text.lower_char c.
Proof.
  destruct c as [b0 b1 b2 b3 b4 b5 b6 b7].
  destruct b0, b1, b2, b3, b4, b5, b6, b7; reflexivity.
Qed.

Lemma upper_lower_char (c : ascii) : Text.upper_char (Text.lower_char c) = Text.upper_char c.
Proof.
  destruct c as [b0 b1 b2 b3 b4 b5 b6 b7].
  destruct b0, b1, b2, b3, b4, b5, b6, b7; reflexivity.
Qed.

Lemma lower_char_idem (c : ascii) : Text.lower_char (Text.lower_char c) = Text.lower_char c.
Proof.
  destruct c as [b0 b1 b2 b3 b4 b5 b6 b7].
  destruct b0, b1, b2, b3, b4, b5, b6, b7; reflexivity.
Qed.

Lemma is_space_lower_char (c : ascii) : Text.is_space (Text.lower_char c) = Text.is_space c.
Proof.
  destruct c as [b0 b1 b2 b3 b4 b5 b6 b7].
  destruct b0, b1, b2, b3, b4, b5, b6, b7; reflexivity.
Qed.

Lemma is_space_upper_char (c : ascii) : Text.is_space (Text.upper_char c) = Text.is_space c.
Proof.
  destruct c as [b0 b1 b2 b3 b4 b5 b6 b7].
  destruct b0, b1, b2, b3, b4, b5, b6, b7; reflexivity.
Qed.

Lemma lower_upper (s : string) : Text.lower (Text.upper s) = Text.lower s.
Proof.
  unfold Text.lower, Text.upper.
  induction s as [|c s IH]; simpl; [reflexivity | now rewrite lower_upper_char, IH].
Qed.

Lemma upper_lower (s : string) : Text.upper (Text.lower s) = Text.upper s.
Proof.
  unfold Text.lower, Text.upper.
  induction s as [|c s IH]; simpl; [reflexivity | now rewrite upper_lower_char, IH].
Qed.

Lemma lower_idem (s : string) : Text.lower (Text.lower s) = Text.lower s.
Proof.
  unfold Text.lower.
  induction s as [|c s IH]; simpl; [reflexivity | now rewrite lower_char_idem, IH].
Qed.

Section StripMap.
Variable f : ascii -> ascii.
Hypothesis f_space : forall c, Text.is_space (f c) = Text.is_space c.

Lemma lstrip_map (s : string) :
  Text.lstrip (Text.map_string f s) = Text.map_string f (Text.lstrip s).
Proof.
  induction s as [|c s IH]; simpl; [reflexivity|].
  rewrite f_space. now destruct (Text.is_space c).
Qed.

Lemma rstrip_map (s : string) :
  Text.rstrip (Text.map_string f s) = Text.map_string f (Text.rstrip s).
Proof.
  induction s as [|c s IH]; simpl; [reflexivity|].
  rewrite IH, f_space.
  destruct (Text.rstrip s); simpl; [now destruct (Text.is_space c) | reflexivity].
Qed.

Lemma strip_map (s : string) :
  Text.strip (Text.map_string f s) = Text.map_string f (Text.strip s).
Proof. unfold Text.strip. now rewrite lstrip_map, rstrip_map. Qed.

End StripMap.

Lemma strip_lower (s : string) : Text.strip (Text.lower s) = Text.lower (Text.strip s).
Proof. apply strip_map, is_space_lower_char. Qed.

Lemma strip_upper (s : string) : Text.strip (Text.upper s) = Text.upper (Text.strip s).
Proof. apply strip_map, is_space_upper_char. Qed.

Lemma lstrip_starts_clean (s : string) : starts_clean (Text.lstrip s).
Proof.
  induction s as [|c s IH]; simpl; [exact I|].
  destruct (Text.is_space c) eqn:E; [exact IH | exact E].
Qed.

Lemma lstrip_clean (s : string) : starts_clean s -> Text.lstrip s = s.
Proof. destruct s as [|c s]; simpl; [reflexivity | now intros ->]. Qed.

Lemma rstrip_starts_clean (s : string) : starts_clean s -> starts_clean (Text.rstrip s).
Proof.
  destruct s as [|c s]; simpl; [auto|]. intros E.
  destruct (Text.rstrip s); [rewrite E|]; exact E.
Qed.

Lemma rstrip_cons (c : ascii) (s : string) :
  Text.rstrip s <> "" -> Text.rstrip (String c s) = String c (Text.rstrip s).
Proof. simpl. destruct (Text.rstrip s); [congruence | reflexivity]. Qed.

Lemma rstrip_idem (s : string) : Text.rstrip (Text.rstrip s) = Text.rstrip s.
Proof.
  induction s as [|c s IH]; [reflexivity|].
  destruct (Text.rstrip s) as [|d r] eqn:E.
  - simpl. rewrite E. destruct (Text.is_space c) eqn:Ec; simpl; [reflexivity | now rewrite Ec].
  - rewrite (rstrip_cons c s) by (rewrite E; discriminate).
    rewrite E.
    rewrite (rstrip_cons c (String d r)) by (rewrite IH; discriminate).
    now rewrite IH.
Qed.

Lemma strip_idem (s : string) : Text.strip (Text.strip s) = Text.strip s.
Proof.
  unfold Text.strip.
  rewrite (lstrip_clean (Text.rstrip (Text.lstrip s))).
  - apply rstrip_idem.
  - apply rstrip_starts_clean, lstrip_starts_clean.
Qed.

Lemma rstrip_no_space (s : string) :
  all_chars (fun c => negb (Text.is_space c)) s = true -> Text.rstrip s = s.
Proof.
  induction s as [|c s IH]; simpl; [reflexivity|].
  intros H. apply andb_true_iff in H. destruct H as [Hc Hs].
  rewrite (IH Hs). destruct s; [|reflexivity].
  apply negb_true_iff in Hc. now rewrite Hc.
Qed.

Lemma strip_no_space (s : string) :
  all_chars (fun c => negb (Text.is_space c)) s = true -> Text.strip s = s.
Proof.
  intros H. unfold Text.strip. rewrite lstrip_clean; [now apply rstrip_no_space|].
  destruct s as [|c s]; simpl in *; [exact I|].
  apply andb_true_iff in H. destruct H as [Hc _]. now apply negb_true_iff in Hc.
Qed.

Lemma all_chars_fixed_digits (P : ascii -> bool) digit b :
  (forall d, P (digit d) = true) ->
  forall w n acc, all_chars P acc = true ->
                  all_chars P (Text.fixed_digits digit b w n acc) = true.
Proof.
  intros Hd. induction w as [|w IH]; intros n acc Hacc; simpl; [exact Hacc|].
  apply IH. simpl. now rewrite Hd, Hacc.
Qed.

Lemma all_chars_substring (P : ascii -> bool) : forall (s : string) (n m : nat),
  all_chars P s = true -> all_chars P (substring n m s) = true.
Proof.
  induction s as [|c s IH]; intros n m H; simpl in *.
  - now destruct n, m.
  - apply andb_true_iff in H. destruct H as [Hc Hs].
    destruct n; [destruct m; simpl; [reflexivity | now rewrite Hc, IH] | now apply IH].
Qed.

Lemma all_chars_map (P : ascii -> bool) (f : ascii -> ascii) (s : string) :
  (forall c, P (f c) = P c) -> all_chars P s = true ->
  all_chars P (Text.map_string f s) = true.
Proof.
  intros Hf. induction s as [|c s IH]; simpl; [auto|].
  intros H. apply andb_true_iff in H. destruct H as [Hc Hs].
  now rewrite Hf, Hc, IH.
Qed.

Lemma hex_digit_no_space (d : N) : negb (Text.is_space (Text.hex_digit d)) = true.
Proof.
  unfold Text.hex_digit. generalize (N.to_nat d) as n. intros n.
  do 17 (destruct n as [|n]; [reflexivity|]). reflexivity.
Qed.

Lemma new_unique_id_no_space (rand : N) :
  all_chars (fun c => negb (Text.is_space c)) (Uuid.new_unique_id rand) = true.
Proof.
  unfold Uuid.new_unique_id, Text.upper. rewrite UuidFacts.str_prefix.
  apply all_chars_map.
  - intros c. now rewrite is_space_upper_char.
  - apply all_chars_substring. unfold Text.hex.
    apply all_chars_fixed_digits; [apply hex_digit_no_space | reflexivity].
Qed.

(** ** Prescription retrieval *)

(** X1.  Prescription retrieval returns the rows of [prescriptions]
    whose [patient_id] is the requested one, each exactly once and no
    other row, projected on visit date, doctor, summary, medicine,
    frequency and timing, in non-increasing [visit_date] order; when the
    patient has no row the result is empty. *)
Theorem get_patient_prescriptions_complete_sorted (s : store) (patient_id : string) :
  Permutation (get_patient_prescriptions s patient_id)
    (map rx_columns (filter (fun r => rx_patient_id r =? patient_id) (prescriptions s)))
  /\ (forall row, In row (get_patient_prescriptions s patient_id) <->
        exists r, In r (prescriptions s) /\ rx_patient_id r = patient_id
                  /\ row = rx_columns r)
  /\ StronglySorted (fun a b => (Visit_Date b <=? Visit_Date a) = true)
       (get_patient_prescriptions s patient_id)
  /\ ((forall r, In r (prescriptions s) -> rx_patient_id r <> patient_id) ->
      get_patient_prescriptions s patient_id = []).
Proof.
  pose proof (get_patient_prescriptions_perm s patient_id) as HP.
  split; [exact HP|]. split; [|split].
  - intros row. split.
    + intros Hin. apply (Permutation_in _ HP) in Hin.
      apply in_map_iff in Hin. destruct Hin as [r [<- Hr]].
      apply filter_In in Hr. destruct Hr as [Hr E]. apply String.eqb_eq in E.
      exists r. auto.
    + intros [r [Hr [E ->]]]. apply (Permutation_in _ (Permutation_sym HP)).
      apply in_map, filter_In. split; [exact Hr | now apply String.eqb_eq].
  - unfold get_patient_prescriptions. apply StronglySorted_map.
    apply (order_by_sorted (fun a b => (visit_date b <=? visit_date a)%string)).
    + intros x y. apply String.leb_total.
    + intros x y z H1 H2. eapply string_leb_trans; eauto.
  - intros Hnone.
    assert (E : filter (fun r => rx_patient_id r =? patient_id) (prescriptions s) = []).
    { revert Hnone. generalize (prescriptions s) as l.
      induction l as [|r l IH]; intros Hnone; simpl; [reflexivity|].
      destruct (rx_patient_id r =? patient_id) eqn:Er.
      - apply String.eqb_eq in Er. exfalso. apply (Hnone r); simpl; auto.
      - apply IH. intros w Hw. apply Hnone. now right. }
    unfold get_patient_prescriptions. now rewrite E.
Qed.

(** ** One patient's writes and another patient's reads *)

Lemma filter_app_none {A : Type} (P : A -> bool) (l rows : list A) :
  Forall (fun r => P r = false) rows -> filter P (l ++ rows) = filter P l.
Proof.
  intros H. rewrite filter_app.
  assert (E : filter P rows = []).
  { induction H as [|r rows Hr _ IH]; simpl; [reflexivity | now rewrite Hr]. }
  now rewrite E, app_nil_r.
Qed.

(** X2.  Saving a vital for one patient changes nothing in what
    retrieval returns for any other patient id, and nothing in any
    prescription retrieval. *)
Theorem save_record_other_patients_unchanged (s : store) (user : patient) (rdate : date)
        (weight : Q) (bp_s bp_d hr : Z) (sugar : Q) (other : string) :
  other <> unique_id user ->
  get_patient_vitals (save_record s user rdate weight bp_s bp_d hr sugar) other
  = get_patient_vitals s other
  /\ (forall pid,
        get_patient_prescriptions (save_record s user rdate weight bp_s bp_d hr sugar) pid
        = get_patient_prescriptions s pid).
Proof.
  intros Hne. split; [|reflexivity].
  unfold get_patient_vitals, save_record, insert_vital. simpl.
  rewrite filter_app_none; [reflexivity|].
  constructor; [|constructor]. simpl. apply String.eqb_neq. congruence.
Qed.

(** X3.  Saving a prescription for a typed patient id (ASCII text)
    changes nothing in what prescription retrieval returns for any
    patient id other than the uppercased, trimmed id of the request, and
    nothing in any vital retrieval; this holds whatever the outcome of
    the save. *)
Theorem save_prescription_other_patients_unchanged (s : store) (user : doctor)
        (patient_id : string) (vdate : date) (summ : string) (medicines : list med)
        (other : string) :
  ascii_text patient_id ->
  other <> Text.strip (Text.upper patient_id) ->
  get_patient_prescriptions
    (fst (save_prescription s user patient_id vdate summ medicines)) other
  = get_patient_prescriptions s other
  /\ (forall pid,
        get_patient_vitals (fst (save_prescription s user patient_id vdate summ medicines)) pid
        = get_patient_vitals s pid).
Proof.
  intros _ Hne.
  destruct (save_prescription_cases s user patient_id vdate summ medicines)
    as [[_ ->]|[[_ [_ ->]]|[_ [_ [rows [-> P]]]]]]; simpl; auto.
  split; [|reflexivity].
  unfold get_patient_prescriptions. simpl.
  rewrite filter_app_none; [reflexivity|].
  destruct (rx_payload_rows _ _ _ _ rows _ P) as [_ Hfa].
  revert Hfa. apply Forall_impl. intros r [E _]. apply String.eqb_neq. congruence.
Qed.

(** ** From a write to the next read *)

Lemma filter_all {A : Type} (P : A -> bool) (l : list A) :
  Forall (fun r => P r = true) l -> filter P l = l.
Proof.
  induction 1 as [|r l Hr _ IH]; simpl; [reflexivity | now rewrite Hr, IH].
Qed.

Lemma filter_none {A : Type} (P : A -> bool) (l : list A) :
  Forall (fun r => P r = false) l -> filter P l = [].
Proof.
  induction 1 as [|r l Hr _ IH]; simpl; [reflexivity | now rewrite Hr].
Qed.

(** X4.  In a reachable state, after a prescription save that found the
    patient and whose medicine names are ASCII text, the patient's
    prescription retrieval (under the stored [unique_id]) returns one
    new row per medicine whose name has a character that is not
    whitespace, carrying the doctor's name, the visit date and the
    summary of the request, next to the rows it returned before. *)
Theorem saved_prescription_is_retrieved (a : app) (user : doctor)
        (patient_id : string) (vdate : date) (summ : string) (medicines : list med) :
  reachable a ->
  patient_exists (db a) patient_id = true ->
  Forall (fun m => ascii_text (name m)) medicines ->
  exists p,
    In p (patients (db a))
    /\ unique_id p = Text.strip (Text.upper patient_id)
    /\ Permutation
         (get_patient_prescriptions
            (fst (save_prescription (db a) user patient_id vdate summ medicines))
            (unique_id p))
         (map (fun m => mkRxRow (strftime_ymd vdate) (full_name user) summ
                          (name m) (freq m) (med_timing m))
            (filter (fun m => not_blank (name m)) medicines)
          ++ get_patient_prescriptions (db a) (unique_id p)).
Proof.
  intros Hr Hex _. destruct (reachable_ok a Hr) as [Hok _].
  assert (K : filter (fun m => not_blank (name m)) medicines = filter keeps medicines)
    by (apply filter_ext; intros m; unfold keeps; now rewrite truthy_strip).
  rewrite K.
  destruct (patient_exists_written_id _ _ Hok Hex) as [p [Hp E]].
  exists p. split; [exact Hp|]. split; [exact E|].
  pose proof (patient_exists_nonempty _ _ Hok Hex) as Hne.
  destruct (save_prescription_cases (db a) user patient_id vdate summ medicines)
    as [[Hf _]|[[_ [Hf _]]|[_ [_ [rows [-> P]]]]]]; try congruence.
  eapply perm_trans; [apply get_patient_prescriptions_perm|]. simpl.
  destruct (rx_payload_rows _ _ _ _ rows _ P) as [_ Hfa].
  rewrite filter_app, map_app.
  rewrite (filter_all _ rows).
  - assert (Hcols : map rx_columns rows
                    = map (fun m => mkRxRow (strftime_ymd vdate) (full_name user) summ
                                      (name m) (freq m) (med_timing m))
                        (filter keeps medicines)).
    { assert (H2 := f_equal (map snd) P). rewrite !map_map in H2. exact H2. }
    rewrite Hcols.
    eapply perm_trans; [apply Permutation_app_comm|].
    apply Permutation_app_head, Permutation_sym, get_patient_prescriptions_perm.
  - revert Hfa. apply Forall_impl. intros r [Er _]. apply String.eqb_eq. congruence.
Qed.

(** X5.  In a reachable state, a patient who has just registered has an
    empty vital history and an empty prescription history, and a row
    whose profile fields are all null. *)
Theorem new_patient_has_no_history (a : app) (fname lname em ph : string) (rand : N)
        (s' : store) (uid : string) :
  reachable a ->
  register_patient (db a) fname lname em ph rand = (s', RegistrationSuccessful uid) ->
  get_patient_vitals s' uid = []
  /\ get_patient_prescriptions s' uid = []
  /\ In (mkPatient uid fname (Some lname) em ph None None None None None) (patients s').
Proof.
  intros Hr Hreg. destruct (reachable_ok a Hr) as [Hok _].
  apply register_patient_success in Hreg. destruct Hreg as [_ [Hfresh ->]].
  unfold get_patient_vitals, get_patient_prescriptions. simpl.
  split; [|split].
  - rewrite filter_none; [reflexivity|].
    generalize (vitals_ref _ Hok). apply Forall_impl. intros v Hv.
    apply String.eqb_neq. congruence.
  - rewrite filter_none; [reflexivity|].
    generalize (rx_ref _ Hok). apply Forall_impl. intros r Hv.
    apply String.eqb_neq. congruence.
  - apply in_or_app. right. now left.
Qed.

(** X6.  In a reachable state, after a successful registration the
    patient can log in: every typed first name and id (ASCII text) such
    that the trimmed first name equals the registered first name up to
    letter case, and the trimmed, uppercased id is the returned token,
    logs in as the new row. *)
Theorem registered_patient_can_log_in (a : app) (fname lname em ph : string) (rand : N)
        (s' : store) (uid : string) (fname' uid' : string) :
  reachable a ->
  register_patient (db a) fname lname em ph rand = (s', RegistrationSuccessful uid) ->
  ascii_text fname' -> ascii_text uid' ->
  Text.lower (Text.strip fname') = Text.lower fname ->
  Text.upper (Text.strip uid') = uid ->
  login_patient s' fname' uid'
  = Some (mkPatient uid fname (Some lname) em ph None None None None None).
Proof.
  intros Hr Hreg _ _ Hf Hu. destruct (reachable_ok a Hr) as [Hok _].
  apply register_patient_success in Hreg. destruct Hreg as [Hgen [Hfresh ->]].
  unfold login_patient, login_query. simpl. rewrite filter_app.
  rewrite (filter_none _ (patients (db a))).
  - simpl. unfold login_matches. simpl.
    rewrite strip_lower, strip_upper, Hf, Hu, String.eqb_refl. simpl.
    rewrite Hgen, UuidFacts.new_unique_id_upper, String.eqb_refl. reflexivity.
  - apply Forall_forall. intros q Hq. unfold login_matches.
    apply andb_false_iff. right. apply String.eqb_neq.
    rewrite (generated_id_upper _ _ Hok Hq), strip_upper, Hu.
    intros E. apply Hfresh. rewrite <- E. unfold patient_ids. now apply in_map.
Qed.

Lemma lstrip_same_length (s : string) :
  length (Text.lstrip s) = length s -> Text.lstrip s = s.
Proof.
  destruct s as [|c s]; simpl; [reflexivity|].
  destruct (Text.is_space c); [|reflexivity].
  intros H. pose proof (TextFacts.lstrip_length s). lia.
Qed.

Lemma rstrip_same_length (s : string) :
  length (Text.rstrip s) = length s -> Text.rstrip s = s.
Proof.
  induction s as [|c s IH]; simpl; [reflexivity|].
  pose proof (TextFacts.rstrip_length s) as L.
  destruct (Text.rstrip s) as [|d r] eqn:E.
  - destruct (Text.is_space c); simpl; intros H; [discriminate H|].
    destruct s; [reflexivity | simpl in H; lia].
  - simpl in *. intros H. rewrite IH; [reflexivity | lia].
Qed.

Lemma strip_same_length (s : string) :
  length (Text.strip s) = length s -> Text.strip s = s.
Proof.
  unfold Text.strip. intros H.
  pose proof (TextFacts.rstrip_length (Text.lstrip s)).
  pose proof (TextFacts.lstrip_length s).
  assert (E : Text.lstrip s = s) by (apply lstrip_same_length; lia).
  rewrite E in *. now apply rstrip_same_length.
Qed.

(** X7.  Registration stores the first name as typed, but login trims
    its input: a patient whose stored first name begins or ends with
    whitespace matches no login input at all, whatever the database. *)
Theorem padded_first_name_cannot_log_in (p : patient) :
  Text.strip (first_name p) <> first_name p ->
  forall (s : store) (fname uid : string),
    login_matches fname uid p = false /\ login_patient s fname uid <> Some p.
Proof.
  intros Hpad s fname uid.
  assert (Hm : login_matches fname uid p = false).
  { unfold login_matches. apply andb_false_iff. left. apply String.eqb_neq.
    intros E. apply Hpad. apply strip_same_length.
    assert (E2 : Text.strip (Text.lower (first_name p)) = Text.lower (first_name p))
      by (rewrite E; apply strip_idem).
    rewrite strip_lower in E2. apply (f_equal length) in E2.
    unfold Text.lower in E2. now rewrite !TextFacts.map_string_length in E2. }
  split; [exact Hm|].
  intros H. apply login_patient_in in H. destruct H as [_ H]. congruence.
Qed.

(** X8.  Patient login depends on its input only up to letter case and
    surrounding whitespace: two inputs that agree after trimming and
    case folding get the same answer from every database. *)
Theorem login_ignores_case_and_padding (s : store) (fname uid fname' uid' : string) :
  Text.lower (Text.strip fname) = Text.lower (Text.strip fname') ->
  Text.upper (Text.strip uid) = Text.upper (Text.strip uid') ->
  login_patient s fname uid = login_patient s fname' uid'.
Proof.
  intros Hf Hu. unfold login_patient, login_query.
  rewrite (filter_ext (login_matches fname uid) (login_matches fname' uid'));
    [reflexivity|].
  intros p. unfold login_matches. now rewrite !strip_lower, !strip_upper, Hf, Hu.
Qed.

(** ** Every form submission as a sequence of single statements *)

Lemma writes_one sess s s' : write sess s s' -> writes sess s s'.
Proof. intros H. eapply writes_cons; [exact H | apply writes_nil]. Qed.

Lemma medicine_loop_writes (user : doctor) (pid : string) (vdate : date) (sm : string)
      (p : patient) :
  Text.upper (unique_id p) = Text.strip (Text.upper pid) ->
  forall (medicines : list med) (s : store) (b : bool),
    In p (patients s) ->
    writes (Some (DoctorSession user)) s
      (fst (fold_left (save_medicine pid (full_name user) (strftime_ymd vdate) sm)
              medicines (s, b))).
Proof.
  intros Hp. induction medicines as [|m medicines IH]; intros s b Hin; simpl.
  - apply writes_nil.
  - unfold save_medicine at 2. destruct (Text.truthy (Text.strip (name m))) eqn:K; simpl.
    + eapply writes_cons; [|apply IH; exact Hin].
      rewrite <- Hp. now apply write_prescription.
    + apply IH, Hin.
Qed.

Lemma main_writes (s : store) (sess : option session) (e : event) :
  writes sess s (fst (fst (main s sess e))).
Proof.
  destruct sess as [[user|user]|];
    destruct e as [fname lname em ph rand | fname uid
                  | height dob_d gender_s diet location_s
                  | rdate weight bp_s bp_d hr sugar
                  | fname lname em ph spec | fname lname ph
                  | patient_id vdate summ medicines | ];
    cbv beta iota delta [main]; try apply writes_nil.
  - (* Save Profile *)
    pose proof (write_profile (Some (PatientSession user)) s user height dob_d
                  gender_s diet location_s eq_refl) as W.
    destruct (save_profile s user height dob_d gender_s diet location_s) as [s' u'].
    now apply writes_one.
  - (* Save Record *)
    now apply writes_one, write_vital.
  - (* Save Full Prescription *)
    unfold save_prescription.
    destruct (Text.truthy patient_id); simpl; [|apply writes_nil].
    destruct (patient_exists s patient_id) eqn:Hex; simpl; [|apply writes_nil].
    apply patient_exists_true in Hex. destruct Hex as [p [Hp E]].
    pose proof (medicine_loop_writes user patient_id vdate summ p E medicines s false Hp)
      as W.
    destruct (fold_left _ medicines (s, false)) as [s' saved]. simpl in *.
    now destruct saved.
  - (* Register (patient) *)
    unfold register_patient. destruct (mandatory fname em ph) eqn:M; simpl;
      [|apply writes_nil].
    destruct (insert_patient s _) as [s'|] eqn:E; simpl; [|apply writes_nil].
    eapply writes_one, write_patient; eauto.
  - (* Login (patient) *)
    destruct (login_patient s fname uid); apply writes_nil.
  - (* Register (doctor) *)
    unfold register_doctor.
    destruct (forallb Text.truthy [fname; lname; em; ph; spec]) eqn:M; simpl;
      [|apply writes_nil].
    destruct (insert_doctor s fname lname em ph spec) as [s'|] eqn:E; simpl;
      [|apply writes_nil].
    eapply writes_one, write_doctor; eauto.
  - (* Login (doctor) *)
    destruct (login_doctor s fname lname ph); apply writes_nil.
Qed.

Lemma step_writes (a : app) (act : action) :
  exists sess, writes sess (db a) (db (step a act)).
Proof.
  destruct act as [|i e]; simpl.
  - exists None. apply writes_nil.
  - destruct (nth_error (sessions a) i) as [sess|]; [|exists None; apply writes_nil].
    exists sess. pose proof (main_writes (db a) sess e) as W.
    now destruct (main (db a) sess e) as [[s' sess'] o].
Qed.

(** A property of the database that holds on the empty database and
    survives every single statement holds in every reachable state. *)
Lemma reachable_db_invariant (I : store -> Prop) :
  I empty_store ->
  (forall sess s s', I s -> write sess s s' -> I s') ->
  forall a, reachable a -> I (db a).
Proof.
  intros H0 Hstep a [acts <-]. unfold run.
  assert (G : forall a0, I (db a0) -> I (db (fold_left step acts a0))).
  { induction acts as [|act acts IH]; intros a0 Ha; simpl; [exact Ha|].
    apply IH. destruct (step_writes a0 act) as [sess W].
    induction W as [|s0 s1 s2 W1 _ IHW]; [exact Ha|].
    apply IHW. eapply Hstep; eauto. }
  apply G. exact H0.
Qed.

(** ** Who may write what *)

Lemma update_patients_others uid h d g di l (rows : list patient) :
  Forall2 (fun p p' => unique_id p' = unique_id p /\ (unique_id p <> uid -> p' = p))
    rows (update_patients uid h d g di l rows).
Proof.
  induction rows as [|p rows IH]; simpl; constructor; [|exact IH].
  destruct (unique_id p =? uid) eqn:E; simpl.
  - apply String.eqb_eq in E. split; [reflexivity | congruence].
  - split; [reflexivity | reflexivity].
Qed.

Lemma Forall2_same {A : Type} (R : A -> A -> Prop) (l : list A) :
  (forall x, R x x) -> Forall2 R l l.
Proof. intros HR. induction l; constructor; auto. Qed.

Lemma prefix_of_refl {A : Type} (l : list A) : prefix_of l l.
Proof. exists []. now rewrite app_nil_r. Qed.

Lemma prefix_of_app {A : Type} (l rest : list A) : prefix_of l (l ++ rest).
Proof. now exists rest. Qed.

Lemma prefix_of_trans {A : Type} (l1 l2 l3 : list A) :
  prefix_of l1 l2 -> prefix_of l2 l3 -> prefix_of l1 l3.
Proof. intros [r1 ->] [r2 ->]. exists (r1 ++ r2). now rewrite app_assoc. Qed.

(** X9.  What a form submission can write depends on who is logged in.
    Without a login it can only append patients and doctors: vitals,
    prescriptions and the existing patient and doctor rows stay as they
    are.  A patient session leaves doctors, prescriptions and every other
    patient's row untouched, keeps all patient ids, and appends vitals
    only under the session's own id.  A doctor session leaves patients,
    doctors and vitals untouched and appends prescriptions only under the
    doctor's own display name. *)
Theorem main_writes_within_role (s : store) (sess : option session) (e : event) :
  (sess = None ->
   vitals (fst (fst (main s sess e))) = vitals s
   /\ prescriptions (fst (fst (main s sess e))) = prescriptions s
   /\ prefix_of (patients s) (patients (fst (fst (main s sess e))))
   /\ prefix_of (doctors s) (doctors (fst (fst (main s sess e)))))
  /\ (forall user, sess = Some (PatientSession user) ->
        doctors (fst (fst (main s sess e))) = doctors s
        /\ prescriptions (fst (fst (main s sess e))) = prescriptions s
        /\ Forall2 (fun p p' => unique_id p' = unique_id p
                                /\ (unique_id p <> unique_id user -> p' = p))
             (patients s) (patients (fst (fst (main s sess e))))
        /\ exists new,
             vitals (fst (fst (main s sess e))) = vitals s ++ new
             /\ Forall (fun v => v_patient_id v = unique_id user) new)
  /\ (forall user, sess = Some (DoctorSession user) ->
        patients (fst (fst (main s sess e))) = patients s
        /\ doctors (fst (fst (main s sess e))) = doctors s
        /\ vitals (fst (fst (main s sess e))) = vitals s
        /\ exists new,
             prescriptions (fst (fst (main s sess e))) = prescriptions s ++ new
             /\ Forall (fun r => doctor_name r = full_name user) new).
Proof.
  split; [|split].
  - intros ->.
    destruct e as [fname lname em ph rand | fname uid
                  | height dob_d gender_s diet location_s
                  | rdate weight bp_s bp_d hr sugar
                  | fname lname em ph spec | fname lname ph
                  | patient_id vdate summ medicines | ];
      cbv beta iota delta [main];
      try (simpl; repeat split; apply prefix_of_refl).
    + unfold register_patient. destruct (negb _); simpl;
        [repeat split; apply prefix_of_refl|].
      destruct (insert_patient s _) as [s'|] eqn:E; simpl;
        [|repeat split; apply prefix_of_refl].
      apply insert_patient_some in E. destruct E as [_ ->]. simpl.
      repeat split; [apply prefix_of_app | apply prefix_of_refl].
    + destruct (login_patient s fname uid); simpl; repeat split; apply prefix_of_refl.
    + unfold register_doctor. destruct (negb _); simpl;
        [repeat split; apply prefix_of_refl|].
      unfold insert_doctor. destruct (existsb _ _ || existsb _ _); simpl;
        repeat split; first [apply prefix_of_refl | apply prefix_of_app].
    + destruct (login_doctor s fname lname ph); simpl; repeat split; apply prefix_of_refl.
  - intros user ->.
    assert (Hsame : Forall2 (fun p p' => unique_id p' = unique_id p
                                         /\ (unique_id p <> unique_id user -> p' = p))
                      (patients s) (patients s))
      by (apply Forall2_same; auto).
    destruct e as [fname lname em ph rand | fname uid
                  | height dob_d gender_s diet location_s
                  | rdate weight bp_s bp_d hr sugar
                  | fname lname em ph spec | fname lname ph
                  | patient_id vdate summ medicines | ];
      cbv beta iota delta [main];
      try (simpl; repeat split; [exact Hsame | exists []; now rewrite app_nil_r]).
    + unfold save_profile. simpl. repeat split;
        [apply update_patients_others | exists []; now rewrite app_nil_r].
    + simpl. repeat split; [exact Hsame|].
      eexists. split; [reflexivity|]. now repeat constructor.
  - intros user ->.
    destruct e as [fname lname em ph rand | fname uid
                  | height dob_d gender_s diet location_s
                  | rdate weight bp_s bp_d hr sugar
                  | fname lname em ph spec | fname lname ph
                  | patient_id vdate summ medicines | ];
      cbv beta iota delta [main];
      try (simpl; repeat split; exists []; now rewrite app_nil_r).
    destruct (save_prescription_cases s user patient_id vdate summ medicines)
      as [[_ ->]|[[_ [_ ->]]|[_ [_ [rows [-> P]]]]]]; simpl;
      try (repeat split; exists []; now rewrite app_nil_r).
    repeat split. exists rows. split; [reflexivity|].
    destruct (rx_payload_rows _ _ _ _ rows _ P) as [_ Hfa].
    revert Hfa. apply Forall_impl. tauto.
Qed.

(** ** Tables only grow *)

Lemma grows_refl (s : store) : grows s s.
Proof. repeat split; apply prefix_of_refl. Qed.

Lemma grows_trans (s1 s2 s3 : store) : grows s1 s2 -> grows s2 s3 -> grows s1 s3.
Proof.
  intros [A1 [A2 [A3 A4]]] [B1 [B2 [B3 B4]]].
  repeat split; eapply prefix_of_trans; eauto.
Qed.

Lemma update_patients_identity uid h d g di l rows :
  map identity_columns (update_patients uid h d g di l rows) = map identity_columns rows.
Proof.
  unfold update_patients. rewrite map_map. apply map_ext.
  intros p. now destruct (unique_id p =? uid).
Qed.

Lemma write_grows sess s s' : write sess s s' -> grows s s'.
Proof.
  intros W. destruct W as [fname lname em ph rand s' _ _ E
                          | fname lname em ph spec s' _ _ E
                          | user height dob_d gender_s diet location_s _
                          | user rdate weight bp_s bp_d hr sugar _
                          | user p vdate summ m _ _ _].
  - apply insert_patient_some in E. destruct E as [_ ->].
    repeat split; simpl; try apply prefix_of_refl. rewrite map_app. apply prefix_of_app.
  - unfold insert_doctor in E. destruct (existsb _ _ || existsb _ _); [discriminate|].
    injection E as <-. repeat split; simpl; try apply prefix_of_refl. apply prefix_of_app.
  - repeat split; simpl; try apply prefix_of_refl.
    rewrite update_patients_identity. apply prefix_of_refl.
  - repeat split; simpl; try apply prefix_of_refl. apply prefix_of_app.
  - repeat split; simpl; try apply prefix_of_refl. apply prefix_of_app.
Qed.

Lemma step_grows (a : app) (act : action) : grows (db a) (db (step a act)).
Proof.
  destruct (step_writes a act) as [sess W].
  induction W as [|s0 s1 s2 W1 _ IH]; [apply grows_refl|].
  eapply grows_trans; [eapply write_grows; eauto | exact IH].
Qed.

(** X10.  Whatever the sessions do, starting from any state, the tables
    only grow at the end: the vitals, the prescriptions and the doctors
    present before are still there, unchanged and in their place, and so
    are the id, first name, last name, email and phone of every patient.
    Nothing is ever deleted, and no vital or prescription is ever edited. *)
Theorem history_is_append_only (a : app) (acts : list action) :
  prefix_of (vitals (db a)) (vitals (db (fold_left step acts a)))
  /\ prefix_of (prescriptions (db a)) (prescriptions (db (fold_left step acts a)))
  /\ prefix_of (doctors (db a)) (doctors (db (fold_left step acts a)))
  /\ prefix_of (map identity_columns (patients (db a)))
       (map identity_columns (patients (db (fold_left step acts a)))).
Proof.
  change (grows (db a) (db (fold_left step acts a))).
  revert a. induction acts as [|act acts IH]; intros a; simpl.
  - apply grows_refl.
  - eapply grows_trans; [apply step_grows | apply IH].
Qed.

(** ** Surrogate keys *)

Lemma next_rowid_above {A : Type} (key : A -> N) (rows : list A) :
  Forall (fun r => (key r < next_rowid key rows)%N) rows.
Proof.
  unfold next_rowid. induction rows as [|r rows IH]; cbn [fold_right]; [constructor|].
  set (m := fold_right (fun r m => N.max (key r) m) 0%N rows) in *.
  pose proof (N.le_max_l (key r) m). pose proof (N.le_max_r (key r) m).
  constructor; [lia|].
  revert IH. apply Forall_impl. intros x. lia.
Qed.

Lemma next_rowid_fresh {A : Type} (key : A -> N) (rows : list A) :
  ~ In (next_rowid key rows) (map key rows).
Proof.
  intros H. apply in_map_iff in H. destruct H as [r [E Hr]].
  pose proof (next_rowid_above key rows) as Ha.
  rewrite Forall_forall in Ha. specialize (Ha r Hr). lia.
Qed.

Lemma Forall_snoc {A : Type} (P : A -> Prop) (l : list A) (x : A) :
  Forall P l -> P x -> Forall P (l ++ [x]).
Proof. intros Hl Hx. apply Forall_app. split; [exact Hl | now constructor]. Qed.

Lemma write_rowids sess s s' : rowids_ok s -> write sess s s' -> rowids_ok s'.
Proof.
  intros [V [R [D [V1 [R1 D1]]]]] W.
  destruct W as [fname lname em ph rand s' _ _ E
                | fname lname em ph spec s' _ _ E
                | user height dob_d gender_s diet location_s _
                | user rdate weight bp_s bp_d hr sugar _
                | user p vdate summ m _ _ _].
  - apply insert_patient_some in E. destruct E as [_ ->]. now repeat split.
  - unfold insert_doctor in E. destruct (existsb _ _ || existsb _ _); [discriminate|].
    injection E as <-. repeat split; simpl; try assumption.
    + rewrite map_app. simpl. apply NoDup_snoc; [exact D | apply next_rowid_fresh].
    + apply Forall_snoc; [exact D1|]. cbn [doctor_id vital_id rx_id]. unfold next_rowid. lia.
  - now repeat split.
  - repeat split; simpl; try assumption.
    + rewrite map_app. simpl. apply NoDup_snoc; [exact V | apply next_rowid_fresh].
    + apply Forall_snoc; [exact V1|]. cbn [doctor_id vital_id rx_id]. unfold next_rowid. lia.
  - repeat split; simpl; try assumption.
    + rewrite map_app. simpl. apply NoDup_snoc; [exact R | apply next_rowid_fresh].
    + apply Forall_snoc; [exact R1|]. cbn [doctor_id vital_id rx_id]. unfold next_rowid. lia.
Qed.

(** X11.  In every reachable state the surrogate keys assigned by the
    database are positive and pairwise distinct within their table:
    no two vitals share a [vital_id], no two prescriptions an [rx_id], no
    two doctors a [doctor_id]. *)
Theorem surrogate_keys_unique (a : app) :
  reachable a ->
  NoDup (map vital_id (vitals (db a)))
  /\ NoDup (map rx_id (prescriptions (db a)))
  /\ NoDup (map doctor_id (doctors (db a)))
  /\ Forall (fun v => (1 <= vital_id v)%N) (vitals (db a))
  /\ Forall (fun r => (1 <= rx_id r)%N) (prescriptions (db a))
  /\ Forall (fun d => (1 <= doctor_id d)%N) (doctors (db a)).
Proof.
  apply (reachable_db_invariant rowids_ok).
  - repeat split; constructor.
  - intros sess s s'. apply write_rowids.
Qed.

(** ** Accounts *)

Lemma write_accounts sess s s' : accounts_ok s -> write sess s s' -> accounts_ok s'.
Proof.
  intros [P [D [DE DP]]] W.
  destruct W as [fname lname em ph rand s' _ M E
                | fname lname em ph spec s' _ M E
                | user height dob_d gender_s diet location_s _
                | user rdate weight bp_s bp_d hr sugar _
                | user p vdate summ m _ _ _].
  - apply insert_patient_some in E. destruct E as [_ ->].
    repeat split; simpl; try assumption.
    apply Forall_snoc; [exact P|]. unfold mandatory in M.
    apply andb_true_iff in M. destruct M as [M M3].
    apply andb_true_iff in M. destruct M as [M1 M2].
    repeat split; simpl; now apply TextFacts.truthy_true.
  - unfold insert_doctor in E.
    destruct (existsb (fun q => d_email q =? em) (doctors s)) eqn:E1; [discriminate|].
    destruct (existsb (fun q => d_phone q =? ph) (doctors s)) eqn:E2; [discriminate|].
    injection E as <-. apply existsb_eqb_false in E1, E2.
    simpl in M. rewrite !andb_true_iff in M.
    destruct M as [M1 [M2 [M3 [M4 [M5 _]]]]].
    repeat split; simpl; try assumption.
    + apply Forall_snoc; [exact D|].
      repeat split; simpl; now apply TextFacts.truthy_true.
    + rewrite map_app. now apply NoDup_snoc.
    + rewrite map_app. now apply NoDup_snoc.
  - repeat split; simpl; try assumption.
    unfold update_patients. rewrite Forall_map. revert P. apply Forall_impl.
    intros p Hp. now destruct (unique_id p =? unique_id user).
  - now repeat split.
  - now repeat split.
Qed.

(** X12.  In every reachable state no two patients share a [unique_id],
    an email or a phone, no two doctors share an email or a phone, and no
    account has an empty mandatory field: first name, email and phone of
    a patient, and all five fields of a doctor, are non-empty. *)
Theorem accounts_unique_and_filled (a : app) :
  reachable a ->
  NoDup (map unique_id (patients (db a)))
  /\ NoDup (map email (patients (db a)))
  /\ NoDup (map phone (patients (db a)))
  /\ Forall patient_filled (patients (db a))
  /\ Forall doctor_filled (doctors (db a))
  /\ NoDup (map d_email (doctors (db a)))
  /\ NoDup (map d_phone (doctors (db a))).
Proof.
  intros Hr. destruct (reachable_ok a Hr) as [Hok _].
  split; [exact (ids_nodup _ Hok)|].
  split; [exact (emails_nodup _ Hok)|].
  split; [exact (phones_nodup _ Hok)|].
  revert a Hr Hok. intros a Hr _.
  apply (reachable_db_invariant accounts_ok); [| |exact Hr].
  - repeat split; constructor.
  - intros sess s s'. apply write_accounts.
Qed.

(** ** Stored measurements *)

Lemma positive_or_none_Q_positive (x w : Q) : positive_or_none_Q x = Some w -> 0 < w.
Proof.
  unfold positive_or_none_Q. destruct (Qle_bool x 0) eqn:E; [discriminate|].
  intros H. injection H as <-. apply Qnot_le_lt. intros L.
  apply Qle_bool_iff in L. congruence.
Qed.

Lemma positive_or_none_Z_positive (x w : Z) : positive_or_none_Z x = Some w -> (0 < w)%Z.
Proof.
  unfold positive_or_none_Z. destruct (x >? 0)%Z eqn:E; [|discriminate].
  intros H. injection H as <-. lia.
Qed.

Lemma write_positive sess s s' :
  Forall positive_measurements (vitals s) -> write sess s s' ->
  Forall positive_measurements (vitals s').
Proof.
  intros V W.
  destruct W as [fname lname em ph rand s' _ M E
                | fname lname em ph spec s' _ M E
                | user height dob_d gender_s diet location_s _
                | user rdate weight bp_s bp_d hr sugar _
                | user p vdate summ m _ _ _]; simpl; try assumption.
  - apply insert_patient_some in E. destruct E as [_ ->]. exact V.
  - unfold insert_doctor in E. destruct (existsb _ _ || existsb _ _); [discriminate|].
    injection E as <-. exact V.
  - apply Forall_snoc; [exact V|].
    repeat split; simpl; intros x Hx;
      first [eapply positive_or_none_Q_positive; eassumption
            | eapply positive_or_none_Z_positive; eassumption].
Qed.

(** X13.  In every reachable state every stored measurement is either
    null or strictly positive: no vital row holds a zero or a negative
    weight, blood pressure, heart rate or sugar level, and the rows that
    retrieval returns have the same property. *)
Theorem stored_measurements_positive (a : app) :
  reachable a ->
  Forall positive_measurements (vitals (db a))
  /\ (forall pid row w, In row (get_patient_vitals (db a) pid) ->
        Weight row = Some w -> 0 < w).
Proof.
  intros Hr.
  assert (V : Forall positive_measurements (vitals (db a))).
  { apply (reachable_db_invariant (fun s => Forall positive_measurements (vitals s)));
      [constructor | | exact Hr].
    intros sess s s'. apply write_positive. }
  split; [exact V|].
  intros pid row w Hin Hw.
  apply (Permutation_in _ (get_patient_vitals_perm _ _)) in Hin.
  apply in_map_iff in Hin. destruct Hin as [v [<- Hv]].
  apply filter_In in Hv. destruct Hv as [Hv _].
  rewrite Forall_forall in V. destruct (V v Hv) as [Hpos _]. now apply Hpos.
Qed.

(** ** The weight behind the BMI *)

Lemma get_patient_vitals_sorted (s : store) (pid : string) :
  StronglySorted (fun a b => (Date a <=? Date b) = true) (get_patient_vitals s pid).
Proof.
  unfold get_patient_vitals. apply StronglySorted_map.
  apply (order_by_sorted (fun a b => (record_date a <=? record_date b)%string)).
  - intros x y. apply String.leb_total.
  - intros x y z. apply string_leb_trans.
Qed.

Lemma StronglySorted_filter {A : Type} (R : A -> A -> Prop) (P : A -> bool) (l : list A) :
  StronglySorted R l -> StronglySorted R (filter P l).
Proof.
  induction 1 as [|x l Hs IH Hx]; simpl; [constructor|].
  destruct (P x); [|exact IH]. constructor; [exact IH|].
  rewrite Forall_forall in *. intros y Hy. apply filter_In in Hy. now apply Hx.
Qed.

Lemma StronglySorted_last {A : Type} (R : A -> A -> Prop) (l : list A) (r : A) (rest : list A) :
  (forall x, R x x) -> StronglySorted R l -> rev l = r :: rest ->
  In r l /\ forall x, In x l -> R x r.
Proof.
  intros Hrefl Hs E.
  assert (El : l = rev rest ++ [r])
    by (rewrite <- (rev_involutive l), E; reflexivity).
  subst l. split; [apply in_or_app; right; now left|].
  clear E. induction (rev rest) as [|y l IH]; simpl in *.
  - intros x [<-|[]]. apply Hrefl.
  - inversion Hs as [|? ? Hs' Hy]; subst.
    intros x [<-|Hx]; [|now apply IH].
    rewrite Forall_forall in Hy. apply Hy, in_or_app. right. now left.
Qed.

Lemma notna_any_dropna {A B : Type} (col : A -> option B) (df : list A) :
  notna_any col df = true <-> dropna col df <> [].
Proof.
  unfold notna_any, dropna. induction df as [|r df IH]; simpl.
  - split; [discriminate | congruence].
  - destruct (col r); simpl; [split; [discriminate | reflexivity] | exact IH].
Qed.

Lemma latest_weight_none (df : list vitals_row) :
  latest_weight df = None <-> notna_any Weight df = false.
Proof.
  unfold latest_weight.
  destruct (rev (dropna Weight df)) as [|r rest] eqn:E.
  - assert (D : dropna Weight df = [])
      by (rewrite <- (rev_involutive (dropna Weight df)), E; reflexivity).
    split; [intros _|reflexivity].
    destruct (notna_any Weight df) eqn:N; [|reflexivity].
    apply notna_any_dropna in N. contradiction.
  - assert (Hin : In r (dropna Weight df))
      by (apply in_rev; rewrite E; now left).
    unfold dropna in Hin. apply filter_In in Hin. destruct Hin as [Hin Hw].
    destruct (Weight r) as [w|] eqn:W; [|discriminate].
    split; [discriminate|]. intros N.
    assert (T : notna_any Weight df = true).
    { unfold notna_any. apply existsb_exists. exists r. now rewrite W. }
    congruence.
Qed.

(** X14.  In a reachable state, whenever the BMI guard of the fitness tab
    holds, the height in the session is strictly positive and the weight
    lookup [iloc[-1]] does not fail: it yields a strictly positive
    weight, namely the weight of a returned row whose [record_date] is
    the greatest among the rows that have a weight, in whatever order
    the records were entered. *)
Theorem bmi_guard_gives_latest_weight (a : app) (user : patient) (pid : string) :
  reachable a ->
  bmi_available user (get_patient_vitals (db a) pid) = true ->
  exists h w row,
    height_cm user = Some h /\ 0 < h
    /\ latest_weight (get_patient_vitals (db a) pid) = Some w /\ 0 < w
    /\ In row (get_patient_vitals (db a) pid) /\ Weight row = Some w
    /\ forall r, In r (get_patient_vitals (db a) pid) -> Weight r <> None ->
                 (Date r <=? Date row) = true.
Proof.
  intros Hr G. unfold bmi_available in G.
  destruct (height_cm user) as [h|] eqn:Hh; [|discriminate].
  apply andb_true_iff in G. destruct G as [Gh Gw].
  rewrite has_weight_data_notna in Gw.
  set (df := get_patient_vitals (db a) pid) in *.
  destruct (latest_weight df) as [w|] eqn:L;
    [|apply latest_weight_none in L; congruence].
  unfold latest_weight in L.
  destruct (rev (dropna Weight df)) as [|row rest] eqn:E; [discriminate|].
  assert (Hs : StronglySorted (fun a b => (Date a <=? Date b) = true) (dropna Weight df))
    by (apply StronglySorted_filter, get_patient_vitals_sorted).
  destruct (StronglySorted_last _ _ _ _ (fun x => string_leb_refl (Date x)) Hs E)
    as [Hin Hmax].
  unfold dropna in Hin. apply filter_In in Hin. destruct Hin as [Hin _].
  exists h, w, row. split; [reflexivity|]. split.
  { apply Qnot_le_lt. intros Hle. apply Qle_bool_iff in Hle.
    rewrite Hle in Gh. discriminate. }
  split; [reflexivity|]. split.
  { apply (Permutation_in _ (get_patient_vitals_perm _ _)) in Hin.
    apply in_map_iff in Hin. destruct Hin as [v [Ev Hv]].
    apply filter_In in Hv. destruct Hv as [Hv _].
    assert (V : Forall positive_measurements (vitals (db a))).
    { apply (reachable_db_invariant (fun s => Forall positive_measurements (vitals s)));
        [constructor | | exact Hr].
      intros sess s s'. apply write_positive. }
    rewrite Forall_forall in V. destruct (V v Hv) as [Hpos _].
    apply Hpos. rewrite <- Ev in L. exact L. }
  split; [exact Hin|]. split; [exact L|].
  intros r Hr' Hw. apply Hmax. unfold dropna. apply filter_In.
  split; [exact Hr'|]. now destruct (Weight r).
Qed.

(** X15.  The guard of the fitness plan does not ask for a weight: when
    it holds and no returned row has a weight, the frame is not empty,
    the BMI guard is off, and the weight lookup [iloc[-1]] that the
    handler performs next fails. *)
Theorem fitness_guard_misses_weight (goal_weight : Q) (user : patient)
        (df : list vitals_row) :
  fitness_guard goal_weight user df = true ->
  has_weight_data df = false ->
  df <> [] /\ bmi_available user df = false /\ latest_weight df = None.
Proof.
  intros G H. unfold fitness_guard in G.
  rewrite !andb_true_iff in G. destruct G as [_ G].
  split; [destruct df; [discriminate G | discriminate]|].
  split.
  - unfold bmi_available. rewrite H. destruct (height_cm user); [apply andb_false_r | reflexivity].
  - apply latest_weight_none. now rewrite <- has_weight_data_notna.
Qed.

(** ** The profile form *)

Lemma index_of_some (x : string) : forall (l : list string) (i : nat),
  index_of x l = Some i -> nth_error l i = Some x.
Proof.
  induction l as [|y l IH]; intros i H; simpl in H; [discriminate|].
  destruct (y =? x) eqn:E.
  - injection H as <-. apply String.eqb_eq in E. now subst.
  - destruct (index_of x l) as [j|]; [|discriminate].
    injection H as <-. simpl. now apply IH.
Qed.

Lemma index_of_in (x : string) (l : list string) :
  existsb (fun o => o =? x) l = true -> exists i, index_of x l = Some i.
Proof.
  induction l as [|y l IH]; simpl; [discriminate|].
  destruct (y =? x); simpl; [eauto|].
  intros H. destruct (IH H) as [i ->]. eauto.
Qed.

(** X16.  The preselected entry of a profile selectbox is always a valid
    position: whatever the stored value (null, empty, or a text that is
    not an option), the computation does not raise and the index is
    within the options; a stored value that is a non-empty option is the
    one preselected. *)
Theorem selectbox_index_in_range (options : list string) (v : option string) :
  options <> [] ->
  exists i,
    selectbox_index options v = Some i
    /\ (i < List.length options)%nat
    /\ (forall x, v = Some x -> x <> "" -> In x options ->
          nth_error options i = Some x).
Proof.
  intros Hne.
  assert (H0 : (0 < List.length options)%nat) by (destruct options; simpl; [congruence | lia]).
  unfold selectbox_index. destruct v as [x|].
  - destruct (Text.truthy x && existsb (fun o => o =? x) options) eqn:G.
    + apply andb_true_iff in G. destruct G as [_ G].
      destruct (index_of_in _ _ G) as [i Hi]. exists i. split; [exact Hi|].
      pose proof (index_of_some _ _ _ Hi) as Hn. split.
      * apply nth_error_Some. congruence.
      * intros y Hy _ _. injection Hy as <-. exact Hn.
    + exists O. split; [reflexivity|]. split; [exact H0|].
      intros y Hy Hny Hin. injection Hy as <-. exfalso.
      apply andb_false_iff in G. destruct G as [G|G].
      * apply TextFacts.truthy_true in Hny. congruence.
      * assert (T : existsb (fun o => o =? x) options = true)
          by (apply existsb_exists; exists x; split; [exact Hin | apply String.eqb_refl]).
        congruence.
  - exists O. split; [reflexivity|]. split; [exact H0|]. intros y Hy. discriminate Hy.
Qed.

(** X17.  After "Save Profile" with a gender and a diet taken from the
    two option lists, the form reopens on what was saved: the selectboxes
    preselect the saved gender and diet, and the height field shows the
    saved height. *)
Theorem profile_form_shows_saved_values (s : store) (user : patient) (height : Q)
        (dob_d : date) (gender_s diet location_s : string) :
  In gender_s gender_options ->
  In diet diet_options ->
  exists i j,
    selectbox_index gender_options
      (gender (snd (save_profile s user height dob_d gender_s diet location_s))) = Some i
    /\ nth_error gender_options i = Some gender_s
    /\ selectbox_index diet_options
         (diet_pref (snd (save_profile s user height dob_d gender_s diet location_s)))
       = Some j
    /\ nth_error diet_options j = Some diet
    /\ form_height (snd (save_profile s user height dob_d gender_s diet location_s))
       == height.
Proof.
  intros Hg Hd. unfold save_profile, form_height. simpl.
  assert (Q0 : (if Qeq_bool height 0 then 0 else height) == height).
  { destruct (Qeq_bool height 0) eqn:E; [|reflexivity].
    apply Qeq_bool_iff in E. now rewrite E. }
  simpl in Hg, Hd.
  destruct Hg as [<-|[<-|[<-|[<-|[]]]]]; destruct Hd as [<-|[<-|[<-|[<-|[]]]]];
    do 2 eexists; (split; [reflexivity|]); (split; [reflexivity|]);
    (split; [reflexivity|]); (split; [reflexivity | exact Q0]).
Qed.

(** ** The medicine list *)

(** X18.  "Remove Last" undoes "Add Medicine", and it never fails: on an
    absent or empty list it changes nothing.  The form always starts
    with at least the blank entry when the key is absent, and "Add
    Medicine" makes the list one entry longer with a blank-named entry
    that a save skips. *)
Theorem remove_last_undoes_add (ms : option (list med)) :
  remove_last (add_medicine ms) = Some (match ms with Some l => l | None => [] end)
  /\ remove_last None = None
  /\ remove_last (Some []) = Some []
  /\ form_medicines (add_medicine ms)
     = match ms with Some l => l | None => [] end ++ [blank_medicine]
  /\ filter keeps (form_medicines (add_medicine ms))
     = filter keeps (match ms with Some l => l | None => [] end).
Proof.
  assert (R : forall l : list med,
             remove_last (Some (l ++ [blank_medicine])) = Some l).
  { intros l. unfold remove_last.
    destruct (l ++ [blank_medicine]) as [|m l'] eqn:E.
    - destruct l; discriminate E.
    - rewrite <- E. now rewrite removelast_last. }
  split; [unfold add_medicine; apply R|].
  split; [reflexivity|]. split; [reflexivity|]. split; [reflexivity|].
  unfold add_medicine, form_medicines. rewrite filter_app. simpl.
  now rewrite app_nil_r.
Qed.

(** ** Doctor accounts *)

(** X19.  Doctor registration has exactly three outcomes.  With an empty
    field it fails with the validation error; with all five fields
    filled and an email or a phone that a stored doctor already has, it
    fails with the one generic duplicate error; in both cases the
    database is unchanged.  Otherwise it always succeeds and appends one
    doctor row with the next free [doctor_id]. *)
Theorem register_doctor_outcomes (s : store) (fname lname em ph spec : string) :
  (forallb Text.truthy [fname; lname; em; ph; spec] = false ->
   register_doctor s fname lname em ph spec = (s, ValidationError))
  /\ (forallb Text.truthy [fname; lname; em; ph; spec] = true ->
      In em (map d_email (doctors s)) \/ In ph (map d_phone (doctors s)) ->
      register_doctor s fname lname em ph spec = (s, DuplicateError))
  /\ (forallb Text.truthy [fname; lname; em; ph; spec] = true ->
      ~ In em (map d_email (doctors s)) -> ~ In ph (map d_phone (doctors s)) ->
      register_doctor s fname lname em ph spec
      = (mkStore (patients s)
           (doctors s ++ [mkDoctor (next_rowid doctor_id (doctors s))
                            fname lname em ph spec])
           (vitals s) (prescriptions s),
         DoctorRegistered)).
Proof.
  unfold register_doctor, insert_doctor.
  split; [|split].
  - now intros ->.
  - intros -> H. simpl negb. cbv iota.
    assert (E : existsb (fun q => d_email q =? em) (doctors s)
                || existsb (fun q => d_phone q =? ph) (doctors s) = true).
    { apply orb_true_iff. rewrite !existsb_eqb_true. exact H. }
    now rewrite E.
  - intros -> He Hp. simpl negb. cbv iota.
    apply existsb_eqb_false in He, Hp. now rewrite He, Hp.
Qed.

(** X20.  After a successful doctor registration the doctor can log in:
    every typed first name, last name and phone (ASCII text) such that
    the trimmed names equal the registered names up to letter case and
    the trimmed phone is the registered phone, logs in as the new row,
    from any database. *)
Theorem registered_doctor_can_log_in (s s' : store) (fname lname em ph spec : string)
        (fname' lname' ph' : string) :
  register_doctor s fname lname em ph spec = (s', DoctorRegistered) ->
  ascii_text fname' -> ascii_text lname' -> ascii_text ph' ->
  Text.lower (Text.strip fname') = Text.lower fname ->
  Text.lower (Text.strip lname') = Text.lower lname ->
  Text.strip ph' = ph ->
  login_doctor s' fname' lname' ph'
  = Some (mkDoctor (next_rowid doctor_id (doctors s)) fname lname em ph spec).
Proof.
  intros Hreg _ _ _ Hf Hl Hp. unfold register_doctor in Hreg.
  destruct (negb _); [discriminate|].
  destruct (insert_doctor s fname lname em ph spec) as [s1|] eqn:E; [|discriminate].
  injection Hreg as <-. unfold insert_doctor in E.
  destruct (existsb (fun q => d_email q =? em) (doctors s)) eqn:E1; [discriminate|].
  destruct (existsb (fun q => d_phone q =? ph) (doctors s)) eqn:E2; [discriminate|].
  injection E as <-. apply existsb_eqb_false in E2.
  unfold login_doctor. simpl. rewrite filter_app, filter_none.
  - simpl. rewrite !strip_lower, Hf, Hl, Hp, !String.eqb_refl. reflexivity.
  - apply Forall_forall. intros d Hd. apply andb_false_iff. right.
    apply String.eqb_neq. rewrite Hp. intros Ed. apply E2. rewrite <- Ed.
    now apply in_map.
Qed.

(** ** Dates as TEXT, both formats *)

Lemma strftime_ymd_compare (d1 d2 : date) :
  date_ok d1 -> date_ok d2 ->
  String.compare (strftime_ymd d1) (strftime_ymd d2) = date_compare d1 d2.
Proof.
  intros [Y1 [M1 D1]] [Y2 [M2 D2]].
  unfold strftime_ymd. rewrite !year_text_four by lia. unfold Text.dec, date_compare.
  rewrite <- !fixed_digits_append.
  rewrite fixed_dec_compare by (simpl; lia).
  destruct (year d1 ?= year d2)%N; try reflexivity.
  cbn [append String.compare].
  change (Ascii.compare "-" "-") with Eq. cbv iota.
  rewrite fixed_dec_compare by (simpl; lia).
  destruct (month d1 ?= month d2)%N; try reflexivity.
  cbn [append String.compare].
  change (Ascii.compare "-" "-") with Eq. cbv iota.
  rewrite (fixed_dec_compare 2 (day d1) (day d2) "" "") by (simpl; lia).
  destruct (day d1 ?= day d2)%N; reflexivity.
Qed.

Lemma date_compare_eq (d1 d2 : date) : date_compare d1 d2 = Eq -> d1 = d2.
Proof.
  unfold date_compare. destruct d1 as [y1 m1 x1], d2 as [y2 m2 x2]. simpl.
  destruct (N.compare_spec y1 y2); try discriminate.
  destruct (N.compare_spec m1 m2); try discriminate.
  destruct (N.compare_spec x1 x2); try discriminate.
  intros _. now subst.
Qed.

(** X21.  For dates with a four-digit year, the text written by
    [strftime] in both formats (visit dates and record dates) loses
    nothing and keeps the order: two dates give the same text only when
    they are the same date, and the byte-wise TEXT order that [ORDER BY]
    uses on the texts is the order of the calendar. *)
Theorem date_text_is_faithful (d1 d2 : date) :
  date_ok d1 -> date_ok d2 ->
  (strftime_ymd d1 = strftime_ymd d2 -> d1 = d2)
  /\ (strftime_ymd_hms d1 = strftime_ymd_hms d2 -> d1 = d2)
  /\ ((strftime_ymd d1 <=? strftime_ymd d2)%string = true <-> date_compare d1 d2 <> Gt)
  /\ ((strftime_ymd_hms d1 <=? strftime_ymd_hms d2)%string = true
      <-> date_compare d1 d2 <> Gt).
Proof.
  intros H1 H2.
  pose proof (strftime_ymd_compare d1 d2 H1 H2) as C1.
  pose proof (strftime_ymd_hms_compare d1 d2 H1 H2) as C2.
  assert (R : forall x : string, String.compare x x = Eq).
  { intros x. destruct (String.compare x x) eqn:E; [reflexivity| |];
      pose proof (String.compare_antisym x x) as A; rewrite E in A; discriminate A. }
  split; [|split; [|split]].
  - intros E. apply date_compare_eq. rewrite <- C1, E. apply R.
  - intros E. apply date_compare_eq. rewrite <- C2, E. apply R.
  - unfold String.leb. rewrite C1. destruct (date_compare d1 d2); split; congruence.
  - unfold String.leb. rewrite C2. destruct (date_compare d1 d2); split; congruence.
Qed.

(** ** The format of a token *)

Lemma hex_digit_upper (d : N) : is_upper_hex (Text.upper_char (Text.hex_digit d)) = true.
Proof.
  unfold Text.hex_digit. generalize (N.to_nat d) as n. intros n.
  do 17 (destruct n as [|n]; [reflexivity|]). reflexivity.
Qed.

Lemma all_chars_map_digits (P : ascii -> bool) (f digit : _) b :
  (forall d, P (f (digit d)) = true) ->
  forall w n acc, all_chars P (Text.map_string f acc) = true ->
    all_chars P (Text.map_string f (Text.fixed_digits digit b w n acc)) = true.
Proof.
  intros Hd. induction w as [|w IH]; intros n acc Hacc; simpl; [exact Hacc|].
  apply IH. simpl. now rewrite Hd, Hacc.
Qed.

Lemma map_string_substring (f : ascii -> ascii) : forall (s : string) (n m : nat),
  Text.map_string f (substring n m s) = substring n m (Text.map_string f s).
Proof.
  induction s as [|c s IH]; intros n m; simpl.
  - now destruct n, m.
  - destruct n; [destruct m; simpl; [reflexivity | now rewrite IH] | apply IH].
Qed.

(** X22.  Every token that registration can generate has exactly eight
    characters, each of them a digit or one of the capital letters A to
    F; it contains no whitespace, so uppercasing and trimming leave it as
    it is. *)
Theorem new_unique_id_format (rand : N) :
  length (Uuid.new_unique_id rand) = 8%nat
  /\ all_chars is_upper_hex (Uuid.new_unique_id rand) = true
  /\ Text.upper (Uuid.new_unique_id rand) = Uuid.new_unique_id rand
  /\ Text.strip (Uuid.new_unique_id rand) = Uuid.new_unique_id rand.
Proof.
  split; [apply UuidFacts.new_unique_id_length|].
  split; [|split; [apply UuidFacts.new_unique_id_upper
                  | apply strip_no_space, new_unique_id_no_space]].
  unfold Uuid.new_unique_id, Text.upper. rewrite UuidFacts.str_prefix.
  rewrite map_string_substring. apply all_chars_substring.
  unfold Text.hex. apply all_chars_map_digits; [apply hex_digit_upper | reflexivity].
Qed.

(** ** The shape of stored rows *)

Lemma write_wellformed sess s s' : rows_wellformed s -> write sess s s' -> rows_wellformed s'.
Proof.
  intros [R [V P]] W.
  destruct W as [fname lname em ph rand s' _ M E
                | fname lname em ph spec s' _ M E
                | user height dob_d gender_s diet location_s _
                | user rdate weight bp_s bp_d hr sugar _
                | user p vdate summ m _ _ K].
  - apply insert_patient_some in E. destruct E as [_ ->].
    repeat split; simpl; try assumption.
    apply Forall_snoc; [exact P|]. simpl. intros x Hx. discriminate Hx.
  - unfold insert_doctor in E. destruct (existsb _ _ || existsb _ _); [discriminate|].
    injection E as <-. now repeat split.
  - repeat split; simpl; try assumption.
    unfold update_patients. rewrite Forall_map. revert P. apply Forall_impl.
    intros p Hp. destruct (unique_id p =? unique_id user); [|exact Hp].
    simpl. intros x Hx. injection Hx as <-. eauto.
  - repeat split; simpl; try assumption.
    apply Forall_snoc; [exact V|]. simpl. eauto.
  - repeat split; simpl; try assumption.
    apply Forall_snoc; [exact R|]. simpl. split; [|eauto].
    now apply TextFacts.truthy_true.
Qed.

(** X23.  In every reachable state every stored prescription has a
    medicine name that is not blank after trimming, and every stored
    date is a text that [strftime] wrote for some date: visit dates and
    dates of birth in the [%Y-%m-%d] form (the year unpadded below 1000),
    record dates in that form followed by the midnight time. *)
Theorem stored_rows_wellformed (a : app) :
  reachable a ->
  (forall r, In r (prescriptions (db a)) ->
     Text.strip (medicine r) <> ""
     /\ not_blank (medicine r) = true
     /\ exists d, visit_date r = strftime_ymd d)
  /\ (forall v, In v (vitals (db a)) ->
        exists d, record_date v = (strftime_ymd d ++ " 00:00:00")%string)
  /\ (forall p x, In p (patients (db a)) -> dob p = Some x ->
        exists d, x = strftime_ymd d).
Proof.
  intros Hr.
  assert (H : rows_wellformed (db a)).
  { apply (reachable_db_invariant rows_wellformed); [| |exact Hr].
    - repeat split; constructor.
    - intros sess s s'. apply write_wellformed. }
  destruct H as [R [V P]]. rewrite Forall_forall in R, V, P.
  split; [|split].
  - intros r Hin. destruct (R r Hin) as [Hm [d Hd]].
    split; [exact Hm|]. split; [|eauto].
    rewrite <- truthy_strip. now apply TextFacts.truthy_true.
  - intros v Hin. exact (V v Hin).
  - intros p x Hin Hx. exact (P p Hin x Hx).
Qed.

(** ** When two draws give the same token *)

Lemma fixed_digits_split digit (b : N) (w1 : nat) : forall (w2 : nat) (n : N) (acc : string),
  Text.fixed_digits digit b (w2 + w1) n acc
  = Text.fixed_digits digit b w1 (n / b ^ N.of_nat w2)
      (Text.fixed_digits digit b w2 n acc).
Proof.
  induction w2 as [|w2 IH]; intros n acc.
  - simpl. now rewrite N.div_1_r.
  - change (S w2 + w1)%nat with (S (w2 + w1)). cbn [Text.fixed_digits].
    rewrite IH, Nat2N.inj_succ, N.pow_succ_r', N.Div0.div_div. reflexivity.
Qed.

Lemma map_fixed_digits (f : ascii -> ascii) digit b : forall (w : nat) (n : N) (acc : string),
  Text.map_string f (Text.fixed_digits digit b w n acc)
  = Text.fixed_digits (fun d => f (digit d)) b w n (Text.map_string f acc).
Proof.
  induction w as [|w IH]; intros n acc; simpl; [reflexivity|]. now rewrite IH.
Qed.

Lemma fixed_digits_inj digit (b : N) :
  (0 < b)%N ->
  (forall x y, (x < b)%N -> (y < b)%N -> digit x = digit y -> x = y) ->
  forall (w : nat) (a c : N) (acc1 acc2 : string),
    (a < b ^ N.of_nat w)%N -> (c < b ^ N.of_nat w)%N ->
    Text.fixed_digits digit b w a acc1 = Text.fixed_digits digit b w c acc2 ->
    a = c /\ acc1 = acc2.
Proof.
  intros Hb Hinj. induction w as [|w IH]; intros a c acc1 acc2 Ha Hc E.
  - simpl in *. split; [lia | exact E].
  - rewrite Nat2N.inj_succ, N.pow_succ_r' in Ha, Hc. cbn [Text.fixed_digits] in E.
    apply IH in E; try (apply N.Div0.div_lt_upper_bound; lia).
    destruct E as [Ed Eacc]. injection Eacc as Em ->.
    apply Hinj in Em; try (apply N.mod_lt; lia).
    split; [|reflexivity].
    rewrite (N.div_mod a b), (N.div_mod c b) by lia. now rewrite Ed, Em.
Qed.

Lemma upper_hex_digit_inj (x y : N) :
  (x < 16)%N -> (y < 16)%N ->
  Text.upper_char (Text.hex_digit x) = Text.upper_char (Text.hex_digit y) -> x = y.
Proof.
  intros Hx Hy.
  assert (Cx : In x [0;1;2;3;4;5;6;7;8;9;10;11;12;13;14;15]%N)
    by (simpl; destruct x as [|p]; [tauto|]; do 5 (destruct p as [p|p|]; try lia); tauto).
  assert (Cy : In y [0;1;2;3;4;5;6;7;8;9;10;11;12;13;14;15]%N)
    by (simpl; destruct y as [|p]; [tauto|]; do 5 (destruct p as [p|p|]; try lia); tauto).
  simpl in Cx, Cy.
  repeat (destruct Cx as [<-|Cx];
          [repeat (destruct Cy as [<-|Cy];
                   [first [reflexivity | intros E; discriminate E]|]); contradiction|]).
  contradiction.
Qed.

Lemma uuid4_top_bits (rand : N) :
  (Uuid.uuid4 rand / 2 ^ 96 = (rand mod 2 ^ 128) / 2 ^ 96)%N.
Proof.
  unfold Uuid.uuid4. rewrite <- !N.shiftr_div_pow2.
  rewrite N.shiftr_lor, N.shiftr_ldiff, N.shiftr_lor, N.shiftr_ldiff.
  change (N.shiftr (N.shiftl 49152 48) 96) with 0%N.
  change (N.shiftr (N.shiftl 32768 48) 96) with 0%N.
  change (N.shiftr (N.shiftl 61440 64) 96) with 0%N.
  change (N.shiftr (N.shiftl 4 76) 96) with 0%N.
  now rewrite !N.lor_0_r, !N.ldiff_0_r.
Qed.

Lemma new_unique_id_top_bits (rand : N) :
  Uuid.new_unique_id rand
  = Text.fixed_digits (fun d => Text.upper_char (Text.hex_digit d)) 16 8
      ((rand mod 2 ^ 128) / 2 ^ 96) "".
Proof.
  unfold Uuid.new_unique_id, Text.upper. rewrite UuidFacts.str_prefix.
  unfold Text.hex. change 32%nat with (24 + 8)%nat.
  rewrite fixed_digits_split, fixed_digits_append.
  set (top := Text.fixed_digits Text.hex_digit 16 8 (Uuid.uuid4 rand / 16 ^ N.of_nat 24) "").
  assert (L : length top = 8%nat)
    by (unfold top; now rewrite TextFacts.fixed_digits_length).
  rewrite <- L at 1. rewrite TextFacts.substring_0_append.
  unfold top. rewrite map_fixed_digits. simpl Text.map_string.
  change (16 ^ N.of_nat 24)%N with (2 ^ 96)%N. now rewrite uuid4_top_bits.
Qed.

(** X24.  Two random draws give the same patient token exactly when
    they agree on the first 32 of their 128 bits; the forced version and
    variant bits and the other 96 bits play no part. *)
Theorem new_unique_id_collides_iff (rand1 rand2 : N) :
  Uuid.new_unique_id rand1 = Uuid.new_unique_id rand2
  <-> ((rand1 mod 2 ^ 128) / 2 ^ 96 = (rand2 mod 2 ^ 128) / 2 ^ 96)%N.
Proof.
  rewrite !new_unique_id_top_bits. split; [|now intros ->].
  intros E.
  apply (fixed_digits_inj (fun d => Text.upper_char (Text.hex_digit d)) 16) in E.
  - tauto.
  - lia.
  - apply upper_hex_digit_inj.
  - change (16 ^ N.of_nat 8)%N with (2 ^ 32)%N.
    apply N.Div0.div_lt_upper_bound. change (2 ^ 96 * 2 ^ 32)%N with (2 ^ 128)%N.
    apply N.mod_lt. discriminate.
  - change (16 ^ N.of_nat 8)%N with (2 ^ 32)%N.
    apply N.Div0.div_lt_upper_bound. change (2 ^ 96 * 2 ^ 32)%N with (2 ^ 128)%N.
    apply N.mod_lt. discriminate.
Qed.

(** ** Who signed a prescription *)

Lemma prefix_of_in {A : Type} (l l' : list A) (x : A) : prefix_of l l' -> In x l -> In x l'.
Proof. intros [rest ->] H. apply in_or_app. now left. Qed.

Lemma doctor_session_ok_grows s s' sess :
  grows s s' -> doctor_session_ok s sess -> doctor_session_ok s' sess.
Proof.
  intros [_ [_ [D _]]]. destruct sess as [[u|u]|]; simpl; auto.
  now apply prefix_of_in.
Qed.

Lemma signed_grows s s' r : grows s s' -> signed s r -> signed s' r.
Proof.
  intros [_ [_ [D _]]] [d [Hd E]]. exists d. split; [|exact E].
  eapply prefix_of_in; eauto.
Qed.

Lemma write_signed sess s s' :
  doctor_session_ok s sess -> Forall (signed s) (prescriptions s) -> write sess s s' ->
  Forall (signed s') (prescriptions s').
Proof.
  intros Hs R W. pose proof (write_grows _ _ _ W) as G.
  assert (R' : Forall (signed s') (prescriptions s)).
  { revert R. apply Forall_impl. intros r. now apply signed_grows. }
  destruct W as [fname lname em ph rand s' _ M E
                | fname lname em ph spec s' _ M E
                | user height dob_d gender_s diet location_s _
                | user rdate weight bp_s bp_d hr sugar _
                | user p vdate summ m -> _ K]; simpl in *; try exact R'.
  - apply insert_patient_some in E. destruct E as [_ ->]. exact R'.
  - unfold insert_doctor in E. destruct (existsb _ _ || existsb _ _); [discriminate|].
    injection E as <-. exact R'.
  - apply Forall_snoc; [exact R'|]. exists user. split; [exact Hs | reflexivity].
Qed.

Lemma writes_signed sess s s' :
  writes sess s s' ->
  doctor_session_ok s sess -> Forall (signed s) (prescriptions s) ->
  Forall (signed s') (prescriptions s') /\ grows s s'.
Proof.
  induction 1 as [|s0 s1 s2 W1 _ IH]; intros Hs R.
  - split; [exact R | apply grows_refl].
  - pose proof (write_grows _ _ _ W1) as G.
    destruct IH as [R2 G2].
    + eapply doctor_session_ok_grows; eauto.
    + eapply write_signed; eauto.
    + split; [exact R2 | eapply grows_trans; eauto].
Qed.

Lemma login_doctor_in s fname lname ph u :
  login_doctor s fname lname ph = Some u -> In u (doctors s).
Proof.
  unfold login_doctor.
  destruct (filter _ (doctors s)) as [|d l] eqn:E; [discriminate|].
  intros H. injection H as <-.
  assert (Hin : In d (filter (fun d =>
            (Text.lower (d_first_name d) =? Text.strip (Text.lower fname))
            && (Text.lower (d_last_name d) =? Text.strip (Text.lower lname))
            && (d_phone d =? Text.strip ph)) (doctors s)))
    by (rewrite E; now left).
  now apply filter_In in Hin.
Qed.

Lemma main_doctor_session s sess e :
  doctor_session_ok s sess ->
  doctor_session_ok s (snd (fst (main s sess e))).
Proof.
  intros Hs.
  destruct sess as [[user|user]|];
    destruct e as [fname lname em ph rand | fname uid
                  | height dob_d gender_s diet location_s
                  | rdate weight bp_s bp_d hr sugar
                  | fname lname em ph spec | fname lname ph
                  | patient_id vdate summ medicines | ];
    cbv beta iota delta [main]; try exact Hs; try exact I.
  - now destruct (save_prescription s user patient_id vdate summ medicines).
  - now destruct (register_patient s fname lname em ph rand).
  - now destruct (login_patient s fname uid).
  - now destruct (register_doctor s fname lname em ph spec).
  - destruct (login_doctor s fname lname ph) as [u|] eqn:E; simpl; [|exact I].
    eapply login_doctor_in; eauto.
Qed.

Lemma step_signatures (a : app) (act : action) : signatures_ok a -> signatures_ok (step a act).
Proof.
  intros [S R]. destruct act as [|i e]; simpl.
  - split; [|exact R]. apply Forall_snoc; [exact S | exact I].
  - destruct (nth_error (sessions a) i) as [sess|] eqn:E; [|now split].
    assert (Hs : doctor_session_ok (db a) sess).
    { rewrite Forall_forall in S. apply S. eapply nth_error_In; eauto. }
    pose proof (main_writes (db a) sess e) as W.
    pose proof (main_doctor_session (db a) sess e Hs) as Hs'.
    destruct (main (db a) sess e) as [[s' sess'] o]. simpl in *.
    destruct (writes_signed _ _ _ W Hs R) as [R' G].
    split; simpl; [|exact R'].
    apply set_nth_Forall.
    + revert S. apply Forall_impl. intros x. now apply doctor_session_ok_grows.
    + eapply doctor_session_ok_grows; eauto.
Qed.

(** X25.  In every reachable state every stored prescription carries the
    display name ("Dr. first last", trimmed) of a registered doctor, and
    every doctor session is the session of a registered doctor. *)
Theorem prescriptions_signed_by_registered_doctors (a : app) :
  reachable a ->
  (forall r, In r (prescriptions (db a)) ->
     exists d, In d (doctors (db a)) /\ doctor_name r = full_name d)
  /\ (forall u, In (Some (DoctorSession u)) (sessions a) -> In u (doctors (db a))).
Proof.
  intros [acts <-].
  assert (H : signatures_ok (run acts)).
  { unfold run.
    assert (G : forall a0, signatures_ok a0 -> signatures_ok (fold_left step acts a0)).
    { induction acts as [|act acts IH]; intros a0 H0; simpl; [exact H0|].
      apply IH, step_signatures, H0. }
    apply G. split; constructor. }
  destruct H as [S R]. rewrite Forall_forall in S, R.
  split.
  - intros r Hr. exact (R r Hr).
  - intros u Hu. exact (S _ Hu).
Qed.

(** ** The further theorems at work on the demo session *)

Lemma save_record_other_patients_unchanged_witness :
  "0BADF00D" <> unique_id ann_upper
  /\ (get_patient_vitals
        (save_record ambiguous_store ann_upper (mkDate 2024 3 7) 0 120 80 0 0) "0BADF00D"
      = get_patient_vitals ambiguous_store "0BADF00D"
      /\ (forall pid,
            get_patient_prescriptions
              (save_record ambiguous_store ann_upper (mkDate 2024 3 7) 0 120 80 0 0) pid
            = get_patient_prescriptions ambiguous_store pid)).
Proof.
  assert (H : "0BADF00D" <> unique_id ann_upper) by discriminate.
  split; [exact H|].
  exact (save_record_other_patients_unchanged ambiguous_store ann_upper (mkDate 2024 3 7)
           0 120 80 0 0 "0BADF00D" H).
Defined.

Lemma save_prescription_other_patients_unchanged_witness :
  ascii_text " deadbeef "
  /\ "0BADF00D" <> Text.strip (Text.upper " deadbeef ")
  /\ (get_patient_prescriptions
        (fst (save_prescription (db demo_app) dr_rao " deadbeef " (mkDate 2024 3 8) "Flu"
                demo_medicines)) "0BADF00D"
      = get_patient_prescriptions (db demo_app) "0BADF00D"
      /\ (forall pid,
            get_patient_vitals
              (fst (save_prescription (db demo_app) dr_rao " deadbeef " (mkDate 2024 3 8)
                      "Flu" demo_medicines)) pid
            = get_patient_vitals (db demo_app) pid)).
Proof.
  assert (H : "0BADF00D" <> Text.strip (Text.upper " deadbeef ")) by discriminate.
  split; [reflexivity|]. split; [exact H|].
  exact (save_prescription_other_patients_unchanged (db demo_app) dr_rao " deadbeef "
           (mkDate 2024 3 8) "Flu" demo_medicines "0BADF00D" eq_refl H).
Defined.

Lemma saved_prescription_is_retrieved_witness :
  reachable demo_app
  /\ patient_exists (db demo_app) " deadbeef " = true
  /\ Forall (fun m => ascii_text (name m)) demo_medicines
  /\ exists p,
       In p (patients (db demo_app))
       /\ unique_id p = Text.strip (Text.upper " deadbeef ")
       /\ Permutation
            (get_patient_prescriptions
               (fst (save_prescription (db demo_app) dr_rao " deadbeef " (mkDate 2024 3 8)
                       "Flu" demo_medicines))
               (unique_id p))
            (map (fun m => mkRxRow (strftime_ymd (mkDate 2024 3 8)) (full_name dr_rao) "Flu"
                             (name m) (freq m) (med_timing m))
               (filter (fun m => not_blank (name m)) demo_medicines)
             ++ get_patient_prescriptions (db demo_app) (unique_id p)).
Proof.
  assert (Ha : Forall (fun m => ascii_text (name m)) demo_medicines)
    by (repeat constructor).
  split; [exact demo_app_reachable|]. split; [reflexivity|]. split; [exact Ha|].
  exact (saved_prescription_is_retrieved demo_app dr_rao " deadbeef " (mkDate 2024 3 8)
           "Flu" demo_medicines demo_app_reachable eq_refl Ha).
Defined.

Lemma new_patient_has_no_history_witness :
  reachable demo_app_rx
  /\ register_patient (db demo_app_rx) "Bob" "Roe" "bob@example.org" "555-0102" 42
     = (bob_registered, RegistrationSuccessful "00000000")
  /\ (get_patient_vitals bob_registered "00000000" = []
      /\ get_patient_prescriptions bob_registered "00000000" = []
      /\ In (mkPatient "00000000" "Bob" (Some "Roe") "bob@example.org"
               "555-0102" None None None None None)
            (patients bob_registered)).
Proof.
  assert (H : register_patient (db demo_app_rx) "Bob" "Roe" "bob@example.org" "555-0102" 42
              = (bob_registered, RegistrationSuccessful "00000000"))
    by (vm_compute; reflexivity).
  split; [exact demo_app_rx_reachable|]. split; [exact H|].
  exact (new_patient_has_no_history demo_app_rx "Bob" "Roe" "bob@example.org" "555-0102" 42
           bob_registered "00000000" demo_app_rx_reachable H).
Defined.

Lemma registered_patient_can_log_in_witness :
  reachable demo_app_rx
  /\ register_patient (db demo_app_rx) "Bob" "Roe" "bob@example.org" "555-0102" 42
     = (bob_registered, RegistrationSuccessful "00000000")
  /\ ascii_text " BOB "
  /\ ascii_text "00000000 "
  /\ Text.lower (Text.strip " BOB ") = Text.lower "Bob"
  /\ Text.upper (Text.strip "00000000 ") = "00000000"
  /\ login_patient bob_registered " BOB " "00000000 "
     = Some (mkPatient "00000000" "Bob" (Some "Roe") "bob@example.org" "555-0102"
               None None None None None).
Proof.
  assert (H : register_patient (db demo_app_rx) "Bob" "Roe" "bob@example.org" "555-0102" 42
              = (bob_registered, RegistrationSuccessful "00000000"))
    by (vm_compute; reflexivity).
  split; [exact demo_app_rx_reachable|]. split; [exact H|].
  split; [reflexivity|]. split; [reflexivity|].
  split; [reflexivity|]. split; [reflexivity|].
  exact (registered_patient_can_log_in demo_app_rx "Bob" "Roe" "bob@example.org" "555-0102"
           42 bob_registered "00000000" " BOB " "00000000 " demo_app_rx_reachable H
           eq_refl eq_refl eq_refl eq_refl).
Defined.

Lemma padded_first_name_cannot_log_in_witness :
  Text.strip (first_name (mkPatient "DEADBEEF" "Ann " (Some "Lee") "ann@example.org"
                            "555-0100" None None None None None))
  <> "Ann "
  /\ forall (s : store) (fname uid : string),
       login_matches fname uid
         (mkPatient "DEADBEEF" "Ann " (Some "Lee") "ann@example.org" "555-0100"
            None None None None None) = false
       /\ login_patient s fname uid
          <> Some (mkPatient "DEADBEEF" "Ann " (Some "Lee") "ann@example.org" "555-0100"
                     None None None None None).
Proof.
  assert (H : Text.strip (first_name (mkPatient "DEADBEEF" "Ann " (Some "Lee")
                                        "ann@example.org" "555-0100"
                                        None None None None None)) <> "Ann ")
    by discriminate.
  split; [exact H|].
  exact (padded_first_name_cannot_log_in _ H).
Defined.

Lemma login_ignores_case_and_padding_witness :
  Text.lower (Text.strip " ANN") = Text.lower (Text.strip "ann")
  /\ Text.upper (Text.strip "deadbeef ") = Text.upper (Text.strip "DeadBeef")
  /\ login_patient (db demo_app) " ANN" "deadbeef " = login_patient (db demo_app) "ann" "DeadBeef".
Proof.
  split; [reflexivity|]. split; [reflexivity|].
  exact (login_ignores_case_and_padding (db demo_app) " ANN" "deadbeef " "ann" "DeadBeef"
           eq_refl eq_refl).
Defined.

Lemma surrogate_keys_unique_witness :
  reachable demo_app_rx
  /\ (NoDup (map vital_id (vitals (db demo_app_rx)))
      /\ NoDup (map rx_id (prescriptions (db demo_app_rx)))
      /\ NoDup (map doctor_id (doctors (db demo_app_rx)))
      /\ Forall (fun v => (1 <= vital_id v)%N) (vitals (db demo_app_rx))
      /\ Forall (fun r => (1 <= rx_id r)%N) (prescriptions (db demo_app_rx))
      /\ Forall (fun d => (1 <= doctor_id d)%N) (doctors (db demo_app_rx))).
Proof.
  split; [exact demo_app_rx_reachable|].
  exact (surrogate_keys_unique demo_app_rx demo_app_rx_reachable).
Defined.

Lemma accounts_unique_and_filled_witness :
  reachable demo_app_rx
  /\ (NoDup (map unique_id (patients (db demo_app_rx)))
      /\ NoDup (map email (patients (db demo_app_rx)))
      /\ NoDup (map phone (patients (db demo_app_rx)))
      /\ Forall patient_filled (patients (db demo_app_rx))
      /\ Forall doctor_filled (doctors (db demo_app_rx))
      /\ NoDup (map d_email (doctors (db demo_app_rx)))
      /\ NoDup (map d_phone (doctors (db demo_app_rx)))).
Proof.
  split; [exact demo_app_rx_reachable|].
  exact (accounts_unique_and_filled demo_app_rx demo_app_rx_reachable).
Defined.

Lemma stored_measurements_positive_witness :
  reachable demo_app_rx
  /\ (Forall positive_measurements (vitals (db demo_app_rx))
      /\ (forall pid row w, In row (get_patient_vitals (db demo_app_rx) pid) ->
            Weight row = Some w -> 0 < w)).
Proof.
  split; [exact demo_app_rx_reachable|].
  exact (stored_measurements_positive demo_app_rx demo_app_rx_reachable).
Defined.

Lemma stored_rows_wellformed_witness :
  reachable demo_app_rx
  /\ ((forall r, In r (prescriptions (db demo_app_rx)) ->
         Text.strip (medicine r) <> ""
         /\ not_blank (medicine r) = true
         /\ exists d, visit_date r = strftime_ymd d)
      /\ (forall v, In v (vitals (db demo_app_rx)) ->
            exists d, record_date v = (strftime_ymd d ++ " 00:00:00")%string)
      /\ (forall p x, In p (patients (db demo_app_rx)) -> dob p = Some x ->
            exists d, x = strftime_ymd d)).
Proof.
  split; [exact demo_app_rx_reachable|].
  exact (stored_rows_wellformed demo_app_rx demo_app_rx_reachable).
Defined.

Lemma prescriptions_signed_by_registered_doctors_witness :
  reachable demo_app_rx
  /\ ((forall r, In r (prescriptions (db demo_app_rx)) ->
         exists d, In d (doctors (db demo_app_rx)) /\ doctor_name r = full_name d)
      /\ (forall u, In (Some (DoctorSession u)) (sessions demo_app_rx) ->
            In u (doctors (db demo_app_rx)))).
Proof.
  split; [exact demo_app_rx_reachable|].
  exact (prescriptions_signed_by_registered_doctors demo_app_rx demo_app_rx_reachable).
Defined.

Lemma demo_app_weighed_reachable : reachable demo_app_weighed.
Proof.
  exists (demo_acts ++
            [Submit 1 (SavePrescription "deadbeef" (mkDate 2024 3 8) "Flu" demo_medicines);
             Submit 0 (SaveRecord (mkDate 2024 3 9) (702 # 10) 0 0 0 0)]).
  reflexivity.
Defined.

Lemma bmi_guard_gives_latest_weight_witness :
  reachable demo_app_weighed
  /\ bmi_available ann_session (get_patient_vitals (db demo_app_weighed) "DEADBEEF") = true
  /\ exists h w row,
       height_cm ann_session = Some h /\ 0 < h
       /\ latest_weight (get_patient_vitals (db demo_app_weighed) "DEADBEEF") = Some w
       /\ 0 < w
       /\ In row (get_patient_vitals (db demo_app_weighed) "DEADBEEF")
       /\ Weight row = Some w
       /\ forall r, In r (get_patient_vitals (db demo_app_weighed) "DEADBEEF") ->
                    Weight r <> None -> (Date r <=? Date row) = true.
Proof.
  split; [exact demo_app_weighed_reachable|]. split; [reflexivity|].
  exact (bmi_guard_gives_latest_weight demo_app_weighed ann_session "DEADBEEF"
           demo_app_weighed_reachable eq_refl).
Defined.

Lemma fitness_guard_misses_weight_witness :
  fitness_guard (60 # 1) ann_session (get_patient_vitals (db demo_app_rx) "DEADBEEF") = true
  /\ has_weight_data (get_patient_vitals (db demo_app_rx) "DEADBEEF") = false
  /\ (get_patient_vitals (db demo_app_rx) "DEADBEEF" <> []
      /\ bmi_available ann_session (get_patient_vitals (db demo_app_rx) "DEADBEEF") = false
      /\ latest_weight (get_patient_vitals (db demo_app_rx) "DEADBEEF") = None).
Proof.
  split; [reflexivity|]. split; [reflexivity|].
  exact (fitness_guard_misses_weight (60 # 1) ann_session
           (get_patient_vitals (db demo_app_rx) "DEADBEEF") eq_refl eq_refl).
Defined.

Lemma selectbox_index_in_range_witness :
  gender_options <> []
  /\ exists i,
       selectbox_index gender_options (Some "Other") = Some i
       /\ (i < List.length gender_options)%nat
       /\ (forall x, Some "Other" = Some x -> x <> "" -> In x gender_options ->
             nth_error gender_options i = Some x).
Proof.
  assert (H : gender_options <> []) by discriminate.
  split; [exact H|].
  exact (selectbox_index_in_range gender_options (Some "Other") H).
Defined.

Lemma profile_form_shows_saved_values_witness :
  In "Other" gender_options
  /\ In "Jain" diet_options
  /\ exists i j,
       selectbox_index gender_options
         (gender (snd (save_profile ann_registered ann_session (1702 # 10)
                         (mkDate 1990 4 2) "Other" "Jain" "Pune"))) = Some i
       /\ nth_error gender_options i = Some "Other"
       /\ selectbox_index diet_options
            (diet_pref (snd (save_profile ann_registered ann_session (1702 # 10)
                               (mkDate 1990 4 2) "Other" "Jain" "Pune"))) = Some j
       /\ nth_error diet_options j = Some "Jain"
       /\ form_height (snd (save_profile ann_registered ann_session (1702 # 10)
                              (mkDate 1990 4 2) "Other" "Jain" "Pune"))
          == 1702 # 10.
Proof.
  assert (Hg : In "Other" gender_options) by (simpl; tauto).
  assert (Hd : In "Jain" diet_options) by (simpl; tauto).
  split; [exact Hg|]. split; [exact Hd|].
  exact (profile_form_shows_saved_values ann_registered ann_session (1702 # 10)
           (mkDate 1990 4 2) "Other" "Jain" "Pune" Hg Hd).
Defined.

Lemma registered_doctor_can_log_in_witness :
  register_doctor ann_registered "Raj" "Rao" "raj@example.org" "555-0200" "Cardiology"
  = (mkStore (patients ann_registered) [dr_rao] [] [], DoctorRegistered)
  /\ ascii_text " RAJ" /\ ascii_text "rao " /\ ascii_text " 555-0200 "
  /\ Text.lower (Text.strip " RAJ") = Text.lower "Raj"
  /\ Text.lower (Text.strip "rao ") = Text.lower "Rao"
  /\ Text.strip " 555-0200 " = "555-0200"
  /\ login_doctor (mkStore (patients ann_registered) [dr_rao] [] []) " RAJ" "rao " " 555-0200 "
     = Some (mkDoctor (next_rowid doctor_id (doctors ann_registered)) "Raj" "Rao"
               "raj@example.org" "555-0200" "Cardiology").
Proof.
  split; [reflexivity|]. split; [reflexivity|]. split; [reflexivity|].
  split; [reflexivity|]. split; [reflexivity|]. split; [reflexivity|].
  split; [reflexivity|].
  exact (registered_doctor_can_log_in ann_registered
           (mkStore (patients ann_registered) [dr_rao] [] [])
           "Raj" "Rao" "raj@example.org" "555-0200" "Cardiology"
           " RAJ" "rao " " 555-0200 " eq_refl eq_refl eq_refl eq_refl
           eq_refl eq_refl eq_refl).
Defined.

Lemma date_text_is_faithful_witness :
  date_ok (mkDate 2024 3 7)
  /\ date_ok (mkDate 2024 11 30)
  /\ ((strftime_ymd (mkDate 2024 3 7) = strftime_ymd (mkDate 2024 11 30) ->
       mkDate 2024 3 7 = mkDate 2024 11 30)
      /\ (strftime_ymd_hms (mkDate 2024 3 7) = strftime_ymd_hms (mkDate 2024 11 30) ->
          mkDate 2024 3 7 = mkDate 2024 11 30)
      /\ ((strftime_ymd (mkDate 2024 3 7) <=? strftime_ymd (mkDate 2024 11 30))%string = true
          <-> date_compare (mkDate 2024 3 7) (mkDate 2024 11 30) <> Gt)
      /\ ((strftime_ymd_hms (mkDate 2024 3 7) <=? strftime_ymd_hms (mkDate 2024 11 30))%string
          = true
          <-> date_compare (mkDate 2024 3 7) (mkDate 2024 11 30) <> Gt)).
Proof.
  assert (H1 : date_ok (mkDate 2024 3 7)) by (unfold date_ok; simpl; lia).
  assert (H2 : date_ok (mkDate 2024 11 30)) by (unfold date_ok; simpl; lia).
  split; [exact H1|]. split; [exact H2|].
  exact (date_text_is_faithful (mkDate 2024 3 7) (mkDate 2024 11 30) H1 H2).
Defined.


(** ** Patient login, on reachable states *)



(** ** Canonical tokens *)

Lemma new_unique_id_upper_hex (rand : N) :
  all_chars is_upper_hex (Uuid.new_unique_id rand) = true.
Proof.
  unfold Uuid.new_unique_id, Text.upper. rewrite UuidFacts.str_prefix.
  rewrite map_string_substring. apply all_chars_substring.
  unfold Text.hex. apply all_chars_map_digits; [apply hex_digit_upper | reflexivity].
Qed.

(** C10.  In every reachable state each stored [unique_id] is the first
    eight characters of a UUID already uppercased: it has eight
    characters, each a digit or a capital letter from A to F, and
    uppercasing it changes nothing; the patient id of every stored
    prescription and vital is such a text too.  Hence the uppercased,
    trimmed id that a prescription save writes into its rows is equal,
    character for character, to the stored [unique_id] of the patient
    that the existence check found; and the exact-match filters of vital
    and prescription retrieval return every row that refers to the
    patient, even when the reference is compared case-insensitively. *)
Theorem unique_ids_canonical (a : app) :
  reachable a ->
  (forall p, In p (patients (db a)) ->
     (exists rand, unique_id p = Uuid.new_unique_id rand)
     /\ length (unique_id p) = 8%nat
     /\ all_chars is_upper_hex (unique_id p) = true
     /\ Text.upper (unique_id p) = unique_id p)
  /\ (forall r, In r (prescriptions (db a)) ->
        all_chars is_upper_hex (rx_patient_id r) = true)
  /\ (forall v, In v (vitals (db a)) ->
        all_chars is_upper_hex (v_patient_id v) = true)
  /\ (forall user patient_id vdate summ medicines,
        patient_exists (db a) patient_id = true ->
        exists p, In p (patients (db a))
          /\ Text.upper (unique_id p) = Text.strip (Text.upper patient_id)
          /\ forall r,
               In r (prescriptions
                       (fst (save_prescription (db a) user patient_id vdate summ medicines))) ->
               In r (prescriptions (db a)) \/ rx_patient_id r = unique_id p)
  /\ (forall p v, In p (patients (db a)) -> In v (vitals (db a)) ->
        Text.upper (v_patient_id v) = Text.upper (unique_id p) ->
        In (vitals_columns v) (get_patient_vitals (db a) (unique_id p)))
  /\ (forall p r, In p (patients (db a)) -> In r (prescriptions (db a)) ->
        Text.upper (rx_patient_id r) = Text.upper (unique_id p) ->
        In (rx_columns r) (get_patient_prescriptions (db a) (unique_id p))).
Proof.
  intros Hr. destruct (reachable_ok a Hr) as [Hok _].
  assert (Hhex : forall p, In p (patients (db a)) ->
                           all_chars is_upper_hex (unique_id p) = true).
  { intros p Hp. pose proof (ids_generated _ Hok) as Hg. rewrite Forall_forall in Hg.
    destruct (Hg p Hp) as [rand ->]. apply new_unique_id_upper_hex. }
  split; [|split; [|split; [|split; [|split]]]].
  - intros p Hp. split; [|split; [|split]].
    + pose proof (ids_generated _ Hok) as Hg. rewrite Forall_forall in Hg. auto.
    + now apply (generated_id_length (db a)).
    + now apply Hhex.
    + now apply (generated_id_upper (db a)).
  - intros r Hrx. destruct (store_ok_rx_ref _ _ Hok Hrx) as [q [Hq <-]]. now apply Hhex.
  - intros v Hv. destruct (store_ok_vital_ref _ _ Hok Hv) as [q [Hq <-]]. now apply Hhex.
  - intros user pid vdate summ medicines Hex.
    destruct (patient_exists_written_id _ _ Hok Hex) as [p [Hp E]].
    exists p. split; [exact Hp|]. split.
    + now rewrite (generated_id_upper _ _ Hok Hp).
    + intros r Hin.
      destruct (save_prescription_cases (db a) user pid vdate summ medicines)
        as [[_ Hs]|[[_ [_ Hs]]|[_ [_ [rows [Hs P]]]]]]; rewrite Hs in Hin; simpl in Hin;
        try (now left).
      apply in_app_or in Hin. destruct Hin as [Hin|Hin]; [now left|right].
      destruct (rx_payload_rows _ _ _ _ rows _ P) as [_ Hfa].
      rewrite Forall_forall in Hfa. destruct (Hfa r Hin) as [Hpid _]. congruence.
  - intros p v Hp Hv E.
    destruct (store_ok_vital_ref _ _ Hok Hv) as [q [Hq Eq]].
    rewrite <- Eq, (generated_id_upper _ _ Hok Hq), (generated_id_upper _ _ Hok Hp) in E.
    apply (Permutation_in _ (Permutation_sym (get_patient_vitals_perm _ _))).
    apply in_map, filter_In. split; [exact Hv|]. apply String.eqb_eq. congruence.
  - intros p r Hp Hrx E.
    destruct (store_ok_rx_ref _ _ Hok Hrx) as [q [Hq Eq]].
    rewrite <- Eq, (generated_id_upper _ _ Hok Hq), (generated_id_upper _ _ Hok Hp) in E.
    apply (Permutation_in _ (Permutation_sym (get_patient_prescriptions_perm _ _))).
    apply in_map, filter_In. split; [exact Hrx|]. apply String.eqb_eq. congruence.
Qed.

Lemma unique_ids_canonical_witness :
  reachable demo_app_rx
  /\ ((forall p, In p (patients (db demo_app_rx)) ->
     (exists rand, unique_id p = Uuid.new_unique_id rand)
     /\ length (unique_id p) = 8%nat
     /\ all_chars is_upper_hex (unique_id p) = true
     /\ Text.upper (unique_id p) = unique_id p)
  /\ (forall r, In r (prescriptions (db demo_app_rx)) ->
        all_chars is_upper_hex (rx_patient_id r) = true)
  /\ (forall v, In v (vitals (db demo_app_rx)) ->
        all_chars is_upper_hex (v_patient_id v) = true)
  /\ (forall user patient_id vdate summ medicines,
        patient_exists (db demo_app_rx) patient_id = true ->
        exists p, In p (patients (db demo_app_rx))
          /\ Text.upper (unique_id p) = Text.strip (Text.upper patient_id)
          /\ forall r,
               In r (prescriptions
                       (fst (save_prescription (db demo_app_rx) user patient_id vdate summ medicines))) ->
               In r (prescriptions (db demo_app_rx)) \/ rx_patient_id r = unique_id p)
  /\ (forall p v, In p (patients (db demo_app_rx)) -> In v (vitals (db demo_app_rx)) ->
        Text.upper (v_patient_id v) = Text.upper (unique_id p) ->
        In (vitals_columns v) (get_patient_vitals (db demo_app_rx) (unique_id p)))
  /\ (forall p r, In p (patients (db demo_app_rx)) -> In r (prescriptions (db demo_app_rx)) ->
        Text.upper (rx_patient_id r) = Text.upper (unique_id p) ->
        In (rx_columns r) (get_patient_prescriptions (db demo_app_rx) (unique_id p)))).
Proof.
  split; [exact demo_app_rx_reachable|].
  exact (unique_ids_canonical demo_app_rx demo_app_rx_reachable).
Defined.
